(** * Disaster-Response backend: cache, aggregator, adapters and CRUD routes

    A shallow embedding of the TypeScript backend
    (src/backend/src/services, src/backend/src/routes) and the properties
    stated about it.

    Conventions of the embedding.
    - A JavaScript string is a Rocq [string]; its characters are the code
      units U+0000..U+00FF.
    - Timestamps are [Z] milliseconds since the epoch, as [Date.now()]
      returns them.
    - An [async] function that can reject returns a [result]; the hosted
      database, the clock and the third-party APIs are inputs of the
      functions that call them, and the database tables and the in-memory
      fixture arrays are passed in and returned. *)

From Stdlib Require Import ZArith QArith Ascii String List Bool Lia.
From stdpp Require Import base option list gmap strings pretty.

Local Open Scope string_scope.
Local Open Scope Z_scope.

(** ** JavaScript runtime: outcomes, truthiness, strings *)

Module Js.

(** Outcome of awaiting a promise inside [try]: a value, or a throw. *)
Inductive result (A : Type) : Type :=
| Ok (a : A)
| Throw.
Arguments Ok {A} a.
Arguments Throw {A}.

(** One call of the hosted database client (supabase-js): it resolves
    with data, resolves with [{ error }], or rejects. *)
Inductive DbCall : Type := DbOk | DbError | DbThrow.

(** [!s] is true exactly for the empty string; [string | undefined] is
    an [option string]. *)
Definition truthy (s : string) : bool :=
  match s with EmptyString => false | String _ _ => true end.

Definition truthy_opt (o : option string) : bool :=
  match o with Some s => truthy s | None => false end.

(** [a || b] on strings, [a] possibly undefined. *)
Definition or_else (o : option string) (d : string) : string :=
  match o with
  | Some s => if truthy s then s else d
  | None => d
  end.

(** [new Date(t)] is a valid date iff |t| <= 8.64e15; [toISOString]
    throws a RangeError on an invalid one. *)
Definition valid_time (t : Z) : bool :=
  (Z.abs t <=? 8640000000000000).

(** [s.includes(sub)]. *)
Fixpoint includes (s sub : string) : bool :=
  String.prefix sub s
  || match s with
     | EmptyString => false
     | String _ s' => includes s' sub
     end.

(** [arr.includes(x)] on an array of strings. *)
Definition arr_includes (arr : list string) (x : string) : bool :=
  existsb (String.eqb x) arr.

(** [toLowerCase] on one code unit: A-Z, and the Latin-1 capitals
    U+00C0..U+00DE without the multiplication sign U+00D7. *)
Definition lower_unit (c : ascii) : ascii :=
  let n := N_of_ascii c in
  if ((65 <=? n) && (n <=? 90)
      || (192 <=? n) && (n <=? 222) && negb (n =? 215))%N
  then ascii_of_N (n + 32) else c.

Fixpoint toLowerCase (s : string) : string :=
  match s with
  | EmptyString => EmptyString
  | String c s' => String (lower_unit c) (toLowerCase s')
  end.

(** White space of [trim] among these code units: TAB, LF, VT, FF, CR,
    SPACE and NO-BREAK SPACE. *)
Definition is_space (c : ascii) : bool :=
  let n := N_of_ascii c in
  ((9 <=? n) && (n <=? 13) || (n =? 32) || (n =? 160))%N.

Fixpoint trimStart (s : string) : string :=
  match s with
  | EmptyString => EmptyString
  | String c s' => if is_space c then trimStart s' else s
  end.

Fixpoint trimEnd (s : string) : string :=
  match s with
  | EmptyString => EmptyString
  | String c s' =>
      match trimEnd s' with
      | EmptyString => if is_space c then EmptyString else String c EmptyString
      | r => String c r
      end
  end.

Definition trim (s : string) : string := trimEnd (trimStart s).

(** [Array.prototype.slice(start, end)] with integer arguments:
    a negative index counts from the end. *)
Definition slice {A : Type} (l : list A) (start end_ : Z) : list A :=
  let len := Z.of_nat (length l) in
  let k := if start <? 0 then Z.max (len + start) 0 else Z.min start len in
  let final := if end_ <? 0 then Z.max (len + end_) 0 else Z.min end_ len in
  take (Z.to_nat (final - k)) (drop (Z.to_nat k) l).

(** A JavaScript number that is an integer, NaN or an infinity: what
    [parseInt], integer arithmetic and [Math.ceil] of a quotient give. *)
Inductive num : Type := Int (z : Z) | NaN | PosInf | NegInf.

(** Sums and products of integers are those of the integers: they are
    what the doubles give up to 2^53 in magnitude, past every index into
    an array. *)
Definition num_add (a b : num) : num :=
  match a, b with
  | Int x, Int y => Int (x + y)
  | NaN, _ | _, NaN => NaN
  | PosInf, NegInf | NegInf, PosInf => NaN
  | PosInf, _ | _, PosInf => PosInf
  | NegInf, _ | _, NegInf => NegInf
  end.

Definition num_sign (a : num) : Z :=
  match a with
  | Int x => Z.sgn x
  | PosInf => 1
  | NegInf => -1
  | NaN => 0
  end.

Definition num_mul (a b : num) : num :=
  match a, b with
  | Int x, Int y => Int (x * y)
  | NaN, _ | _, NaN => NaN
  | _, _ =>
      match num_sign a * num_sign b with
      | Z0 => NaN
      | Zpos _ => PosInf
      | Zneg _ => NegInf
      end
  end.

(** [(page - 1) * limit] for parsed [page] and [limit]. *)
Definition offset_of (page limit : num) : num :=
  num_mul (num_add page (Int (-1))) limit.

(** [ToIntegerOrInfinity] as [slice] applies it to an index. *)
Definition to_index (n : num) (len : Z) : Z :=
  match n with
  | Int z => z
  | NaN => 0
  | PosInf => len
  | NegInf => 0
  end.

(** [arr.slice(start, end)] with computed bounds. *)
Definition slice_num {A : Type} (l : list A) (start end_ : num) : list A :=
  slice l (to_index start (Z.of_nat (length l)))
          (to_index end_ (Z.of_nat (length l))).

(** The number value of an integer: the nearest double, ties to the even
    mantissa, and an infinity from 2^1024 - 2^970 on. Integers up to 2^53
    in magnitude are their own value. *)
Definition round_double (z : Z) : num :=
  let a := Z.abs z in
  if a <=? 2 ^ 53 then Int z
  else
    let e := Z.log2 a - 52 in
    let q := Z.shiftr a e in
    let r := a - Z.shiftl q e in
    let half := Z.shiftl 1 (e - 1) in
    let q' := if (half <? r) || ((r =? half) && Z.odd q) then q + 1 else q in
    let m := Z.shiftl q' e in
    if 2 ^ 1024 <=? m then (if 0 <? z then PosInf else NegInf)
    else Int (Z.sgn z * m).

(** [parseInt(s)]: leading white space, a sign, [0x] for radix 16, then
    the longest run of digits; NaN when there is none. The integer read
    is returned as a number value. *)
Definition digit_val (radix : Z) (c : ascii) : option Z :=
  let n := Z.of_N (N_of_ascii c) in
  let v := if (48 <=? n) && (n <=? 57) then n - 48
           else if (97 <=? n) && (n <=? 122) then n - 87
           else if (65 <=? n) && (n <=? 90) then n - 55
           else radix in
  if v <? radix then Some v else None.

Fixpoint digits (radix : Z) (acc : option Z) (s : string) : option Z :=
  match s with
  | EmptyString => acc
  | String c s' =>
      match digit_val radix c with
      | Some v => digits radix (Some (default 0 acc * radix + v)) s'
      | None => acc
      end
  end.

Definition parseInt (s : string) : num :=
  let s1 := trimStart s in
  let '(sign, s2) :=
    match s1 with
    | String "-" r => (-1, r)
    | String "+" r => (1, r)
    | _ => (1, s1)
    end in
  let '(radix, s3) :=
    match s2 with
    | String "0" (String "x" r) | String "0" (String "X" r) => (16, r)
    | _ => (10, s2)
    end in
  match digits radix None s3 with
  | Some v => round_double (sign * v)
  | None => NaN
  end.

(** [parseInt(q as string)] for a query parameter with default [d]. *)
Definition parseInt_or (q : option string) (d : Z) : num :=
  match q with Some s => parseInt s | None => Int d end.

(** [Math.ceil(total / limit)] for an integer [total]. *)
Definition ceil_div (total : Z) (limit : num) : num :=
  match limit with
  | Int 0 => if total =? 0 then NaN else if 0 <? total then PosInf else NegInf
  | Int l => Int (- ((- total) / l))
  | NaN => NaN
  | PosInf | NegInf => Int 0
  end.

End Js.
Export Js.

(** ** services/cacheService.ts *)

Module CacheService.
Section Cache.

(** [value: any]: each caller stores and casts back one type. *)
Context {V : Type}.

(** A row of the [cache] table; [key] is the primary key, so the table
    is a finite map from keys to rows. *)
Record CacheEntry : Type := { value : V; expires_at : Z }.

(** [delete(key)]: throws when the database call fails; a failing call
    leaves the table as it was. *)
Definition delete (r : DbCall) (key : string)
    (tbl : gmap string CacheEntry) : result unit * gmap string CacheEntry :=
  match r with
  | DbOk => (Ok tt, base.delete key tbl)
  | DbError | DbThrow => (Throw, tbl)
  end.

(** [get(key)]: [sel] is the outcome of the select, [del] of the delete
    issued for an expired row, [now] the clock at the comparison. *)
Definition get (sel del : DbCall) (now : Z) (key : string)
    (tbl : gmap string CacheEntry) : option V * gmap string CacheEntry :=
  match sel with
  | DbOk =>
      match tbl !! key with
      | None => (None, tbl)                     (* .single() reports an error *)
      | Some data =>
          if expires_at data <? now then
            (None, snd (delete del key tbl))    (* a throw is caught: null *)
          else (Some (value data), tbl)
      end
  | DbError | DbThrow => (None, tbl)
  end.

(** [set(key, value, ttlSeconds)]: upsert with expiry
    [Date.now() + ttlSeconds * 1000]. *)
Definition set (r : DbCall) (now : Z) (key : string) (v : V)
    (ttlSeconds : Z) (tbl : gmap string CacheEntry)
    : result unit * gmap string CacheEntry :=
  let expiresAt := now + ttlSeconds * 1000 in
  if valid_time expiresAt then
    match r with
    | DbOk => (Ok tt, <[key := {| value := v; expires_at := expiresAt |}]> tbl)
    | DbError | DbThrow => (Throw, tbl)
    end
  else (Throw, tbl).

(** [clearExpired()]: delete where [expires_at < now]. *)
Definition clearExpired (r : DbCall) (now : Z)
    (tbl : gmap string CacheEntry) : result unit * gmap string CacheEntry :=
  match r with
  | DbOk => (Ok tt, filter (fun kv => ¬ (expires_at (snd kv) < now)) tbl)
  | DbError | DbThrow => (Throw, tbl)
  end.

(** [getStats()]. *)
Definition getStats (rTotal rExpired : DbCall) (now : Z)
    (tbl : gmap string CacheEntry) : nat * nat :=
  match rTotal, rExpired with
  | DbOk, DbOk =>
      (size tbl, size (filter (fun kv => expires_at (snd kv) < now) tbl))
  | _, _ => (0%nat, 0%nat)
  end.

End Cache.
Arguments CacheEntry V : clear implicits.

(** What one caller of the cache meets: the outcomes of the database
    calls and the clock readings of its [get] and of its [set]. *)
Record IO : Type := {
  get_select : DbCall;
  get_delete : DbCall;
  get_now : Z;
  set_upsert : DbCall;
  set_now : Z
}.

(** The convenience functions [getCachedData] and [setCachedData]. *)
Definition getCachedData {V : Type} (io : IO) (key : string)
    (tbl : gmap string (CacheEntry V)) : option V * gmap string (CacheEntry V) :=
  get (get_select io) (get_delete io) (get_now io) key tbl.

Definition setCachedData {V : Type} (io : IO) (key : string) (v : V)
    (ttlSeconds : Z) (tbl : gmap string (CacheEntry V))
    : result unit * gmap string (CacheEntry V) :=
  set (set_upsert io) (set_now io) key v ttlSeconds tbl.

End CacheService.


(** ** types/index.ts

    One module per interface, so that fields keep their names. A [number]
    that is only stored and passed on is a rational; an ISO-8601 timestamp
    is the instant it denotes, in milliseconds. *)

Module Location.
Record t : Type := { lat : Q; lng : Q }.
Definition origin : t := {| lat := 0; lng := 0 |}.
End Location.

Module CreateDisasterRequest.
(** A request body: a missing field is [None]. *)
Record t : Type := {
  title : option string;
  location_name : option string;
  description : option string;
  tags : option (list string)
}.
End CreateDisasterRequest.

Module AuditTrail.
Record t : Type := {
  action : string;
  user_id : string;
  timestamp : Z;
  details : option CreateDisasterRequest.t
}.
End AuditTrail.

Module Disaster.
(** [location] is [None] for a database row stored with a null point. *)
Record t : Type := {
  id : string;
  title : string;
  location_name : string;
  location : option Location.t;
  description : string;
  tags : list string;
  owner_id : string;
  created_at : Z;
  updated_at : Z;
  audit_trail : list AuditTrail.t
}.
End Disaster.

Module Resource.
Record t : Type := {
  id : string;
  disaster_id : string;
  name : string;
  location_name : string;
  location : option Location.t;
  type : string;
  capacity : option Q;
  available : option bool;
  created_at : Z
}.
End Resource.

Module SocialMediaPost.
Record t : Type := {
  id : string;
  platform : string;
  user : string;
  content : string;
  timestamp : Z;
  disaster_id : option string;
  priority : string
}.
End SocialMediaPost.

Module GeocodingResult.
Record t : Type := {
  location_name : string;
  lat : Q;
  lng : Q;
  formatted_address : string
}.
End GeocodingResult.

Module ImageVerificationResult.
Record t : Type := {
  is_authentic : bool;
  confidence : Z;
  analysis : string;
  detected_manipulations : list string
}.
End ImageVerificationResult.

(** ** services/blueskyService.ts *)

Module BlueskyService.

(** [classifyPriority(content)]. *)
Definition classifyPriority (content : string) : string :=
  let lowerContent := toLowerCase content in
  if includes lowerContent "urgent" || includes lowerContent "sos"
     || includes lowerContent "emergency" then "urgent"
  else if includes lowerContent "critical" || includes lowerContent "severe"
     || includes lowerContent "danger" then "high"
  else if includes lowerContent "warning" || includes lowerContent "alert"
     || includes lowerContent "caution" then "medium"
  else "low".

(** The optional [engagement] of a [SocialMediaPost], carried beside the
    fields of [SocialMediaPost.t]. *)
Record Engagement : Type := { likes : Q; retweets : Q; replies : Q }.

Record Post : Type := {
  post : SocialMediaPost.t;
  engagement : option Engagement
}.

(** [\d]. *)
Definition is_digit (c : ascii) : bool :=
  let n := N_of_ascii c in ((48 <=? n) && (n <=? 57))%N.

(** The longest run of digits at the start of a string: [(\d+)]. *)
Fixpoint leading_digits (s : string) : string :=
  match s with
  | EmptyString => EmptyString
  | String c s' => if is_digit c then String c (leading_digits s') else EmptyString
  end.

(** The rest of [s] after the literal [p], when [s] starts with it. *)
Fixpoint strip_prefix (p s : string) : option string :=
  match p, s with
  | EmptyString, _ => Some s
  | String a p', String b s' =>
      if Ascii.eqb a b then strip_prefix p' s' else None
  | String _ _, EmptyString => None
  end.

(** [/disaster-(\d+)/] tried at the start of [s]: the captured group. *)
Definition match_here (s : string) : option string :=
  match strip_prefix "disaster-" s with
  | Some rest =>
      match leading_digits rest with
      | EmptyString => None
      | ds => Some ds
      end
  | None => None
  end.

(** [content.match(/disaster-(\d+)/)]: the leftmost match. *)
Fixpoint first_match (s : string) : option string :=
  match match_here s with
  | Some ds => Some ds
  | None =>
      match s with
      | EmptyString => None
      | String _ s' => first_match s'
      end
  end.

(** [extractDisasterId(content)]. *)
Definition extractDisasterId (content : string) : string :=
  default "general" (first_match content).

(** [getMockPosts(keywords, limit)]; [keywords[0]] of an empty array
    prints as [undefined]. The clock readings are one instant [now]. *)
Definition getMockPosts (keywords : list string) (limit : num) (now : Z)
    : list Post :=
  let k0 := default "undefined" (head keywords) in
  let mockPosts :=
    [ {| post :=
           {| SocialMediaPost.id := "mock-" ++ pretty now ++ "-1";
              SocialMediaPost.platform := "bluesky";
              SocialMediaPost.user := "emergency_services.bsky.social";
              SocialMediaPost.content :=
                "URGENT: " ++ k0 ++ " situation reported in downtown area. Evacuation orders issued. #emergency #" ++ k0;
              SocialMediaPost.timestamp := now - 1000 * 60 * 5;
              SocialMediaPost.disaster_id := Some "disaster-1";
              SocialMediaPost.priority := "urgent" |};
         engagement := None |};
      {| post :=
           {| SocialMediaPost.id := "mock-" ++ pretty now ++ "-2";
              SocialMediaPost.platform := "bluesky";
              SocialMediaPost.user := "citizen_reporter.bsky.social";
              SocialMediaPost.content :=
                "Heavy " ++ k0 ++ " damage visible in residential area. Need immediate assistance! #" ++ k0 ++ " #help";
              SocialMediaPost.timestamp := now - 1000 * 60 * 15;
              SocialMediaPost.disaster_id := Some "disaster-1";
              SocialMediaPost.priority := "high" |};
         engagement := None |};
      {| post :=
           {| SocialMediaPost.id := "mock-" ++ pretty now ++ "-3";
              SocialMediaPost.platform := "bluesky";
              SocialMediaPost.user := "relief_worker.bsky.social";
              SocialMediaPost.content :=
                "Red Cross shelter now open for " ++ k0 ++ " victims. Food and medical assistance available. #relief";
              SocialMediaPost.timestamp := now - 1000 * 60 * 30;
              SocialMediaPost.disaster_id := Some "disaster-1";
              SocialMediaPost.priority := "medium" |};
         engagement := None |} ] in
  slice_num mockPosts (Int 0) limit.

(** A post of the search or of an author feed, as the mapping reads it;
    the replies are taken well formed: every post carries its text. *)
Record FeedPost : Type := {
  uri : string;
  handle : string;
  text : string;
  indexedAt : Z;
  likeCount : option Q;
  repostCount : option Q;
  replyCount : option Q
}.

(** [count || 0]. *)
Definition count_or_zero (q : option Q) : Q :=
  match q with
  | Some x => if Qeq_bool x 0 then 0%Q else x
  | None => 0%Q
  end.

(** The [SocialMediaPost] built from a post of the network. *)
Definition toSocialMediaPost (p : FeedPost) : Post :=
  {| post :=
       {| SocialMediaPost.id := uri p;
          SocialMediaPost.platform := "bluesky";
          SocialMediaPost.user := handle p;
          SocialMediaPost.content := text p;
          SocialMediaPost.timestamp := indexedAt p;
          SocialMediaPost.disaster_id := Some (extractDisasterId (text p));
          SocialMediaPost.priority := classifyPriority (text p) |};
     engagement :=
       Some {| likes := count_or_zero (likeCount p);
               retweets := count_or_zero (repostCount p);
               replies := count_or_zero (replyCount p) |} |}.

(** [initialize()]: false without credentials or when the login throws. *)
Definition initialize (identifier password : string) (login : result unit)
    : bool :=
  if negb (truthy identifier) || negb (truthy password) then false
  else match login with Ok _ => true | Throw => false end.

(** [searchDisasterPosts(keywords, limit)]. [search] is the reply of the
    search call: [Ok None] when it carries no [posts]. *)
Definition searchDisasterPosts (io : CacheService.IO)
    (identifier password : string) (login : result unit)
    (search : result (option (list FeedPost))) (now : Z)
    (keywords : list string) (limit : num)
    (tbl : gmap string (CacheService.CacheEntry (list Post)))
    : list Post * gmap string (CacheService.CacheEntry (list Post)) :=
  let cacheKey := "bluesky_search:" ++ String.concat "," keywords in
  let '(cached, tbl1) := CacheService.getCachedData io cacheKey tbl in
  match cached with
  | Some l => (l, tbl1)
  | None =>
      if initialize identifier password login then
        match search with
        | Ok reply =>
            let posts := List.map toSocialMediaPost (default [] reply) in
            match CacheService.setCachedData io cacheKey posts 300 tbl1 with
            | (Ok _, tbl2) => (posts, tbl2)
            | (Throw, tbl2) => (getMockPosts keywords limit now, tbl2)
            end
        | Throw => (getMockPosts keywords limit now, tbl1)
        end
      else (getMockPosts keywords limit now, tbl1)
  end.

(** The accounts read when no handle is given. *)
Definition defaultHandles : list string :=
  ["fema.bsky.social"; "redcross.bsky.social"; "weather.gov.bsky.social";
   "emergency.bsky.social"].

(** The posts of one author feed: an item without a post is skipped, a
    failing feed contributes nothing. *)
Definition feedPosts (feed : result (option (list (option FeedPost))))
    : list Post :=
  match feed with
  | Ok (Some items) =>
      List.map toSocialMediaPost (omap (fun item => item) items)
  | Ok None | Throw => []
  end.

(** [getOfficialUpdates(userHandles, limit)]. [feeds] gives the reply of
    the author feed of each handle. *)
Definition getOfficialUpdates (io : CacheService.IO)
    (identifier password : string) (login : result unit)
    (feeds : string -> result (option (list (option FeedPost)))) (now : Z)
    (userHandles : list string) (limit : num)
    (tbl : gmap string (CacheService.CacheEntry (list Post)))
    : list Post * gmap string (CacheService.CacheEntry (list Post)) :=
  let cacheKey := "bluesky_official:" ++ String.concat "," userHandles in
  let '(cached, tbl1) := CacheService.getCachedData io cacheKey tbl in
  match cached with
  | Some l => (l, tbl1)
  | None =>
      let handles :=
        match userHandles with [] => defaultHandles | _ => userHandles end in
      if initialize identifier password login then
        let posts :=
          List.flat_map (fun handle => feedPosts (feeds handle))
                        (slice handles 0 5) in
        match CacheService.setCachedData io cacheKey posts 300 tbl1 with
        | (Ok _, tbl2) => (slice_num posts (Int 0) limit, tbl2)
        | (Throw, tbl2) =>
            (getMockPosts ["emergency"; "disaster"] limit now, tbl2)
        end
      else (getMockPosts ["emergency"; "disaster"] limit now, tbl1)
  end.

(** What every post built by this service satisfies: the platform
    [bluesky], one of the four labels and a disaster id. *)
Definition well_formed (p : Post) : Prop :=
  SocialMediaPost.platform (post p) = "bluesky"
  /\ In (SocialMediaPost.priority (post p)) ["low"; "medium"; "high"; "urgent"]
  /\ is_Some (SocialMediaPost.disaster_id (post p)).

(** The rank of a priority label, for comparing labels. *)
Definition rank (priority : string) : nat :=
  if String.eqb priority "urgent" then 3
  else if String.eqb priority "high" then 2
  else if String.eqb priority "medium" then 1
  else 0.

End BlueskyService.

(** ** [Buffer.from(s).toString('base64')] *)

Module Buffer.

(** A JavaScript string in full is a sequence of UTF-16 code units; the
    strings of this development are those whose units are below U+0100. *)
Definition units (s : string) : list N :=
  List.map N_of_ascii (list_ascii_of_string s).

Definition is_lead (u : N) : bool := ((55296 <=? u) && (u <=? 56319))%N.
Definition is_trail (u : N) : bool := ((56320 <=? u) && (u <=? 57343))%N.

(** [Buffer.from(s)] on any string: the UTF-8 bytes of its code points. A
    lead surrogate followed by a trail surrogate is one code point of four
    bytes; a surrogate without its partner is written as U+FFFD. *)
Fixpoint fromUnits (us : list N) : list N :=
  match us with
  | [] => []
  | u :: rest =>
      (if u <? 128 then u :: fromUnits rest
       else if u <? 2048 then
         (192 + u / 64) :: (128 + u mod 64) :: fromUnits rest
       else if is_lead u then
         match rest with
         | v :: rest' =>
             if is_trail v then
               let cp := 65536 + (u - 55296) * 1024 + (v - 56320) in
               (240 + cp / 262144) :: (128 + cp / 4096 mod 64)
               :: (128 + cp / 64 mod 64) :: (128 + cp mod 64)
               :: fromUnits rest'
             else 239 :: 191 :: 189 :: fromUnits rest
         | [] => [239; 191; 189]
         end
       else if is_trail u then 239 :: 191 :: 189 :: fromUnits rest
       else (224 + u / 4096) :: (128 + u / 64 mod 64) :: (128 + u mod 64)
            :: fromUnits rest)%N
  end.

(** A well-formed string: 16-bit units, every surrogate in a pair. *)
Fixpoint paired (us : list N) : bool :=
  match us with
  | [] => true
  | u :: rest =>
      if is_lead u then
        match rest with
        | v :: rest' => is_trail v && paired rest'
        | [] => false
        end
      else negb (is_trail u) && (u <? 65536)%N && paired rest
  end.

(** [Buffer.from(s)] on a string of code units below U+0100, where it is
    [fromUnits]: one byte below U+0080, two bytes from there on. *)
Definition from (s : string) : list N :=
  flat_map (fun c => let n := N_of_ascii c in
                     if (n <? 128)%N then [n]
                     else [192 + n / 64; 128 + n mod 64]%N)
           (list_ascii_of_string s).

Definition digit (n : N) : ascii :=
  (if n <? 26 then ascii_of_N (65 + n)
   else if n <? 52 then ascii_of_N (97 + (n - 26))
   else if n <? 62 then ascii_of_N (48 + (n - 52))
   else if n =? 62 then "+"%char else "/"%char)%N.

Fixpoint base64 (bs : list N) : string :=
  match bs with
  | [] => EmptyString
  | [a] =>
      String (digit (a / 4)) (String (digit (a mod 4 * 16)) "==")
  | [a; b] =>
      String (digit (a / 4)) (String (digit (a mod 4 * 16 + b / 16))
        (String (digit (b mod 16 * 4)) "="))
  | a :: b :: c :: rest =>
      String (digit (a / 4)) (String (digit (a mod 4 * 16 + b / 16))
        (String (digit (b mod 16 * 4 + c / 64))
          (String (digit (c mod 64)) (base64 rest))))
  end%N.

Definition toBase64 (s : string) : string := base64 (from s).

(** The inverses, used to show that two inputs never share a key. *)

Definition undigit (c : ascii) : N :=
  let n := N_of_ascii c in
  (if (65 <=? n) && (n <=? 90) then n - 65
   else if (97 <=? n) && (n <=? 122) then n - 97 + 26
   else if (48 <=? n) && (n <=? 57) then n - 48 + 52
   else if n =? 43 then 62 else 63)%N.

Fixpoint unbase64 (s : string) : list N :=
  match s with
  | String c1 (String c2 (String c3 (String c4 rest))) =>
      let d1 := undigit c1 in
      let d2 := undigit c2 in
      let d3 := undigit c3 in
      let d4 := undigit c4 in
      (if Ascii.eqb c3 "=" then [d1 * 4 + d2 / 16]
       else if Ascii.eqb c4 "="
            then [d1 * 4 + d2 / 16; d2 mod 16 * 16 + d3 / 4]
            else (d1 * 4 + d2 / 16) :: (d2 mod 16 * 16 + d3 / 4)
                 :: (d3 mod 4 * 64 + d4) :: unbase64 rest)%N
  | _ => []
  end.

(** The code units that UTF-8 bytes stand for. *)
Fixpoint toUnits (bs : list N) : list N :=
  match bs with
  | [] => []
  | b :: rest =>
      (if b <? 128 then b :: toUnits rest
       else if b <? 224 then
         match rest with
         | b2 :: r => ((b - 192) * 64 + (b2 - 128)) :: toUnits r
         | [] => []
         end
       else if b <? 240 then
         match rest with
         | b2 :: b3 :: r =>
             ((b - 224) * 4096 + (b2 - 128) * 64 + (b3 - 128)) :: toUnits r
         | _ => []
         end
       else
         match rest with
         | b2 :: b3 :: b4 :: r =>
             let cp := (b - 240) * 262144 + (b2 - 128) * 4096
                       + (b3 - 128) * 64 + (b4 - 128) in
             (55296 + (cp - 65536) / 1024) :: (56320 + (cp - 65536) mod 1024)
             :: toUnits r
         | _ => []
         end)%N
  end.

Fixpoint unfrom (bs : list N) : string :=
  match bs with
  | [] => EmptyString
  | b :: rest =>
      if (b <? 128)%N then String (ascii_of_N b) (unfrom rest)
      else
        match rest with
        | b2 :: rest' =>
            String (ascii_of_N ((b - 192) * 64 + (b2 - 128))) (unfrom rest')
        | [] => EmptyString
        end
  end.

End Buffer.

(** ** services/geminiService.ts

    The generative-AI call is an input: [ai] is the text of the response,
    or [Throw] when [generateContent], [result.response] or [text()]
    throws. *)

Module GeminiService.
Import CacheService.

(** [extractLocation(description)]. *)
Definition extractLocation (io : IO) (ai : result string)
    (description : string)
    (tbl : gmap string (CacheEntry GeocodingResult.t))
    : result (option GeocodingResult.t)
      * gmap string (CacheEntry GeocodingResult.t) :=
  let cacheKey := "location_extraction:" ++ Buffer.toBase64 description in
  let '(cached, tbl1) := getCachedData io cacheKey tbl in
  match cached with
  | Some g => (Ok (Some g), tbl1)
  | None =>
      match ai with
      | Throw => (Throw, tbl1)
      | Ok text =>
          let locationName := trim text in
          if negb (truthy locationName)
             || includes (toLowerCase locationName) "null"
             || includes (toLowerCase locationName) "no location"
          then (Ok None, tbl1)
          else
            let geocodingResult :=
              {| GeocodingResult.location_name := locationName;
                 GeocodingResult.lat := 0;
                 GeocodingResult.lng := 0;
                 GeocodingResult.formatted_address := locationName |} in
            match setCachedData io cacheKey geocodingResult 3600 tbl1 with
            | (Ok _, tbl2) => (Ok (Some geocodingResult), tbl2)
            | (Throw, tbl2) => (Throw, tbl2)
            end
      end
  end.

(** [analysisText.match(/\{[\s\S]*\}/)]: from the first opening brace to
    the last closing brace after it. *)
Fixpoint from_first_open (s : string) : option string :=
  match s with
  | EmptyString => None
  | String c s' => if Ascii.eqb c "{" then Some s else from_first_open s'
  end.

Fixpoint upto_last_close (s : string) : option string :=
  match s with
  | EmptyString => None
  | String c s' =>
      match upto_last_close s' with
      | Some r => Some (String c r)
      | None => if Ascii.eqb c "}" then Some (String c EmptyString) else None
      end
  end.

Definition jsonMatch (analysisText : string) : option string :=
  match from_first_open analysisText with
  | Some t => upto_last_close t
  | None => None
  end.

(** The result returned from the outer [catch]. *)
Definition fallbackResult : ImageVerificationResult.t :=
  {| ImageVerificationResult.is_authentic := true;
     ImageVerificationResult.confidence := 30;
     ImageVerificationResult.analysis :=
       "Unable to verify image due to technical error";
     ImageVerificationResult.detected_manipulations := [] |}.

(** The parsing step of [verifyImage]; [JSON_parse] is [JSON.parse]
    followed by the cast to [ImageVerificationResult]. *)
Definition parseAnalysis
    (JSON_parse : string -> result ImageVerificationResult.t)
    (analysisText : string) : ImageVerificationResult.t :=
  let parsed :=
    match jsonMatch analysisText with
    | Some m => JSON_parse m
    | None =>
        Ok {| ImageVerificationResult.is_authentic :=
                negb (includes (toLowerCase analysisText) "fake")
                && negb (includes (toLowerCase analysisText) "manipulated");
              ImageVerificationResult.confidence :=
                if includes analysisText "high" then 80
                else if includes analysisText "medium" then 60 else 40;
              ImageVerificationResult.analysis := analysisText;
              ImageVerificationResult.detected_manipulations :=
                if includes (toLowerCase analysisText) "manipulation"
                then ["Potential editing detected"] else [] |}
    end in
  match parsed with
  | Ok verificationResult => verificationResult
  | Throw =>
      {| ImageVerificationResult.is_authentic := true;
         ImageVerificationResult.confidence := 50;
         ImageVerificationResult.analysis := analysisText;
         ImageVerificationResult.detected_manipulations := [] |}
  end.

(** [verifyImage(imageUrl, disasterContext)]. [image] is the download:
    [Ok b] with [b] the [ok] flag of the response, [Throw] when [fetch]
    or [arrayBuffer] rejects. *)
Definition verifyImage (io : IO) (image : result bool) (ai : result string)
    (JSON_parse : string -> result ImageVerificationResult.t)
    (imageUrl : string) (disasterContext : option string)
    (tbl : gmap string (CacheEntry ImageVerificationResult.t))
    : ImageVerificationResult.t
      * gmap string (CacheEntry ImageVerificationResult.t) :=
  let cacheKey := "image_verification:" ++ Buffer.toBase64 imageUrl in
  let '(cached, tbl1) := getCachedData io cacheKey tbl in
  match cached with
  | Some r => (r, tbl1)
  | None =>
      match image with
      | Throw | Ok false => (fallbackResult, tbl1)
      | Ok true =>
          match ai with
          | Throw => (fallbackResult, tbl1)
          | Ok analysisText =>
              let verificationResult := parseAnalysis JSON_parse analysisText in
              match setCachedData io cacheKey verificationResult 3600 tbl1 with
              | (Ok _, tbl2) => (verificationResult, tbl2)
              | (Throw, tbl2) => (fallbackResult, tbl2)
              end
          end
      end
  end.

Definition validPriorities : list string := ["low"; "medium"; "high"; "urgent"].

(** [classifySocialMediaPriority(content)]. *)
Definition classifySocialMediaPriority (io : IO) (ai : result string)
    (content : string) (tbl : gmap string (CacheEntry string))
    : string * gmap string (CacheEntry string) :=
  let cacheKey := "priority_classification:" ++ Buffer.toBase64 content in
  let '(cached, tbl1) := getCachedData io cacheKey tbl in
  if truthy_opt cached then (default EmptyString cached, tbl1)
  else
    match ai with
    | Throw => ("medium", tbl1)
    | Ok text =>
        let priority := toLowerCase (trim text) in
        let finalPriority :=
          if arr_includes validPriorities priority then priority else "medium" in
        match setCachedData io cacheKey finalPriority 1800 tbl1 with
        | (Ok _, tbl2) => (finalPriority, tbl2)
        | (Throw, tbl2) => ("medium", tbl2)
        end
    end.

End GeminiService.

(** ** services/realTimeDataService.ts

    The third-party replies are inputs. A reply is [Throw] when the call
    rejects or when the mapping over its items throws, [Ok None] when the
    expected list is absent from the body, [Ok (Some items)] otherwise. *)

Module RealTimeDataService.
Import CacheService.

(** An item of the National Weather Service feed, as the mapping reads it. *)
Record NwsFeature : Type := {
  nws_id : string;
  nws_event : option string;
  nws_severity : option string;
  nws_areaDesc : option string;
  nws_description : option string;
  nws_effective : option Z;
  nws_expires : option Z;
  nws_coordinates : list (list (list Q))
}.

(** An element of the [weather] list. *)
Record WeatherAlert : Type := {
  wa_id : string;
  wa_type : option string;
  wa_severity : option string;
  wa_area : option string;
  wa_description : option string;
  wa_effective : option Z;
  wa_expires : option Z;
  wa_coordinates : list (list (list Q))
}.

(** An element of the [emergencyAlerts] list. *)
Record EmergencyAlert : Type := {
  ea_id : string;
  ea_type : string;
  ea_state : string;
  ea_county : string;
  ea_declarationDate : string;
  ea_title : string;
  ea_description : string
}.

Record Report : Type := {
  rp_id : string;
  rp_disaster_id : string;
  rp_user_id : string;
  rp_content : string;
  rp_image_url : option string;
  rp_verification_status : string;
  rp_created_at : Z
}.

(** An item of the Red Cross shelter layer. *)
Record RedCrossFeature : Type := {
  OBJECTID : string;                  (* as the template literal prints it *)
  ShelterName : option string;
  Address : option string;
  geometry : option (Q * Q);          (* x, y *)
  Capacity : option Q
}.

Definition disasterKeywords : list string :=
  ["disaster"; "emergency"; "flood"; "fire"; "earthquake"; "hurricane"; "tornado"].

(** [keyword.charAt(0).toUpperCase() + keyword.slice(1)], for the
    lower-case keywords above. *)
Definition upper_unit (c : ascii) : ascii :=
  let n := N_of_ascii c in
  if ((97 <=? n) && (n <=? 122))%N then ascii_of_N (n - 32) else c.

Definition capitalize (keyword : string) : string :=
  match keyword with
  | EmptyString => EmptyString
  | String c rest => String (upper_unit c) rest
  end.

(** [extractDisasterTitle(content)]. *)
Definition extractDisasterTitle (content : string) : string :=
  match List.find (fun keyword => includes (toLowerCase content) keyword)
                  disasterKeywords with
  | Some keyword => capitalize keyword ++ " Emergency"
  | None => "Emergency Situation"
  end.

(** [extractTags(content)]. *)
Definition extractTags (content : string) : list string :=
  List.filter (fun keyword => includes (toLowerCase content) keyword)
              disasterKeywords.

(** [getDisastersFromBluesky()]; [posts] is [searchDisasterPosts(...)]. *)
Definition getDisastersFromBluesky (posts : result (list SocialMediaPost.t))
    : list Disaster.t :=
  match posts with
  | Ok posts =>
      List.map (fun post =>
        {| Disaster.id := "bluesky-" ++ SocialMediaPost.id post;
           Disaster.title := extractDisasterTitle (SocialMediaPost.content post);
           Disaster.location_name := "Unknown Location";
           Disaster.location := Some Location.origin;
           Disaster.description := SocialMediaPost.content post;
           Disaster.tags := extractTags (SocialMediaPost.content post);
           Disaster.owner_id := SocialMediaPost.user post;
           Disaster.created_at := SocialMediaPost.timestamp post;
           Disaster.updated_at := SocialMediaPost.timestamp post;
           Disaster.audit_trail := [] |}) posts
  | Throw => []
  end.

(** [getDisastersFromEmergencyServices()]. *)
Definition getDisastersFromEmergencyServices : list Disaster.t := [].

(** [getRealTimeWeather(disasterId)]. *)
Definition getRealTimeWeather (io : IO)
    (nws : result (option (list NwsFeature)))
    (disasterId : option string)
    (tbl : gmap string (CacheEntry (list WeatherAlert)))
    : list WeatherAlert * gmap string (CacheEntry (list WeatherAlert)) :=
  let cacheKey := "realtime_weather:" ++ or_else disasterId "all" in
  let '(cached, tbl1) := getCachedData io cacheKey tbl in
  match cached with
  | Some l => (l, tbl1)
  | None =>
      let weatherData :=
        match nws with
        | Ok (Some features) =>
            List.map (fun feature =>
              {| wa_id := nws_id feature;
                 wa_type := nws_event feature;
                 wa_severity := nws_severity feature;
                 wa_area := nws_areaDesc feature;
                 wa_description := nws_description feature;
                 wa_effective := nws_effective feature;
                 wa_expires := nws_expires feature;
                 wa_coordinates := nws_coordinates feature |}) features
        | Ok None | Throw => []
        end in
      match setCachedData io cacheKey weatherData 300 tbl1 with
      | (Ok _, tbl2) => (weatherData, tbl2)
      | (Throw, tbl2) => ([], tbl2)
      end
  end.

(** The mapping of [getDisastersFromWeatherAlerts]; it throws on an
    alert without a type ([alert.type.toLowerCase()]). *)
Fixpoint disastersOfAlerts (now : Z) (alerts : list WeatherAlert)
    : result (list Disaster.t) :=
  match alerts with
  | [] => Ok []
  | alert :: rest =>
      match wa_type alert, disastersOfAlerts now rest with
      | Some type, Ok ds =>
          Ok ({| Disaster.id := "weather-" ++ wa_id alert;
                 Disaster.title := type ++ " Alert";
                 Disaster.location_name := or_else (wa_area alert) "Unknown Location";
                 Disaster.location := Some Location.origin;
                 Disaster.description :=
                   or_else (wa_description alert) ("Weather alert: " ++ type);
                 Disaster.tags := ["weather"; toLowerCase type; "alert"];
                 Disaster.owner_id := "weather_service";
                 Disaster.created_at := default now (wa_effective alert);
                 Disaster.updated_at := default now (wa_expires alert);
                 Disaster.audit_trail := [] |} :: ds)
      | _, _ => Throw
      end
  end.

(** [getDisastersFromWeatherAlerts()]: it calls [getRealTimeWeather()]
    without a disaster id. *)
Definition getDisastersFromWeatherAlerts (wio : IO)
    (nws : result (option (list NwsFeature))) (now : Z)
    (wtbl : gmap string (CacheEntry (list WeatherAlert)))
    : list Disaster.t * gmap string (CacheEntry (list WeatherAlert)) :=
  let '(weatherAlerts, wtbl1) := getRealTimeWeather wio nws None wtbl in
  match disastersOfAlerts now weatherAlerts with
  | Ok ds => (ds, wtbl1)
  | Throw => ([], wtbl1)
  end.

(** [getRealTimeDisasters(disasterId)]. *)
Definition getRealTimeDisasters (io wio : IO)
    (posts : result (list SocialMediaPost.t))
    (nws : result (option (list NwsFeature))) (now : Z)
    (disasterId : option string)
    (tbl : gmap string (CacheEntry (list Disaster.t)))
    (wtbl : gmap string (CacheEntry (list WeatherAlert)))
    : list Disaster.t
      * gmap string (CacheEntry (list Disaster.t))
      * gmap string (CacheEntry (list WeatherAlert)) :=
  let cacheKey := "realtime_disasters:" ++ or_else disasterId "all" in
  let '(cached, tbl1) := getCachedData io cacheKey tbl in
  match cached with
  | Some l => (l, tbl1, wtbl)
  | None =>
      let blueskyDisasters := getDisastersFromBluesky posts in
      let emergencyDisasters := getDisastersFromEmergencyServices in
      let '(weatherDisasters, wtbl1) :=
        getDisastersFromWeatherAlerts wio nws now wtbl in
      let disasters :=
        (blueskyDisasters ++ emergencyDisasters ++ weatherDisasters)%list in
      let filteredDisasters :=
        match disasterId with
        | Some d =>
            if truthy d
            then List.filter (fun x => String.eqb (Disaster.id x) d) disasters
            else disasters
        | None => disasters
        end in
      match setCachedData io cacheKey filteredDisasters 120 tbl1 with
      | (Ok _, tbl2) => (filteredDisasters, tbl2, wtbl1)
      | (Throw, tbl2) => ([], tbl2, wtbl1)
      end
  end.

(** [p.disaster_id === disasterId]. *)
Definition correlated (p : SocialMediaPost.t) (d : string) : bool :=
  match SocialMediaPost.disaster_id p with
  | Some x => String.eqb x d
  | None => false
  end.

(** [getRealTimeSocialMedia(disasterId)]; [search] and [official] are
    [searchDisasterPosts(...)] and [getOfficialUpdates()]. *)
Definition getRealTimeSocialMedia (io : IO)
    (search official : result (list SocialMediaPost.t))
    (disasterId : option string)
    (tbl : gmap string (CacheEntry (list SocialMediaPost.t)))
    : list SocialMediaPost.t
      * gmap string (CacheEntry (list SocialMediaPost.t)) :=
  let cacheKey := "realtime_social:" ++ or_else disasterId "all" in
  let '(cached, tbl1) := getCachedData io cacheKey tbl in
  match cached with
  | Some l => (l, tbl1)
  | None =>
      let blueskyPosts := match search with Ok l => l | Throw => [] end in
      let officialPosts := match official with Ok l => l | Throw => [] end in
      let posts := (blueskyPosts ++ officialPosts)%list in
      let filteredPosts :=
        match disasterId with
        | Some d =>
            if truthy d then List.filter (fun p => correlated p d) posts
            else posts
        | None => posts
        end in
      match setCachedData io cacheKey filteredPosts 60 tbl1 with
      | (Ok _, tbl2) => (filteredPosts, tbl2)
      | (Throw, tbl2) => ([], tbl2)
      end
  end.

(** [x || undefined] and [x || 0] on a number. *)
Definition nonzero (q : option Q) : option Q :=
  match q with
  | Some x => if Qeq_bool x 0 then None else Some x
  | None => None
  end.

(** [getRealTimeResources(disasterId)]. *)
Definition getRealTimeResources (io : IO)
    (redcross : result (option (list RedCrossFeature))) (now : Z)
    (disasterId : option string)
    (tbl : gmap string (CacheEntry (list Resource.t)))
    : list Resource.t * gmap string (CacheEntry (list Resource.t)) :=
  let cacheKey := "realtime_resources:" ++ or_else disasterId "all" in
  let '(cached, tbl1) := getCachedData io cacheKey tbl in
  match cached with
  | Some l => (l, tbl1)
  | None =>
      let resources :=
        match redcross with
        | Ok (Some features) =>
            List.map (fun feature =>
              {| Resource.id := "redcross-" ++ OBJECTID feature;
                 Resource.disaster_id := or_else disasterId "general";
                 Resource.name := or_else (ShelterName feature) "Red Cross Shelter";
                 Resource.location_name :=
                   or_else (Address feature) "Unknown Location";
                 Resource.location :=
                   Some {| Location.lat :=
                             default 0%Q (nonzero (snd <$> geometry feature));
                           Location.lng :=
                             default 0%Q (nonzero (fst <$> geometry feature)) |};
                 Resource.type := "shelter";
                 Resource.capacity := nonzero (Capacity feature);
                 Resource.available := Some true;
                 Resource.created_at := now |}) features
        | Ok None | Throw => []
        end in
      match setCachedData io cacheKey resources 900 tbl1 with
      | (Ok _, tbl2) => (resources, tbl2)
      | (Throw, tbl2) => ([], tbl2)
      end
  end.

(** [getRealTimeReports(disasterId)]. *)
Definition getRealTimeReports (io : IO) (disasterId : option string)
    (tbl : gmap string (CacheEntry (list Report)))
    : list Report * gmap string (CacheEntry (list Report)) :=
  let cacheKey := "realtime_reports:" ++ or_else disasterId "all" in
  let '(cached, tbl1) := getCachedData io cacheKey tbl in
  match cached with
  | Some l => (l, tbl1)
  | None =>
      let reports : list Report := [] in
      match setCachedData io cacheKey reports 300 tbl1 with
      | (Ok _, tbl2) => (reports, tbl2)
      | (Throw, tbl2) => ([], tbl2)
      end
  end.

(** An element of the array [Promise.allSettled] resolves to. *)
Inductive PromiseSettledResult (A : Type) : Type :=
| fulfilled (value : A)
| rejected.
Arguments fulfilled {A} value.
Arguments rejected {A}.

(** The promise returned by an async function settles as it ends. *)
Definition settle {A : Type} (r : result A) : PromiseSettledResult A :=
  match r with Ok a => fulfilled a | Throw => rejected end.

Record RealTimeData : Type := {
  disasters : list Disaster.t;
  socialMedia : list SocialMediaPost.t;
  weather : list WeatherAlert;
  emergencyAlerts : list EmergencyAlert;
  resources : list Resource.t;
  reports : list Report
}.

Definition emptyData : RealTimeData :=
  {| disasters := []; socialMedia := []; weather := [];
     emergencyAlerts := []; resources := []; reports := [] |}.

(** [status === 'fulfilled' ? value : []]. *)
Definition valueOrEmpty {A : Type} (p : PromiseSettledResult (list A)) : list A :=
  match p with fulfilled value => value | rejected => [] end.

(** The [try] block of [getRealTimeDisasterData], after
    [Promise.allSettled] has resolved to the six outcomes. *)
Definition aggregate
    (disasters : PromiseSettledResult (list Disaster.t))
    (socialMedia : PromiseSettledResult (list SocialMediaPost.t))
    (weather : PromiseSettledResult (list WeatherAlert))
    (emergencyAlerts : PromiseSettledResult (list EmergencyAlert))
    (resources : PromiseSettledResult (list Resource.t))
    (reports : PromiseSettledResult (list Report))
    : result RealTimeData :=
  Ok {| RealTimeDataService.disasters := valueOrEmpty disasters;
        RealTimeDataService.socialMedia := valueOrEmpty socialMedia;
        RealTimeDataService.weather := valueOrEmpty weather;
        RealTimeDataService.emergencyAlerts := valueOrEmpty emergencyAlerts;
        RealTimeDataService.resources := valueOrEmpty resources;
        RealTimeDataService.reports := valueOrEmpty reports |}.

(** [getRealTimeDisasterData(disasterId)], given how the six fetches
    started with [disasterId] settle. *)
Definition getRealTimeDisasterData
    (disasters : PromiseSettledResult (list Disaster.t))
    (socialMedia : PromiseSettledResult (list SocialMediaPost.t))
    (weather : PromiseSettledResult (list WeatherAlert))
    (emergencyAlerts : PromiseSettledResult (list EmergencyAlert))
    (resources : PromiseSettledResult (list Resource.t))
    (reports : PromiseSettledResult (list Report))
    : RealTimeData :=
  match aggregate disasters socialMedia weather emergencyAlerts
                  resources reports with
  | Ok data => data
  | Throw => emptyData
  end.

(** The rows that [getRealTimeDisasters] keeps under the key of an id other
    than [all] hold only disasters with that id. *)
Definition disasters_cache_ok
    (tbl : gmap string (CacheEntry (list Disaster.t))) : Prop :=
  forall d e, d <> "all" ->
    tbl !! ("realtime_disasters:" ++ d) = Some e ->
    Forall (fun x => Disaster.id x = d) (value e).

(** The same for the rows that [getRealTimeSocialMedia] and
    [getRealTimeResources] keep under their keys. *)
Definition social_cache_ok
    (tbl : gmap string (CacheEntry (list SocialMediaPost.t))) : Prop :=
  forall d e, d <> "all" ->
    tbl !! ("realtime_social:" ++ d) = Some e ->
    Forall (fun p => SocialMediaPost.disaster_id p = Some d) (value e).

Definition resources_cache_ok
    (tbl : gmap string (CacheEntry (list Resource.t))) : Prop :=
  forall d e, d <> "all" ->
    tbl !! ("realtime_resources:" ++ d) = Some e ->
    Forall (fun r => Resource.disaster_id r = d) (value e).

(** An item of the FEMA declarations feed, as the mapping reads it. *)
Record FemaDeclaration : Type := {
  disasterNumber : string;
  incidentType : string;
  state : string;
  designatedArea : string;
  declarationDate : string
}.

(** [getRealTimeEmergencyAlerts(disasterId)]. *)
Definition getRealTimeEmergencyAlerts (io : IO)
    (fema : result (option (list FemaDeclaration)))
    (disasterId : option string)
    (tbl : gmap string (CacheEntry (list EmergencyAlert)))
    : list EmergencyAlert * gmap string (CacheEntry (list EmergencyAlert)) :=
  let cacheKey := "realtime_emergency:" ++ or_else disasterId "all" in
  let '(cached, tbl1) := getCachedData io cacheKey tbl in
  match cached with
  | Some l => (l, tbl1)
  | None =>
      let alerts :=
        match fema with
        | Ok (Some declarations) =>
            List.map (fun disaster =>
              {| ea_id := disasterNumber disaster;
                 ea_type := incidentType disaster;
                 ea_state := state disaster;
                 ea_county := designatedArea disaster;
                 ea_declarationDate := declarationDate disaster;
                 ea_title := incidentType disaster ++ " in " ++ state disaster;
                 ea_description :=
                   "Federal disaster declaration for " ++ incidentType disaster
                   ++ " in " ++ state disaster |}) declarations
        | Ok None | Throw => []
        end in
      match setCachedData io cacheKey alerts 600 tbl1 with
      | (Ok _, tbl2) => (alerts, tbl2)
      | (Throw, tbl2) => ([], tbl2)
      end
  end.

(** The payload of a [disaster_realtime_update]. *)
Record DisasterUpdate : Type := {
  du_disasterId : string;
  du_timestamp : Z;
  du_socialMedia : list SocialMediaPost.t;
  du_weather : list WeatherAlert;
  du_emergencyAlerts : list EmergencyAlert;
  du_resources : list Resource.t
}.

(** What a tick of the poller hands to the transport: [io.emit(event, ...)]
    to everyone, or [io.to(room).emit(event, ...)]. *)
Inductive Emit : Type :=
| ToAll (event : string) (timestamp : Z) (data : RealTimeData)
| ToRoom (room : string) (event : string) (update : DisasterUpdate).

(** The body of the timer callback of [startRealTimePolling], after the
    aggregate [realTimeData] has been fetched at time [now]. *)
Definition pollEmits (now : Z) (realTimeData : RealTimeData) : list Emit :=
  ToAll "realtime_update" now realTimeData
  :: List.map (fun disaster =>
       ToRoom ("disaster-" ++ Disaster.id disaster) "disaster_realtime_update"
         {| du_disasterId := Disaster.id disaster;
            du_timestamp := now;
            du_socialMedia :=
              List.filter (fun s => correlated s (Disaster.id disaster))
                          (socialMedia realTimeData);
            du_weather := weather realTimeData;
            du_emergencyAlerts := emergencyAlerts realTimeData;
            du_resources :=
              List.filter (fun r => String.eqb (Resource.disaster_id r)
                                               (Disaster.id disaster))
                          (resources realTimeData) |})
       (disasters realTimeData).

End RealTimeDataService.

(** ** index.ts: the rooms of the publish/subscribe channel

    The transport is taken by its contract: [io.emit] reaches every
    connected socket and [io.to(room).emit] the sockets that joined
    [room]. The state is the set of rooms of each connected socket. *)

Module Sockets.

(** [io.on('connection')]: a socket starts in the room named by its id. *)
Definition connect (socket : string) (st : gmap string (gset string))
    : gmap string (gset string) :=
  match st !! socket with
  | Some _ => st
  | None => <[socket := {[socket]}]> st
  end.

(** [socket.on('join-disaster')]. *)
Definition join_disaster (socket disasterId : string)
    (st : gmap string (gset string)) : gmap string (gset string) :=
  match st !! socket with
  | Some rooms => <[socket := {["disaster-" ++ disasterId]} ∪ rooms]> st
  | None => st
  end.

(** [socket.on('leave-disaster')]. *)
Definition leave_disaster (socket disasterId : string)
    (st : gmap string (gset string)) : gmap string (gset string) :=
  match st !! socket with
  | Some rooms => <[socket := rooms ∖ {["disaster-" ++ disasterId]}]> st
  | None => st
  end.

(** [socket.on('disconnect')]. *)
Definition disconnect (socket : string) (st : gmap string (gset string))
    : gmap string (gset string) :=
  delete socket st.

(** Whether [socket] is handed the emit [e]. *)
Definition receives (st : gmap string (gset string)) (socket : string)
    (e : RealTimeDataService.Emit) : bool :=
  match st !! socket with
  | Some rooms =>
      match e with
      | RealTimeDataService.ToAll _ _ _ => true
      | RealTimeDataService.ToRoom room _ _ => bool_decide (room ∈ rooms)
      end
  | None => false
  end.

End Sockets.

(** ** services/mockDataService.ts: the in-memory fixture store

    The module-level arrays are passed in and returned; the clock readings
    of one call are one instant [now]. *)

Module MockDataService.

(** The arrays as they are when the module is loaded at time [t0]. *)
Definition mockDisasters (t0 : Z) : list Disaster.t :=
  [ {| Disaster.id := "disaster-1";
       Disaster.title := "NYC Flood Emergency";
       Disaster.location_name := "Manhattan, NYC";
       Disaster.location :=
         Some {| Location.lat := 407128 # 10000; Location.lng := -740060 # 10000 |};
       Disaster.description :=
         "Heavy flooding in Manhattan affecting Lower East Side and Financial District";
       Disaster.tags := ["flood"; "urgent"; "manhattan"];
       Disaster.owner_id := "netrunnerX";
       Disaster.created_at := t0 - 1000 * 60 * 60 * 2;
       Disaster.updated_at := t0 - 1000 * 60 * 30;
       Disaster.audit_trail := [] |};
    {| Disaster.id := "disaster-2";
       Disaster.title := "California Wildfire";
       Disaster.location_name := "Los Angeles, CA";
       Disaster.location :=
         Some {| Location.lat := 340522 # 10000; Location.lng := -1182437 # 10000 |};
       Disaster.description :=
         "Major wildfire spreading rapidly in Los Angeles County";
       Disaster.tags := ["wildfire"; "california"; "emergency"];
       Disaster.owner_id := "reliefAdmin";
       Disaster.created_at := t0 - 1000 * 60 * 60 * 4;
       Disaster.updated_at := t0 - 1000 * 60 * 60;
       Disaster.audit_trail := [] |};
    {| Disaster.id := "disaster-3";
       Disaster.title := "Texas Tornado";
       Disaster.location_name := "Dallas, TX";
       Disaster.location :=
         Some {| Location.lat := 327767 # 10000; Location.lng := -967970 # 10000 |};
       Disaster.description :=
         "Tornado touchdown reported in Dallas metropolitan area";
       Disaster.tags := ["tornado"; "texas"; "dallas"];
       Disaster.owner_id := "netrunnerX";
       Disaster.created_at := t0 - 1000 * 60 * 60 * 6;
       Disaster.updated_at := t0 - 1000 * 60 * 60 * 2;
       Disaster.audit_trail := [] |} ].

Definition mockResources (t0 : Z) : list Resource.t :=
  [ {| Resource.id := "resource-1";
       Resource.disaster_id := "disaster-1";
       Resource.name := "Red Cross Emergency Shelter";
       Resource.location_name := "Lower East Side, NYC";
       Resource.location :=
         Some {| Location.lat := 407142 # 10000; Location.lng := -739897 # 10000 |};
       Resource.type := "shelter";
       Resource.capacity := Some (200 # 1);
       Resource.available := Some true;
       Resource.created_at := t0 - 1000 * 60 * 60 |};
    {| Resource.id := "resource-2";
       Resource.disaster_id := "disaster-1";
       Resource.name := "Bellevue Hospital";
       Resource.location_name := "Manhattan, NYC";
       Resource.location :=
         Some {| Location.lat := 407421 # 10000; Location.lng := -739731 # 10000 |};
       Resource.type := "hospital";
       Resource.capacity := Some (1000 # 1);
       Resource.available := Some true;
       Resource.created_at := t0 - 1000 * 60 * 60 * 2 |};
    {| Resource.id := "resource-3";
       Resource.disaster_id := "disaster-2";
       Resource.name := "LA County Fire Station";
       Resource.location_name := "Los Angeles, CA";
       Resource.location :=
         Some {| Location.lat := 340522 # 10000; Location.lng := -1182437 # 10000 |};
       Resource.type := "medical";
       Resource.capacity := None;
       Resource.available := Some true;
       Resource.created_at := t0 - 1000 * 60 * 60 * 3 |} ].

(** [getDisasters(page, limit)]. *)
Definition getDisasters (page limit : num) (store : list Disaster.t)
    : list Disaster.t * Z :=
  let start := offset_of page limit in
  let end_ := num_add start limit in
  (slice_num store start end_, Z.of_nat (length store)).

(** [getDisasterById(id)]. *)
Definition getDisasterById (id : string) (store : list Disaster.t)
    : option Disaster.t :=
  List.find (fun d => String.eqb (Disaster.id d) id) store.

(** [createDisaster(disaster)]: the argument carries every field but
    [id], [created_at] and [updated_at], which are overwritten. *)
Definition createDisaster (now : Z) (disaster : Disaster.t)
    (store : list Disaster.t) : Disaster.t * list Disaster.t :=
  let newDisaster :=
    {| Disaster.id := "disaster-" ++ pretty now;
       Disaster.title := Disaster.title disaster;
       Disaster.location_name := Disaster.location_name disaster;
       Disaster.location := Disaster.location disaster;
       Disaster.description := Disaster.description disaster;
       Disaster.tags := Disaster.tags disaster;
       Disaster.owner_id := Disaster.owner_id disaster;
       Disaster.created_at := now;
       Disaster.updated_at := now;
       Disaster.audit_trail := Disaster.audit_trail disaster |} in
  (newDisaster, (store ++ [newDisaster])%list).

(** [getResources(page, limit, disaster_id)]. *)
Definition getResources (page limit : num) (disaster_id : option string)
    (store : list Resource.t) : list Resource.t * Z :=
  let filteredResources :=
    match disaster_id with
    | Some d =>
        if truthy d
        then List.filter (fun r => String.eqb (Resource.disaster_id r) d) store
        else store
    | None => store
    end in
  let start := offset_of page limit in
  let end_ := num_add start limit in
  (slice_num filteredResources start end_,
   Z.of_nat (length filteredResources)).

Definition mockReports (t0 : Z) : list RealTimeDataService.Report :=
  [ {| RealTimeDataService.rp_id := "report-1";
       RealTimeDataService.rp_disaster_id := "disaster-1";
       RealTimeDataService.rp_user_id := "citizen1";
       RealTimeDataService.rp_content :=
         "URGENT: Water level rising rapidly in Lower East Side. Need immediate evacuation assistance!";
       RealTimeDataService.rp_image_url := Some "https://example.com/flood-image-1.jpg";
       RealTimeDataService.rp_verification_status := "verified";
       RealTimeDataService.rp_created_at := t0 - 1000 * 60 * 30 |};
    {| RealTimeDataService.rp_id := "report-2";
       RealTimeDataService.rp_disaster_id := "disaster-1";
       RealTimeDataService.rp_user_id := "relief_worker";
       RealTimeDataService.rp_content :=
         "Red Cross shelter now open at 123 Main St. Food and water available.";
       RealTimeDataService.rp_image_url := None;
       RealTimeDataService.rp_verification_status := "verified";
       RealTimeDataService.rp_created_at := t0 - 1000 * 60 * 45 |};
    {| RealTimeDataService.rp_id := "report-3";
       RealTimeDataService.rp_disaster_id := "disaster-2";
       RealTimeDataService.rp_user_id := "firefighter";
       RealTimeDataService.rp_content :=
         "Fire spreading rapidly towards residential areas. Evacuation orders issued.";
       RealTimeDataService.rp_image_url := Some "https://example.com/fire-image-1.jpg";
       RealTimeDataService.rp_verification_status := "pending";
       RealTimeDataService.rp_created_at := t0 - 1000 * 60 * 60 |} ].

Definition mockSocialMediaPosts (t0 : Z) : list SocialMediaPost.t :=
  [ {| SocialMediaPost.id := "post-1";
       SocialMediaPost.platform := "twitter";
       SocialMediaPost.user := "citizen1";
       SocialMediaPost.content :=
         "URGENT: Need immediate medical assistance in Lower East Side! #floodrelief #SOS";
       SocialMediaPost.timestamp := t0 - 1000 * 60 * 5;
       SocialMediaPost.disaster_id := Some "disaster-1";
       SocialMediaPost.priority := "urgent" |};
    {| SocialMediaPost.id := "post-2";
       SocialMediaPost.platform := "twitter";
       SocialMediaPost.user := "relief_worker";
       SocialMediaPost.content :=
         "Red Cross shelter now open at 123 Main St. Food and water available. #disasterrelief";
       SocialMediaPost.timestamp := t0 - 1000 * 60 * 15;
       SocialMediaPost.disaster_id := Some "disaster-1";
       SocialMediaPost.priority := "high" |};
    {| SocialMediaPost.id := "post-3";
       SocialMediaPost.platform := "twitter";
       SocialMediaPost.user := "volunteer_org";
       SocialMediaPost.content :=
         "Volunteers needed for cleanup efforts. Contact us if you can help! #volunteer #disasterresponse";
       SocialMediaPost.timestamp := t0 - 1000 * 60 * 45;
       SocialMediaPost.disaster_id := Some "disaster-1";
       SocialMediaPost.priority := "medium" |} ].

(** [getReports(page, limit, disaster_id)]. *)
Definition getReports (page limit : num) (disaster_id : option string)
    (store : list RealTimeDataService.Report)
    : list RealTimeDataService.Report * Z :=
  let filteredReports :=
    match disaster_id with
    | Some d =>
        if truthy d
        then List.filter
               (fun r => String.eqb (RealTimeDataService.rp_disaster_id r) d) store
        else store
    | None => store
    end in
  let start := offset_of page limit in
  let end_ := num_add start limit in
  (slice_num filteredReports start end_, Z.of_nat (length filteredReports)).

(** [createReport(report)]: [id] and [created_at] are overwritten. *)
Definition createReport (now : Z) (report : RealTimeDataService.Report)
    (store : list RealTimeDataService.Report)
    : RealTimeDataService.Report * list RealTimeDataService.Report :=
  let newReport :=
    {| RealTimeDataService.rp_id := "report-" ++ pretty now;
       RealTimeDataService.rp_disaster_id :=
         RealTimeDataService.rp_disaster_id report;
       RealTimeDataService.rp_user_id := RealTimeDataService.rp_user_id report;
       RealTimeDataService.rp_content := RealTimeDataService.rp_content report;
       RealTimeDataService.rp_image_url := RealTimeDataService.rp_image_url report;
       RealTimeDataService.rp_verification_status :=
         RealTimeDataService.rp_verification_status report;
       RealTimeDataService.rp_created_at := now |} in
  (newReport, (store ++ [newReport])%list).

(** [createResource(resource)]: [id] and [created_at] are overwritten. *)
Definition createResource (now : Z) (resource : Resource.t)
    (store : list Resource.t) : Resource.t * list Resource.t :=
  let newResource :=
    {| Resource.id := "resource-" ++ pretty now;
       Resource.disaster_id := Resource.disaster_id resource;
       Resource.name := Resource.name resource;
       Resource.location_name := Resource.location_name resource;
       Resource.location := Resource.location resource;
       Resource.type := Resource.type resource;
       Resource.capacity := Resource.capacity resource;
       Resource.available := Resource.available resource;
       Resource.created_at := now |} in
  (newResource, (store ++ [newResource])%list).

(** [getSocialMediaPosts(disaster_id, platform, limit)]; the platform is
    not read. *)
Definition getSocialMediaPosts (disaster_id : string) (platform : string)
    (limit : num) (store : list SocialMediaPost.t) : list SocialMediaPost.t :=
  let filteredPosts :=
    List.filter (fun p => RealTimeDataService.correlated p disaster_id) store in
  slice_num filteredPosts (Int 0) limit.

(** [getUrgentSocialMediaPosts(disaster_id)]. *)
Definition getUrgentSocialMediaPosts (disaster_id : string)
    (store : list SocialMediaPost.t) : list SocialMediaPost.t :=
  List.filter (fun p => RealTimeDataService.correlated p disaster_id
                        && String.eqb (SocialMediaPost.priority p) "urgent")
              store.

End MockDataService.

(** ** The hosted database, as the routes use it

    A table is the list of its rows. The operators evaluated by the
    database on the filter strings the routes build are an interface. *)

Class Postgres : Type := {
  (** [.or(expr)] on a row of [disasters]. *)
  or_filter : string -> Disaster.t -> bool;
  (** [.filter('location', 'st_dwithin', operand)] on a stored point. *)
  st_dwithin : option Location.t -> string -> bool
}.

(** The [location] columns have the type [GEOGRAPHY(POINT, 4326)] (README,
    database schema). On that type the database measures in metres: it
    reads the numerals of a filter operand as numbers, and [st_dwithin]
    holds of a stored point and the operand [POINT(x y),r] only when the
    point is at most [r] metres from longitude [x], latitude [y]. *)
Class Geography `{Postgres} : Type := {
  number : string -> option Q;
  metres : Location.t -> Location.t -> Q;
  st_dwithin_metres : forall (loc : option Location.t) (x y r : string),
    st_dwithin loc (("POINT(" ++ x ++ " " ++ y ++ ")") ++ "," ++ r) = true ->
    exists l px py pr,
      loc = Some l /\ number x = Some px /\ number y = Some py
      /\ number r = Some pr
      /\ (metres l {| Location.lat := py; Location.lng := px |} <= pr)%Q
}.

(** A stand-in for these operators, to run the routes on: decimal
    numerals, the operand read strictly as [POINT(x y),r], and the
    distance taken along the meridian and the parallel at 111320 metres
    to the degree. *)
Module Geo.

(** Whether [c] occurs in [s]. *)
Fixpoint has (c : ascii) (s : string) : bool :=
  match s with
  | EmptyString => false
  | String a s' => Ascii.eqb a c || has c s'
  end.

(** [s] before and after its first [c]. *)
Fixpoint cut (c : ascii) (s : string) : option (string * string) :=
  match s with
  | EmptyString => None
  | String a s' =>
      if Ascii.eqb a c then Some (EmptyString, s')
      else match cut c s' with
           | Some (h, t) => Some (String a h, t)
           | None => None
           end
  end.

(** [s] after the literal [p]. *)
Fixpoint skip (p s : string) : option string :=
  match p, s with
  | EmptyString, _ => Some s
  | String a p', String b s' => if Ascii.eqb a b then skip p' s' else None
  | String _ _, EmptyString => None
  end.

(** A digit, a point or a sign. *)
Definition numeral_char (c : ascii) : bool :=
  let n := N_of_ascii c in
  ((48 <=? n) && (n <=? 57) || (n =? 46) || (n =? 45) || (n =? 43))%N.

Fixpoint clean (s : string) : bool :=
  match s with
  | EmptyString => true
  | String c s' => numeral_char c && clean s'
  end.

(** The value of a run of digits after [acc], and [pow] times ten to
    their number. *)
Fixpoint natural (acc pow : Z) (s : string) : option (Z * Z) :=
  match s with
  | EmptyString => Some (acc, pow)
  | String c s' =>
      let n := Z.of_N (N_of_ascii c) in
      if (48 <=? n) && (n <=? 57)
      then natural (acc * 10 + (n - 48)) (pow * 10) s'
      else None
  end.

(** A numeral: a sign, digits, and digits after a point. *)
Definition decimal (s : string) : option Q :=
  if clean s then
    let '(sign, body) :=
      match s with
      | String "-" r => (-1, r)
      | String "+" r => (1, r)
      | _ => (1, s)
      end in
    let '(ip, fp) :=
      match cut "." body with
      | Some (a, b) => (a, b)
      | None => (body, EmptyString)
      end in
    match ip with
    | EmptyString => None
    | _ =>
        match natural 0 1 ip, natural 0 1 fp with
        | Some (i, _), Some (f, k) =>
            Some (Qmake (sign * (i * k + f)) (Z.to_pos k))
        | _, _ => None
        end
    end
  else None.

(** The three numerals of [POINT(x y),r]. *)
Definition read_operand (s : string) : option (string * string * string) :=
  match skip "POINT(" s with
  | Some rest =>
      match cut " " rest with
      | Some (x, rest1) =>
          match cut ")" rest1 with
          | Some (y, rest2) =>
              match skip "," rest2 with
              | Some r => Some (x, y, r)
              | None => None
              end
          | None => None
          end
      | None => None
      end
  | None => None
  end.

(** The distance of two numbers. *)
Definition gap (a b : Q) : Q := if Qle_bool a b then (b - a)%Q else (a - b)%Q.

(** Metres between two points, along the meridian and the parallel. *)
Definition taxicab (a b : Location.t) : Q :=
  ((111320 # 1) * (gap (Location.lat a) (Location.lat b)
                   + gap (Location.lng a) (Location.lng b)))%Q.

(** [st_dwithin] on a stored point and an operand. *)
Definition within (loc : option Location.t) (operand : string) : bool :=
  match loc, read_operand operand with
  | Some l, Some (x, y, r) =>
      match decimal x, decimal y, decimal r with
      | Some px, Some py, Some pr =>
          Qle_bool (taxicab l {| Location.lat := py; Location.lng := px |}) pr
      | _, _, _ => false
      end
  | _, _ => false
  end.

End Geo.

Module Db.

(** [.order(col, { ascending: false })]: insertion sort on the key. *)
Fixpoint insert_desc {A : Type} (key : A -> Z) (x : A) (l : list A) : list A :=
  match l with
  | [] => [x]
  | y :: l' => if key y <? key x then x :: l else y :: insert_desc key x l'
  end.

Definition order_desc {A : Type} (key : A -> Z) (l : list A) : list A :=
  List.fold_right (insert_desc key) [] l.

(** [.range(from, to)]: OFFSET [from] LIMIT [to - from + 1]; the
    database rejects a bound that is negative or not a number. *)
Definition range {A : Type} (from to : num) (l : list A) : result (list A) :=
  match from, to with
  | Int f, Int t =>
      if (f <? 0) || (t - f + 1 <? 0) then Throw
      else Ok (take (Z.to_nat (t - f + 1)) (drop (Z.to_nat f) l))
  | _, _ => Throw
  end.

(** The two awaits of a list route on one filtered query: the count,
    then the page. A rejected call, and an error reply of the second
    call, take the route into its [catch]. *)
Definition list_query {A : Type} (c1 c2 : DbCall) (key : A -> Z)
    (offset to : num) (matching : list A) : result (list A * Z) :=
  match c1 with
  | DbThrow => Throw
  | DbOk | DbError =>
      let count := match c1 with DbOk => Z.of_nat (length matching) | _ => 0 end in
      match c2 with
      | DbOk =>
          match range offset to (order_desc key matching) with
          | Ok rows => Ok (rows, count)
          | Throw => Throw
          end
      | DbError | DbThrow => Throw
      end
  end.

End Db.

(** ** The response envelope *)

Module Http.

Record Pagination : Type := {
  page : num;
  limit : num;
  total : Z;
  totalPages : num
}.

(** [res.status(status).json({ success, data, error, message, pagination })];
    an absent key is [None]. *)
Record Response (A : Type) : Type := {
  status : Z;
  success : bool;
  data : option A;
  error : option string;
  message : option string;
  pagination : option Pagination
}.
Arguments status {A} _.
Arguments success {A} _.
Arguments data {A} _.
Arguments error {A} _.
Arguments message {A} _.
Arguments pagination {A} _.

Definition failure {A : Type} (code : Z) (msg : string) : Response A :=
  {| status := code; success := false; data := None; error := Some msg;
     message := None; pagination := None |}.

Definition ok_with {A : Type} (code : Z) (d : A) (msg : option string)
    : Response A :=
  {| status := code; success := true; data := Some d; error := None;
     message := msg; pagination := None |}.

Definition ok_page {A : Type} (rows : list A) (p : Pagination)
    : Response (list A) :=
  {| status := 200; success := true; data := Some rows; error := None;
     message := None; pagination := Some p |}.

End Http.

(** ** routes/disasters.ts *)

Module DisasterRoutes.
Import CacheService Http.

(** What the handlers read and change: the [disasters] table, the
    fixture array, the location-extraction rows of the cache and the
    [disaster_updated] events emitted so far. *)
Record World : Type := {
  db : list Disaster.t;
  mock : list Disaster.t;
  extraction_cache : gmap string (CacheEntry GeocodingResult.t);
  emitted : list Disaster.t
}.

(** What one request meets: the outcomes of its database calls, the
    row id the database generates, the cache calls and the AI reply of
    [extractLocation], the geocoder ([geocode] never throws) and the
    clock. *)
Record Env : Type := {
  db_first : DbCall;
  db_second : DbCall;
  new_id : string;
  cache_io : IO;
  ai : result string;
  geocode : string -> option GeocodingResult.t;
  now : Z
}.

(** Lines 94-101 of the POST handler: the location name used, or a throw
    of [extractLocation]. *)
Definition resolveLocationName (env : Env) (location_name : option string)
    (description : string)
    (cache : gmap string (CacheEntry GeocodingResult.t))
    : result (option string) * gmap string (CacheEntry GeocodingResult.t) :=
  if truthy_opt location_name then (Ok location_name, cache)
  else
    match GeminiService.extractLocation (cache_io env) (ai env)
                                        description cache with
    | (Ok (Some extractedLocation), cache1) =>
        (Ok (Some (GeocodingResult.location_name extractedLocation)), cache1)
    | (Ok None, cache1) => (Ok location_name, cache1)
    | (Throw, cache1) => (Throw, cache1)
    end.

(** Lines 103-110: geocode the name when there is one. *)
Definition geocodeLocation (env : Env) (finalLocationName : option string)
    : option Location.t :=
  match finalLocationName with
  | Some n =>
      if truthy n then
        match geocode env n with
        | Some geocoded =>
            Some {| Location.lat := GeocodingResult.lat geocoded;
                    Location.lng := GeocodingResult.lng geocoded |}
        | None => None
        end
      else None
  | None => None
  end.

(** [.insert(row).select().single()]: the database adds [id],
    [created_at] and [updated_at]; a duplicate key is an error reply. *)
Definition insert (c : DbCall) (id : string) (now : Z) (row : Disaster.t)
    (tbl : list Disaster.t) : result Disaster.t * list Disaster.t :=
  match c with
  | DbOk =>
      if existsb (fun d => String.eqb (Disaster.id d) id) tbl then (Throw, tbl)
      else
        let stored :=
          {| Disaster.id := id;
             Disaster.title := Disaster.title row;
             Disaster.location_name := Disaster.location_name row;
             Disaster.location := Disaster.location row;
             Disaster.description := Disaster.description row;
             Disaster.tags := Disaster.tags row;
             Disaster.owner_id := Disaster.owner_id row;
             Disaster.created_at := now;
             Disaster.updated_at := now;
             Disaster.audit_trail := Disaster.audit_trail row |} in
        (Ok stored, (tbl ++ [stored])%list)
  | DbError | DbThrow => (Throw, tbl)
  end.

(** POST /api/disasters. [user] is the [x-user-id] header. *)
Definition post (env : Env) (user : option string)
    (body : CreateDisasterRequest.t) (w : World)
    : Response Disaster.t * World :=
  let owner_id := or_else user "anonymous" in
  if negb (truthy_opt (CreateDisasterRequest.title body))
     || negb (truthy_opt (CreateDisasterRequest.description body))
  then (failure 400 "Title and description are required", w)
  else
    let title := default EmptyString (CreateDisasterRequest.title body) in
    let description :=
      default EmptyString (CreateDisasterRequest.description body) in
    match resolveLocationName env (CreateDisasterRequest.location_name body)
                              description (extraction_cache w) with
    | (Throw, cache1) =>
        (failure 500 "Internal server error",
         {| db := db w; mock := mock w; extraction_cache := cache1;
            emitted := emitted w |})
    | (Ok finalLocationName, cache1) =>
        let location := geocodeLocation env finalLocationName in
        let audit :=
          [ {| AuditTrail.action := "create";
               AuditTrail.user_id := owner_id;
               AuditTrail.timestamp := now env;
               AuditTrail.details := None |} ] in
        (* the inserted columns; [id] and the two dates are set on storing *)
        let row (loc : option Location.t) :=
          {| Disaster.id := EmptyString;
             Disaster.title := title;
             Disaster.location_name :=
               or_else finalLocationName "Unknown Location";
             Disaster.location := loc;
             Disaster.description := description;
             Disaster.tags := default [] (CreateDisasterRequest.tags body);
             Disaster.owner_id := owner_id;
             Disaster.created_at := 0;
             Disaster.updated_at := 0;
             Disaster.audit_trail := audit |} in
        match insert (db_first env) (new_id env) (now env) (row location) (db w) with
        | (Ok disaster, db1) =>
            (ok_with 201 disaster (Some "Disaster created successfully"),
             {| db := db1; mock := mock w; extraction_cache := cache1;
                emitted := (emitted w ++ [disaster])%list |})
        | (Throw, db1) =>
            let '(disaster, mock1) :=
              MockDataService.createDisaster (now env)
                (row (Some (default Location.origin location))) (mock w) in
            (ok_with 201 disaster
               (Some "Disaster created successfully (mock mode)"),
             {| db := db1; mock := mock1; extraction_cache := cache1;
                emitted := (emitted w ++ [disaster])%list |})
        end
    end.

(** The query string of GET /api/disasters. *)
Record ListQuery : Type := {
  q_page : option string;
  q_limit : option string;
  q_tag : option string;
  q_search : option string;
  q_owner_id : option string;
  q_lat : option string;
  q_lng : option string;
  q_radius : option string
}.

(** The filters the handler adds to the query. *)
Definition matches `{Postgres} (q : ListQuery) (d : Disaster.t) : bool :=
  (if truthy_opt (q_tag q)
   then arr_includes (Disaster.tags d) (default EmptyString (q_tag q))
   else true)
  && (if truthy_opt (q_search q)
      then
        let search := default EmptyString (q_search q) in
        or_filter ("title.ilike.%" ++ search ++ "%,description.ilike.%"
                   ++ search ++ "%,location_name.ilike.%" ++ search ++ "%") d
      else true)
  && (if truthy_opt (q_owner_id q)
      then String.eqb (Disaster.owner_id d)
                      (default EmptyString (q_owner_id q))
      else true)
  && (if truthy_opt (q_lat q) && truthy_opt (q_lng q)
      then
        let point := "POINT(" ++ default EmptyString (q_lng q) ++ " "
                     ++ default EmptyString (q_lat q) ++ ")" in
        st_dwithin (Disaster.location d)
                   (point ++ "," ++ default "10000" (q_radius q))
      else true).

(** GET /api/disasters. *)
Definition getAll `{Postgres} (env : Env) (q : ListQuery) (w : World)
    : Response (list Disaster.t) :=
  let page := parseInt_or (q_page q) 1 in
  let limit := parseInt_or (q_limit q) 10 in
  let offset := offset_of page limit in
  match Db.list_query (db_first env) (db_second env) Disaster.created_at
          offset (num_add (num_add offset limit) (Int (-1)))
          (List.filter (matches q) (db w)) with
  | Ok (disasters, count) =>
      ok_page disasters
        {| Http.page := page; Http.limit := limit; Http.total := count;
           Http.totalPages := ceil_div count limit |}
  | Throw =>
      let '(data, total) := MockDataService.getDisasters page limit (mock w) in
      ok_page data
        {| Http.page := page; Http.limit := limit; Http.total := total;
           Http.totalPages := ceil_div total limit |}
  end.

(** The body of PUT /api/disasters/:id. *)
Record UpdateDisasterRequest : Type := {
  u_title : option string;
  u_location_name : option string;
  u_description : option string;
  u_tags : option (list string)
}.

Definition details_of (u : UpdateDisasterRequest) : CreateDisasterRequest.t :=
  {| CreateDisasterRequest.title := u_title u;
     CreateDisasterRequest.location_name := u_location_name u;
     CreateDisasterRequest.description := u_description u;
     CreateDisasterRequest.tags := u_tags u |}.

(** Lines 365-385: the new location name and point, when the name
    changes and geocodes; [Throw] when [extractLocation] throws. *)
Definition locationUpdate (env : Env) (updates : UpdateDisasterRequest)
    (existing : Disaster.t)
    (cache : gmap string (CacheEntry GeocodingResult.t))
    : result (option (string * Location.t))
      * gmap string (CacheEntry GeocodingResult.t) :=
  if truthy_opt (u_location_name updates) || truthy_opt (u_description updates)
  then
    let initial :=
      or_else (u_location_name updates) (Disaster.location_name existing) in
    let '(final, cache1) :=
      if negb (truthy_opt (u_location_name updates))
         && truthy_opt (u_description updates)
      then
        match GeminiService.extractLocation (cache_io env) (ai env)
                (default EmptyString (u_description updates)) cache with
        | (Ok (Some extractedLocation), c) =>
            (Ok (GeocodingResult.location_name extractedLocation), c)
        | (Ok None, c) => (Ok initial, c)
        | (Throw, c) => (Throw, c)
        end
      else (Ok initial, cache) in
    match final with
    | Throw => (Throw, cache1)
    | Ok finalLocationName =>
        if String.eqb finalLocationName (Disaster.location_name existing)
        then (Ok None, cache1)
        else
          match geocode env finalLocationName with
          | Some geocoded =>
              (Ok (Some (finalLocationName,
                         {| Location.lat := GeocodingResult.lat geocoded;
                            Location.lng := GeocodingResult.lng geocoded |})),
               cache1)
          | None => (Ok None, cache1)
          end
    end
  else (Ok None, cache).

(** PUT /api/disasters/:id. It has no [catch] that turns to the fixture
    store: [db_first] is the lookup of the row, [db_second] the update. *)
Definition put (env : Env) (user : option string) (id : string)
    (updates : UpdateDisasterRequest) (w : World)
    : Response Disaster.t * World :=
  let user_id := or_else user "anonymous" in
  match db_first env with
  | DbThrow => (failure 500 "Internal server error", w)
  | DbError => (failure 404 "Disaster not found", w)
  | DbOk =>
      match List.find (fun d => String.eqb (Disaster.id d) id) (db w) with
      | None => (failure 404 "Disaster not found", w)
      | Some existingDisaster =>
          match locationUpdate env updates existingDisaster
                               (extraction_cache w) with
          | (Throw, cache1) =>
              (failure 500 "Internal server error",
               {| db := db w; mock := mock w; extraction_cache := cache1;
                  emitted := emitted w |})
          | (Ok loc, cache1) =>
              let w1 := {| db := db w; mock := mock w;
                           extraction_cache := cache1;
                           emitted := emitted w |} in
              let auditTrail :=
                (Disaster.audit_trail existingDisaster
                 ++ [ {| AuditTrail.action := "update";
                         AuditTrail.user_id := user_id;
                         AuditTrail.timestamp := now env;
                         AuditTrail.details := Some (details_of updates) |} ])%list in
              let updatedDisaster :=
                {| Disaster.id := Disaster.id existingDisaster;
                   Disaster.title :=
                     or_else (u_title updates) (Disaster.title existingDisaster);
                   Disaster.location_name :=
                     match loc with
                     | Some (n, _) => n
                     | None => Disaster.location_name existingDisaster
                     end;
                   Disaster.location :=
                     match loc with
                     | Some (_, p) => Some p
                     | None => Disaster.location existingDisaster
                     end;
                   Disaster.description :=
                     or_else (u_description updates)
                             (Disaster.description existingDisaster);
                   Disaster.tags :=
                     default (Disaster.tags existingDisaster) (u_tags updates);
                   Disaster.owner_id := Disaster.owner_id existingDisaster;
                   Disaster.created_at := Disaster.created_at existingDisaster;
                   Disaster.updated_at := now env;
                   Disaster.audit_trail := auditTrail |} in
              match db_second env with
              | DbOk =>
                  (ok_with 200 updatedDisaster
                     (Some "Disaster updated successfully"),
                   {| db := List.map (fun d =>
                               if String.eqb (Disaster.id d) id
                               then updatedDisaster else d) (db w);
                      mock := mock w; extraction_cache := cache1;
                      emitted := (emitted w ++ [updatedDisaster])%list |})
              | DbError => (failure 500 "Failed to update disaster", w1)
              | DbThrow => (failure 500 "Internal server error", w1)
              end
          end
      end
  end.

(** [.select('*').eq('id', id).single()]: the row, when the call
    succeeds and the row exists. *)
Definition selectById (c : DbCall) (id : string) (tbl : list Disaster.t)
    : option Disaster.t :=
  match c with
  | DbOk => List.find (fun d => String.eqb (Disaster.id d) id) tbl
  | DbError | DbThrow => None
  end.

(** GET /api/disasters/:id. *)
Definition getById (c : DbCall) (id : string) (w : World)
    : Response Disaster.t :=
  match selectById c id (db w) with
  | Some disaster => ok_with 200 disaster None
  | None =>
      match MockDataService.getDisasterById id (mock w) with
      | Some disaster => ok_with 200 disaster None
      | None => failure 404 "Disaster not found"
      end
  end.

(** DELETE /api/disasters/:id: the response, the world after it and the
    id announced on [disaster_updated] with [action: 'deleted']. The rows
    of other tables that the database drops with it are not part of the
    world. *)
Definition remove (env : Env) (user : option string) (id : string) (w : World)
    : Response Disaster.t * World * option string :=
  match db_first env with
  | DbThrow => (failure 500 "Internal server error", w, None)
  | DbError => (failure 404 "Disaster not found", w, None)
  | DbOk =>
      match List.find (fun d => String.eqb (Disaster.id d) id) (db w) with
      | None => (failure 404 "Disaster not found", w, None)
      | Some _ =>
          match db_second env with
          | DbOk =>
              ({| status := 200; success := true; data := None; error := None;
                  message := Some "Disaster deleted successfully";
                  pagination := None |},
               {| db := List.filter
                          (fun d => negb (String.eqb (Disaster.id d) id)) (db w);
                  mock := mock w; extraction_cache := extraction_cache w;
                  emitted := emitted w |},
               Some id)
          | DbError => (failure 500 "Failed to delete disaster", w, None)
          | DbThrow => (failure 500 "Internal server error", w, None)
          end
      end
  end.

End DisasterRoutes.

(** ** routes/reports.ts *)

Module ReportRoutes.
Import CacheService Http RealTimeDataService.

Record CreateReportRequest : Type := {
  disaster_id : option string;
  content : option string;
  image_url : option string
}.

(** The [reports] table, the fixture array, the image-verification rows
    of the cache and the [report_created] events, each with its room. *)
Record World : Type := {
  db : list Report;
  mock : list Report;
  verification_cache : gmap string (CacheEntry ImageVerificationResult.t);
  emitted : list (string * Report)
}.

(** What one request meets: the database call and the row id it
    generates, and what [verifyImage] meets. *)
Record Env : Type := {
  db_insert : DbCall;
  new_id : string;
  cache_io : IO;
  image : result bool;
  ai : result string;
  JSON_parse : string -> result ImageVerificationResult.t;
  now : Z
}.

(** Lines 27-42 of the POST handler: the status the report starts with. *)
Definition initialStatus (env : Env) (image_url : option string)
    (content : string)
    (cache : gmap string (CacheEntry ImageVerificationResult.t))
    : string * gmap string (CacheEntry ImageVerificationResult.t) :=
  if truthy_opt image_url then
    let '(verificationResult, cache1) :=
      GeminiService.verifyImage (cache_io env) (image env) (ai env)
        (JSON_parse env) (default EmptyString image_url) (Some content) cache in
    (if ImageVerificationResult.is_authentic verificationResult
     then "verified" else "rejected", cache1)
  else ("pending", cache).

(** [.insert(row).select().single()] on [reports]. *)
Definition insert (c : DbCall) (id : string) (now : Z) (row : Report)
    (tbl : list Report) : result Report * list Report :=
  match c with
  | DbOk =>
      if existsb (fun r => String.eqb (rp_id r) id) tbl then (Throw, tbl)
      else
        let stored :=
          {| rp_id := id;
             rp_disaster_id := rp_disaster_id row;
             rp_user_id := rp_user_id row;
             rp_content := rp_content row;
             rp_image_url := rp_image_url row;
             rp_verification_status := rp_verification_status row;
             rp_created_at := now |} in
        (Ok stored, (tbl ++ [stored])%list)
  | DbError | DbThrow => (Throw, tbl)
  end.

(** POST /api/reports. *)
Definition post (env : Env) (user : option string)
    (body : CreateReportRequest) (w : World) : Response Report * World :=
  let user_id := or_else user "anonymous" in
  if negb (truthy_opt (disaster_id body)) || negb (truthy_opt (content body))
  then (failure 400 "Disaster ID and content are required", w)
  else
    let d := default EmptyString (disaster_id body) in
    let c := default EmptyString (content body) in
    let '(verification_status, cache1) :=
      initialStatus env (image_url body) c (verification_cache w) in
    (* the inserted columns; [id] and [created_at] are set on storing *)
    let row :=
      {| rp_id := EmptyString;
         rp_disaster_id := d;
         rp_user_id := user_id;
         rp_content := c;
         rp_image_url := image_url body;
         rp_verification_status := verification_status;
         rp_created_at := 0 |} in
    match insert (db_insert env) (new_id env) (now env) row (db w) with
    | (Ok report, db1) =>
        (ok_with 201 report (Some "Report created successfully"),
         {| db := db1; mock := mock w; verification_cache := cache1;
            emitted := (emitted w ++ [(("disaster-" ++ d)%string, report)])%list |})
    | (Throw, db1) =>
        let '(report, mock1) :=
          MockDataService.createReport (now env) row (mock w) in
        (ok_with 201 report (Some "Report created successfully (mock mode)"),
         {| db := db1; mock := mock1; verification_cache := cache1;
            emitted := (emitted w ++ [(("disaster-" ++ d)%string, report)])%list |})
    end.

End ReportRoutes.

(** ** routes/socialMedia.ts *)

Module SocialMediaRoutes.
Import CacheService Http.

(** [s.split(',')]. *)
Fixpoint split_comma (s : string) : list string :=
  match s with
  | EmptyString => [EmptyString]
  | String c s' =>
      if Ascii.eqb c "," then EmptyString :: split_comma s'
      else
        match split_comma s' with
        | first :: rest => String c first :: rest
        | [] => [String c EmptyString]
        end
  end.

Record Query : Type := {
  q_disaster_id : option string;
  q_platform : option string;
  q_limit : option string;
  q_keywords : option string
}.

(** [`social_media:${disaster_id}:${platform}:${limit}`]; a missing limit
    prints as its default 20. *)
Definition cacheKey (q : Query) : string :=
  "social_media:" ++ default EmptyString (q_disaster_id q) ++ ":"
  ++ default "twitter" (q_platform q) ++ ":" ++ default "20" (q_limit q).

(** GET /api/social-media. [twitter_key] tells whether [TWITTER_API_KEY]
    is set; [rio] and [rtbl] are the route's own use of the cache, the
    other inputs are those of [searchDisasterPosts]. The result is the
    response, its [source], the two cache tables and the posts sent to
    the room of the disaster. *)
Definition getPosts (rio : IO) (twitter_key : bool) (bio : IO)
    (identifier password : string) (login : result unit)
    (search : result (option (list BlueskyService.FeedPost))) (now : Z)
    (q : Query) (mock : list SocialMediaPost.t)
    (rtbl btbl : gmap string (CacheEntry (list BlueskyService.Post)))
    : Response (list BlueskyService.Post) * option string
      * gmap string (CacheEntry (list BlueskyService.Post))
      * gmap string (CacheEntry (list BlueskyService.Post))
      * option (string * list BlueskyService.Post) :=
  if negb (truthy_opt (q_disaster_id q))
  then (failure 400 "Disaster ID is required", None, rtbl, btbl, None)
  else
    let disaster_id := default EmptyString (q_disaster_id q) in
    let platform := default "twitter" (q_platform q) in
    let limit := parseInt_or (q_limit q) 20 in
    let '(cached, rtbl1) := getCachedData rio (cacheKey q) rtbl in
    match cached with
    | Some posts =>
        (ok_with 200 posts None, Some "cache", rtbl1, btbl, None)
    | None =>
        let live := String.eqb platform "twitter" && twitter_key in
        let '(posts, btbl1) :=
          if live then
            let searchKeywords :=
              if truthy_opt (q_keywords q)
              then List.map trim
                     (split_comma (default EmptyString (q_keywords q)))
              else RealTimeDataService.disasterKeywords in
            BlueskyService.searchDisasterPosts bio identifier password login
              search now searchKeywords limit btbl
          else
            (List.map (fun p => {| BlueskyService.post := p;
                                   BlueskyService.engagement := None |})
               (MockDataService.getSocialMediaPosts disaster_id platform
                  limit mock),
             btbl) in
        let rtbl2 := snd (setCachedData rio (cacheKey q) posts 300 rtbl1) in
        (ok_with 200 posts None,
         Some (if live then "twitter" else "mock"),
         rtbl2, btbl1, Some ("disaster-" ++ disaster_id, posts))
    end.

End SocialMediaRoutes.

(** ** routes/resources.ts *)

Module ResourceRoutes.
Import Http.

(** The query string of GET /api/resources. *)
Record ListQuery : Type := {
  q_disaster_id : option string;
  q_type : option string;
  q_available : option string;
  q_lat : option string;
  q_lng : option string;
  q_radius : option string;
  q_page : option string;
  q_limit : option string
}.

(** The operand of the geospatial filter: [`${point},${radius}`]. *)
Definition dwithin_operand (q : ListQuery) : string :=
  let point := "POINT(" ++ default EmptyString (q_lng q) ++ " "
               ++ default EmptyString (q_lat q) ++ ")" in
  point ++ "," ++ default "10000" (q_radius q).

(** The filters the handler adds to the query. *)
Definition matches `{Postgres} (q : ListQuery) (r : Resource.t) : bool :=
  (if truthy_opt (q_disaster_id q)
   then String.eqb (Resource.disaster_id r)
                   (default EmptyString (q_disaster_id q))
   else true)
  && (if truthy_opt (q_type q)
      then String.eqb (Resource.type r) (default EmptyString (q_type q))
      else true)
  && (match q_available q with
      | Some a =>
          match Resource.available r with
          | Some b => Bool.eqb b (String.eqb a "true")
          | None => false
          end
      | None => true
      end)
  && (if truthy_opt (q_lat q) && truthy_opt (q_lng q)
      then st_dwithin (Resource.location r) (dwithin_operand q)
      else true).

(** What is asked of a returned row: its stored point lies within the
    radius, in metres, of the requested point. The three parameters are
    the numbers the database reads in them; a missing radius is 10000. *)
Definition within_radius `{Geography} (q : ListQuery) (r : Resource.t) : Prop :=
  exists l lng lat radius,
    Resource.location r = Some l
    /\ number (default EmptyString (q_lng q)) = Some lng
    /\ number (default EmptyString (q_lat q)) = Some lat
    /\ number (default "10000" (q_radius q)) = Some radius
    /\ (metres l {| Location.lat := lat; Location.lng := lng |} <= radius)%Q.

(** The [try] block: the page and the count the database returns, or
    the throw that leads to the [catch]. *)
Definition fromDatabase `{Postgres} (c1 c2 : DbCall) (q : ListQuery)
    (tbl : list Resource.t) : result (list Resource.t * Z) :=
  let page := parseInt_or (q_page q) 1 in
  let limit := parseInt_or (q_limit q) 20 in
  let offset := offset_of page limit in
  Db.list_query c1 c2 Resource.created_at
    offset (num_add (num_add offset limit) (Int (-1)))
    (List.filter (matches q) tbl).

(** GET /api/resources over the [resources] table [tbl] and the fixture
    array [mock]. *)
Definition getAll `{Postgres} (c1 c2 : DbCall) (q : ListQuery)
    (tbl mock : list Resource.t) : Response (list Resource.t) :=
  let page := parseInt_or (q_page q) 1 in
  let limit := parseInt_or (q_limit q) 20 in
  match fromDatabase c1 c2 q tbl with
  | Ok (resources, count) =>
      ok_page resources
        {| Http.page := page; Http.limit := limit; Http.total := count;
           Http.totalPages := ceil_div count limit |}
  | Throw =>
      let '(data, total) :=
        MockDataService.getResources page limit (q_disaster_id q) mock in
      ok_page data
        {| Http.page := page; Http.limit := limit; Http.total := total;
           Http.totalPages := ceil_div total limit |}
  end.

End ResourceRoutes.

(** ** Inputs on which the functions above are run in the examples below *)

Module Examples.
Import CacheService.

(** Every database call succeeds and the clock reads 1000. *)
Definition io_up : IO :=
  {| get_select := DbOk; get_delete := DbOk; get_now := 1000;
     set_upsert := DbOk; set_now := 1000 |}.

(** Every database call rejects. *)
Definition io_down : IO :=
  {| get_select := DbThrow; get_delete := DbThrow; get_now := 1000;
     set_upsert := DbThrow; set_now := 1000 |}.

Definition post1 : SocialMediaPost.t :=
  {| SocialMediaPost.id := "p1";
     SocialMediaPost.platform := "bluesky";
     SocialMediaPost.user := "reporter.bsky.social";
     SocialMediaPost.content := "flood downtown";
     SocialMediaPost.timestamp := 500;
     SocialMediaPost.disaster_id := Some "general";
     SocialMediaPost.priority := "low" |}.

(** A cache row for [disaster-1], live until time 5000. *)
Definition cached_disaster1
    : gmap string (CacheEntry (list Disaster.t)) :=
  {[ "realtime_disasters:disaster-1" :=
       {| value :=
            [ {| Disaster.id := "disaster-1";
                 Disaster.title := "Flood Emergency";
                 Disaster.location_name := "Unknown Location";
                 Disaster.location := Some Location.origin;
                 Disaster.description := "flood downtown";
                 Disaster.tags := ["flood"];
                 Disaster.owner_id := "reporter.bsky.social";
                 Disaster.created_at := 500;
                 Disaster.updated_at := 500;
                 Disaster.audit_trail := [] |} ];
          expires_at := 5000 |} ]}.

(** Rows for [disaster-1] as the social and the resource fetch store
    them, live until time 5000. *)
Definition cached_social1
    : gmap string (CacheEntry (list SocialMediaPost.t)) :=
  {[ "realtime_social:disaster-1" :=
       {| value :=
            [ {| SocialMediaPost.id := "p7";
                 SocialMediaPost.platform := "bluesky";
                 SocialMediaPost.user := "reporter.bsky.social";
                 SocialMediaPost.content := "water rising at the pier";
                 SocialMediaPost.timestamp := 700;
                 SocialMediaPost.disaster_id := Some "disaster-1";
                 SocialMediaPost.priority := "low" |} ];
          expires_at := 5000 |} ]}.

Definition cached_resources1
    : gmap string (CacheEntry (list Resource.t)) :=
  {[ "realtime_resources:disaster-1" :=
       {| value :=
            [ {| Resource.id := "redcross-12";
                 Resource.disaster_id := "disaster-1";
                 Resource.name := "Gym";
                 Resource.location_name := "Unknown Location";
                 Resource.location :=
                   Some {| Location.lat := 407128 # 10000;
                           Location.lng := -740060 # 10000 |};
                 Resource.type := "shelter";
                 Resource.capacity := None;
                 Resource.available := Some true;
                 Resource.created_at := 900 |} ];
          expires_at := 5000 |} ]}.

Definition shelter1 : RealTimeDataService.RedCrossFeature :=
  {| RealTimeDataService.OBJECTID := "12";
     RealTimeDataService.ShelterName := Some "Gym";
     RealTimeDataService.Address := None;
     RealTimeDataService.geometry := Some (-740060 # 10000, 407128 # 10000);
     RealTimeDataService.Capacity := None |}.

(** The hosted database rejects every call, the cache included; the AI
    reads [Main St] in the description. *)
Definition env_db_down : DisasterRoutes.Env :=
  {| DisasterRoutes.db_first := DbThrow;
     DisasterRoutes.db_second := DbThrow;
     DisasterRoutes.new_id := "row-1";
     DisasterRoutes.cache_io := io_down;
     DisasterRoutes.ai := Ok "Main St";
     DisasterRoutes.geocode := fun _ => None;
     DisasterRoutes.now := 1000 |}.

(** The same outage, with an AI that finds no location. *)
Definition env_db_down_no_location : DisasterRoutes.Env :=
  {| DisasterRoutes.db_first := DbThrow;
     DisasterRoutes.db_second := DbThrow;
     DisasterRoutes.new_id := "row-1";
     DisasterRoutes.cache_io := io_down;
     DisasterRoutes.ai := Ok "null";
     DisasterRoutes.geocode := fun _ => None;
     DisasterRoutes.now := 1000 |}.

(** Everything is up. *)
Definition env_up : DisasterRoutes.Env :=
  {| DisasterRoutes.db_first := DbOk;
     DisasterRoutes.db_second := DbOk;
     DisasterRoutes.new_id := "row-1";
     DisasterRoutes.cache_io := io_up;
     DisasterRoutes.ai := Ok "Main St";
     DisasterRoutes.geocode := fun _ => None;
     DisasterRoutes.now := 1000 |}.

(** The sample rows in the table and the fixtures loaded at time 0. *)
Definition world0 : DisasterRoutes.World :=
  {| DisasterRoutes.db := MockDataService.mockDisasters 0;
     DisasterRoutes.mock := MockDataService.mockDisasters 0;
     DisasterRoutes.extraction_cache := ∅;
     DisasterRoutes.emitted := [] |}.

Definition test_flood : CreateDisasterRequest.t :=
  {| CreateDisasterRequest.title := Some "Test Flood";
     CreateDisasterRequest.location_name := None;
     CreateDisasterRequest.description := Some "River overflow near Main St";
     CreateDisasterRequest.tags := None |}.

Definition untitled : CreateDisasterRequest.t :=
  {| CreateDisasterRequest.title := Some EmptyString;
     CreateDisasterRequest.location_name := Some "Manhattan, NYC";
     CreateDisasterRequest.description := Some "River overflow near Main St";
     CreateDisasterRequest.tags := None |}.

Definition retitle : DisasterRoutes.UpdateDisasterRequest :=
  {| DisasterRoutes.u_title := Some "NYC Flood";
     DisasterRoutes.u_location_name := None;
     DisasterRoutes.u_description := None;
     DisasterRoutes.u_tags := None |}.

Definition first_page : DisasterRoutes.ListQuery :=
  {| DisasterRoutes.q_page := None; DisasterRoutes.q_limit := Some "2";
     DisasterRoutes.q_tag := None; DisasterRoutes.q_search := None;
     DisasterRoutes.q_owner_id := None; DisasterRoutes.q_lat := None;
     DisasterRoutes.q_lng := None; DisasterRoutes.q_radius := None |}.

(** A stand-in for the database operators: every row passes the [or]
    filter, and a point is within reach when its latitude is between 40
    and 41 degrees. *)
Definition latitude_band : Postgres :=
  {| or_filter := fun _ _ => true;
     st_dwithin := fun loc _ =>
       match loc with
       | Some l => Qle_bool (40 # 1) (Location.lat l)
                   && Qle_bool (Location.lat l) (41 # 1)
       | None => false
       end |}.

(** The stand-in of [Geo] as the database operators. *)
Definition taxicab : Postgres :=
  {| or_filter := fun _ _ => true; st_dwithin := Geo.within |}.

(** GET /api/resources?lat=40.7&lng=-74.0&radius=5000 *)
Definition near_nyc : ResourceRoutes.ListQuery :=
  {| ResourceRoutes.q_disaster_id := None;
     ResourceRoutes.q_type := None;
     ResourceRoutes.q_available := None;
     ResourceRoutes.q_lat := Some "40.7";
     ResourceRoutes.q_lng := Some "-74.0";
     ResourceRoutes.q_radius := Some "5000";
     ResourceRoutes.q_page := None;
     ResourceRoutes.q_limit := None |}.

(** The cache answers, five minutes and more after [io_up] wrote. *)
Definition io_later : IO :=
  {| get_select := DbOk; get_delete := DbOk; get_now := 200000;
     set_upsert := DbOk; set_now := 200000 |}.

Definition feed1 : BlueskyService.FeedPost :=
  {| BlueskyService.uri := "at://fema.bsky.social/post/1";
     BlueskyService.handle := "fema.bsky.social";
     BlueskyService.text := "Flood warning issued for disaster-12 area";
     BlueskyService.indexedAt := 900;
     BlueskyService.likeCount := Some (3 # 1);
     BlueskyService.repostCount := None;
     BlueskyService.replyCount := None |}.

Definition feed2 : BlueskyService.FeedPost :=
  {| BlueskyService.uri := "at://fema.bsky.social/post/2";
     BlueskyService.handle := "fema.bsky.social";
     BlueskyService.text := "SOS: levee breach reported";
     BlueskyService.indexedAt := 950;
     BlueskyService.likeCount := None;
     BlueskyService.repostCount := None;
     BlueskyService.replyCount := None |}.

(** Only the first default account answers, with two posts. *)
Definition fema_feed (handle : string)
    : result (option (list (option BlueskyService.FeedPost))) :=
  if String.eqb handle "fema.bsky.social"
  then Ok (Some [Some feed1; None; Some feed2]) else Throw.

(** What one tick of the poller has fetched: one disaster and two posts,
    one of them about it. *)
Definition post2 : SocialMediaPost.t :=
  {| SocialMediaPost.id := "p2";
     SocialMediaPost.platform := "bluesky";
     SocialMediaPost.user := "reporter.bsky.social";
     SocialMediaPost.content := "storm surge at the pier";
     SocialMediaPost.timestamp := 600;
     SocialMediaPost.disaster_id := Some "weather-7";
     SocialMediaPost.priority := "low" |}.

Definition tick_data : RealTimeDataService.RealTimeData :=
  {| RealTimeDataService.disasters :=
       [ {| Disaster.id := "weather-7";
            Disaster.title := "Storm Alert";
            Disaster.location_name := "Unknown Location";
            Disaster.location := Some Location.origin;
            Disaster.description := "Weather alert: Storm";
            Disaster.tags := ["weather"; "storm"; "alert"];
            Disaster.owner_id := "weather_service";
            Disaster.created_at := 500;
            Disaster.updated_at := 500;
            Disaster.audit_trail := [] |} ];
     RealTimeDataService.socialMedia := [post1; post2];
     RealTimeDataService.weather := [];
     RealTimeDataService.emergencyAlerts := [];
     RealTimeDataService.resources := [];
     RealTimeDataService.reports := [] |}.

Definition tick_update : RealTimeDataService.DisasterUpdate :=
  {| RealTimeDataService.du_disasterId := "weather-7";
     RealTimeDataService.du_timestamp := 1000;
     RealTimeDataService.du_socialMedia := [post2];
     RealTimeDataService.du_weather := [];
     RealTimeDataService.du_emergencyAlerts := [];
     RealTimeDataService.du_resources := [] |}.

(** A report with a photograph, filed while the image cannot be
    downloaded and the AI does not answer. *)
Definition report_env_ai_down : ReportRoutes.Env :=
  {| ReportRoutes.db_insert := DbOk;
     ReportRoutes.new_id := "row-1";
     ReportRoutes.cache_io := io_up;
     ReportRoutes.image := Throw;
     ReportRoutes.ai := Throw;
     ReportRoutes.JSON_parse := fun _ => Throw;
     ReportRoutes.now := 1000 |}.

Definition report_world0 : ReportRoutes.World :=
  {| ReportRoutes.db := [];
     ReportRoutes.mock := MockDataService.mockReports 0;
     ReportRoutes.verification_cache := ∅;
     ReportRoutes.emitted := [] |}.

Definition photo_report : ReportRoutes.CreateReportRequest :=
  {| ReportRoutes.disaster_id := Some "disaster-1";
     ReportRoutes.content := Some "Water rising on Main St";
     ReportRoutes.image_url := Some "https://example.com/a.jpg" |}.

(** GET /api/social-media?disaster_id=...&platform=... *)
Definition posts_of (disaster_id platform : string) : SocialMediaRoutes.Query :=
  {| SocialMediaRoutes.q_disaster_id := Some disaster_id;
     SocialMediaRoutes.q_platform := Some platform;
     SocialMediaRoutes.q_limit := None;
     SocialMediaRoutes.q_keywords := None |}.

(** Two alerts of the weather feed, the second without an event. *)
Definition nws_two : list RealTimeDataService.NwsFeature :=
  [ {| RealTimeDataService.nws_id := "a1";
       RealTimeDataService.nws_event := Some "Flood";
       RealTimeDataService.nws_severity := None;
       RealTimeDataService.nws_areaDesc := None;
       RealTimeDataService.nws_description := None;
       RealTimeDataService.nws_effective := None;
       RealTimeDataService.nws_expires := None;
       RealTimeDataService.nws_coordinates := [] |};
    {| RealTimeDataService.nws_id := "a2";
       RealTimeDataService.nws_event := None;
       RealTimeDataService.nws_severity := None;
       RealTimeDataService.nws_areaDesc := None;
       RealTimeDataService.nws_description := None;
       RealTimeDataService.nws_effective := None;
       RealTimeDataService.nws_expires := None;
       RealTimeDataService.nws_coordinates := [] |} ].

End Examples.

(** ** Proof steps shared by the properties below *)

(** Case analysis on the cache write in the goal: stored, or thrown. *)
Ltac case_set :=
  match goal with
  | |- context [CacheService.setCachedData ?io ?k ?v ?ttl ?t] =>
      destruct (CacheService.setCachedData io k v ttl t) as [[[]|] ?]
  end.

(** * Properties *)

(** ** The runtime helpers on concrete inputs *)

Example parseInt_decimal : parseInt " 42px" = Int 42.
Proof. reflexivity. Qed.

Example parseInt_hex : parseInt "-0x1f" = Int (-31).
Proof. reflexivity. Qed.

Example parseInt_nan : parseInt "abc" = NaN.
Proof. reflexivity. Qed.

Example slice_page : slice [1; 2; 3; 4; 5] 2 4 = [3; 4].
Proof. reflexivity. Qed.

Example slice_negative : slice [1; 2; 3; 4; 5] (-2) (-1) = [4].
Proof. reflexivity. Qed.

Example slice_nan : slice_num [1; 2; 3] NaN NaN = [].
Proof. reflexivity. Qed.

Example ceil_div_rounds_up : ceil_div 11 (Int 10) = Int 2.
Proof. reflexivity. Qed.

Example ceil_div_by_zero : ceil_div 3 (Int 0) = PosInf.
Proof. reflexivity. Qed.

Example toBase64_padding :
  Buffer.toBase64 "Ma" = "TWE=" /\ Buffer.toBase64 "Man" = "TWFu".
Proof. split; reflexivity. Qed.

Example trim_both_ends : trim "  Main St  " = "Main St".
Proof. reflexivity. Qed.

Example jsonMatch_greedy :
  GeminiService.jsonMatch "ok {a} and {b} end" = Some "{a} and {b}".
Proof. reflexivity. Qed.

Example extractDisasterTitle_first_keyword :
  RealTimeDataService.extractDisasterTitle "Fire after the FLOOD" = "Flood Emergency".
Proof. reflexivity. Qed.

Example getDisasters_second_page :
  List.map Disaster.id
    (fst (MockDataService.getDisasters (Int 2) (Int 2) (MockDataService.mockDisasters 0)))
  = ["disaster-3"].
Proof. reflexivity. Qed.

Example clearExpired_sweeps :
  let tbl : gmap string (CacheService.CacheEntry Z) :=
    <["old" := {| CacheService.value := 1; CacheService.expires_at := 999 |}]>
      (<["edge" := {| CacheService.value := 2; CacheService.expires_at := 1000 |}]>
         (<["new" := {| CacheService.value := 3; CacheService.expires_at := 2000 |}]> ∅)) in
  let swept := snd (CacheService.clearExpired DbOk 1000 tbl) in
  (CacheService.value <$> swept !! "old",
   CacheService.value <$> swept !! "edge",
   CacheService.value <$> swept !! "new") = (None, Some 2, Some 3).
Proof. vm_compute. reflexivity. Qed.

(** ** The cache *)

Section CacheProps.
Context {V : Type}.
Implicit Types (tbl : gmap string (CacheService.CacheEntry V)) (k : string) (v : V).

Lemma get_live tbl k e now del :
  tbl !! k = Some e -> now <= CacheService.expires_at e ->
  CacheService.get DbOk del now k tbl = (Some (CacheService.value e), tbl).
Proof.
  intros Hk Hle. unfold CacheService.get. rewrite Hk.
  destruct (Z.ltb_spec (CacheService.expires_at e) now); [lia | done].
Qed.

Lemma get_expired tbl k e now del :
  tbl !! k = Some e -> CacheService.expires_at e < now ->
  CacheService.get DbOk del now k tbl
  = (None, match del with DbOk => delete k tbl | _ => tbl end).
Proof.
  intros Hk Hlt. unfold CacheService.get. rewrite Hk.
  destruct (Z.ltb_spec (CacheService.expires_at e) now); [| lia].
  by destruct del.
Qed.

Lemma get_absent tbl k sel del now :
  tbl !! k = None -> CacheService.get sel del now k tbl = (None, tbl).
Proof. intros Hk. unfold CacheService.get. rewrite Hk. by destruct sel. Qed.

(** A failing select is a miss and changes nothing. *)
Lemma get_select_fails tbl k sel del now :
  sel <> DbOk -> CacheService.get sel del now k tbl = (None, tbl).
Proof. by destruct sel. Qed.

Lemma set_ok_inv r now k v ttl tbl tbl' :
  CacheService.set r now k v ttl tbl = (Ok tt, tbl') ->
  tbl' = <[k := {| CacheService.value := v;
                   CacheService.expires_at := now + ttl * 1000 |}]> tbl.
Proof.
  unfold CacheService.set.
  destruct (valid_time _), r; intros [= <-]; done.
Qed.

(** [set] either stores the row or throws and changes nothing. *)
Lemma set_cases r now k v ttl tbl :
  CacheService.set r now k v ttl tbl
  = (Ok tt, <[k := {| CacheService.value := v;
                      CacheService.expires_at := now + ttl * 1000 |}]> tbl)
  \/ CacheService.set r now k v ttl tbl = (Throw, tbl).
Proof. unfold CacheService.set. destruct (valid_time _), r; auto. Qed.

(** A hit returns the value of a stored row. *)
Lemma get_Some_inv sel del now k tbl v tbl' :
  CacheService.get sel del now k tbl = (Some v, tbl') ->
  tbl' = tbl /\ exists e, tbl !! k = Some e /\ CacheService.value e = v
                          /\ now <= CacheService.expires_at e.
Proof.
  unfold CacheService.get. destruct sel; try discriminate.
  destruct (tbl !! k) as [e|] eqn:Hk; try discriminate.
  destruct (Z.ltb_spec (CacheService.expires_at e) now); try discriminate.
  intros [= <- <-]. eauto.
Qed.

(** [get] never adds or changes a row. *)
Lemma get_table_lookup sel del now k tbl k' :
  snd (CacheService.get sel del now k tbl) !! k' = tbl !! k'
  \/ snd (CacheService.get sel del now k tbl) !! k' = None.
Proof.
  unfold CacheService.get. destruct sel; auto.
  destruct (tbl !! k) as [e|]; auto.
  destruct (_ <? _); auto. destruct del; simpl; auto.
  destruct (decide (k = k')) as [->|Hne].
  - right. apply lookup_delete_eq.
  - left. by apply lookup_delete_ne.
Qed.

(** C3, as amended: after a successful [set(k, v, ttl)] at time [t0], a
    [get(k)] whose database read succeeds returns [v] at every time up to
    and including the stored expiry [t0 + ttl * 1000], and returns null at
    every later time, deleting the row when the delete succeeds. *)
Theorem get_after_set tbl tbl1 r k v ttl t0 t del :
  CacheService.set r t0 k v ttl tbl = (Ok tt, tbl1) ->
  CacheService.get DbOk del t k tbl1
  = if t <=? t0 + ttl * 1000 then (Some v, tbl1)
    else (None, match del with DbOk => delete k tbl1 | _ => tbl1 end).
Proof.
  intros Hset. apply set_ok_inv in Hset. subst tbl1.
  set (e := {| CacheService.value := v;
               CacheService.expires_at := t0 + ttl * 1000 |}).
  assert (Hk : <[k:=e]> tbl !! k = Some e) by apply lookup_insert_eq.
  destruct (Z.leb_spec t (t0 + ttl * 1000)).
  - by rewrite (get_live _ _ e).
  - by rewrite (get_expired _ _ e).
Qed.

(** C4: [clearExpired] at time [now] removes a row exactly when its expiry
    is strictly before [now], and keeps every other row as it is. *)
Theorem clearExpired_exact tbl now k :
  fst (CacheService.clearExpired DbOk now tbl) = Ok tt
  /\ snd (CacheService.clearExpired DbOk now tbl) !! k
     = match tbl !! k with
       | Some e => if CacheService.expires_at e <? now then None else Some e
       | None => None
       end.
Proof.
  split; [done |]. simpl.
  destruct (tbl !! k) as [e|] eqn:Hk.
  - destruct (Z.ltb_spec (CacheService.expires_at e) now) as [Hlt|Hge].
    + apply map_lookup_filter_None. right. intros e' He'. simpl.
      rewrite Hk in He'. injection He' as <-. lia.
    + apply map_lookup_filter_Some. split; [done |]. simpl. lia.
  - apply map_lookup_filter_None. by left.
Qed.

(** When the database call fails, [clearExpired] throws and no row goes. *)
Lemma clearExpired_fails r now tbl :
  r <> DbOk -> CacheService.clearExpired r now tbl = (Throw, tbl).
Proof. by destruct r. Qed.

End CacheProps.

(** The claim C3 as first stated fails at the expiry itself: a row set at
    time 1000 with a ttl of 60 seconds expires at 61000, and [get] at 61000
    still returns the value and leaves the row. *)
Lemma get_at_expiry_returns_value :
  fst (CacheService.set DbOk 1000 "k" 7 60 (∅ : gmap string (CacheService.CacheEntry Z)))
  = Ok tt
  /\ (1000 + 60 * 1000 <=? 61000) = true
  /\ CacheService.get DbOk DbOk 61000 "k"
       (snd (CacheService.set DbOk 1000 "k" 7 60 ∅))
     = (Some 7, snd (CacheService.set DbOk 1000 "k" 7 60 ∅)).
Proof.
  split; [reflexivity |]. split; [reflexivity |].
  change (snd (CacheService.set DbOk 1000 "k" 7 60 ∅))
    with (<["k" := {| CacheService.value := 7; CacheService.expires_at := 61000 |}]>
            (∅ : gmap string (CacheService.CacheEntry Z))).
  apply (get_live _ _ {| CacheService.value := 7; CacheService.expires_at := 61000 |}).
  - apply lookup_insert_eq.
  - simpl. lia.
Qed.

Lemma get_after_set_witness :
  CacheService.get DbOk DbOk 61001 "k"
    (<["k" := {| CacheService.value := 7; CacheService.expires_at := 61000 |}]> ∅)
  = (None, delete "k"
       (<["k" := {| CacheService.value := 7; CacheService.expires_at := 61000 |}]>
          (∅ : gmap string (CacheService.CacheEntry Z)))).
Proof.
  apply (get_after_set ∅ _ DbOk "k" 7 60 1000 61001 DbOk).
  reflexivity.
Defined.

(** ** The aggregator *)

Section AggregatorProps.
Import CacheService RealTimeDataService.

(** C1: whatever the six fetches settle to, [getRealTimeDisasterData]
    returns (its [try] block never throws) the record of six lists in
    which a rejected source is the empty list and a fulfilled source is
    its own value, whatever the other five did. *)
Theorem getRealTimeDisasterData_isolates_failures
    (d : PromiseSettledResult (list Disaster.t))
    (s : PromiseSettledResult (list SocialMediaPost.t))
    (w : PromiseSettledResult (list WeatherAlert))
    (e : PromiseSettledResult (list EmergencyAlert))
    (r : PromiseSettledResult (list Resource.t))
    (p : PromiseSettledResult (list Report)) :
  aggregate d s w e r p = Ok (getRealTimeDisasterData d s w e r p)
  /\ disasters (getRealTimeDisasterData d s w e r p)
     = match d with fulfilled v => v | rejected => [] end
  /\ socialMedia (getRealTimeDisasterData d s w e r p)
     = match s with fulfilled v => v | rejected => [] end
  /\ weather (getRealTimeDisasterData d s w e r p)
     = match w with fulfilled v => v | rejected => [] end
  /\ emergencyAlerts (getRealTimeDisasterData d s w e r p)
     = match e with fulfilled v => v | rejected => [] end
  /\ resources (getRealTimeDisasterData d s w e r p)
     = match r with fulfilled v => v | rejected => [] end
  /\ reports (getRealTimeDisasterData d s w e r p)
     = match p with fulfilled v => v | rejected => [] end.
Proof. repeat split. Qed.

(** A field does not depend on how the other sources settle. *)
Lemma disasters_field_independent d s w e r p s' w' e' r' p' :
  disasters (getRealTimeDisasterData d s w e r p)
  = disasters (getRealTimeDisasterData d s' w' e' r' p').
Proof. reflexivity. Qed.

Lemma filter_id_correlated (d : string) (l : list Disaster.t) :
  Forall (fun x => Disaster.id x = d)
         (List.filter (fun x => String.eqb (Disaster.id x) d) l).
Proof.
  induction l as [|x l IH]; simpl; [constructor |].
  destruct (String.eqb_spec (Disaster.id x) d); [by constructor | done].
Qed.

Lemma correlated_spec (p : SocialMediaPost.t) (d : string) :
  correlated p d = true <-> SocialMediaPost.disaster_id p = Some d.
Proof.
  unfold correlated. destruct (SocialMediaPost.disaster_id p) as [x|].
  - destruct (String.eqb_spec x d); split; congruence.
  - split; discriminate.
Qed.

Lemma filter_post_correlated (d : string) (l : list SocialMediaPost.t) :
  Forall (fun p => SocialMediaPost.disaster_id p = Some d)
         (List.filter (fun p => correlated p d) l).
Proof.
  induction l as [|x l IH]; simpl; [constructor |].
  destruct (correlated x d) eqn:Hc; [| done].
  constructor; [by apply correlated_spec | done].
Qed.

Lemma truthy_nonempty (s : string) : s <> EmptyString -> truthy s = true.
Proof. by destruct s. Qed.

Lemma or_else_truthy (s d : string) :
  s <> EmptyString -> or_else (Some s) d = s.
Proof. intros H. unfold or_else. by rewrite truthy_nonempty. Qed.

Lemma or_else_all_inv (o : option string) (d : string) :
  or_else o "all" = d -> d <> "all" -> o = Some d /\ truthy d = true.
Proof.
  unfold or_else. destruct o as [s|]; [| congruence].
  destruct (truthy s) eqn:Hs; [| congruence]. by intros -> _.
Qed.

Lemma disasters_key_inj (a b : string) :
  "realtime_disasters:" ++ a = "realtime_disasters:" ++ b -> a = b.
Proof. intros Heq. cbv [String.append] in Heq. by injection Heq. Qed.

Lemma disasters_cache_ok_empty : disasters_cache_ok ∅.
Proof. intros d e _ Hl. by rewrite lookup_empty in Hl. Qed.

Lemma disasters_cache_ok_get sel del now k
    (tbl : gmap string (CacheEntry (list Disaster.t))) :
  disasters_cache_ok tbl ->
  disasters_cache_ok (snd (get sel del now k tbl)).
Proof.
  intros Hok d e Hd Hl.
  destruct (get_table_lookup sel del now k tbl ("realtime_disasters:" ++ d))
    as [Heq | Heq]; rewrite Heq in Hl; [by eapply Hok | discriminate].
Qed.

(** X2: every call of [getRealTimeDisasters], with or without an id, keeps
    the cache in the state [disasters_cache_ok]. *)
Lemma getRealTimeDisasters_keeps_cache_ok io wio posts nws now disasterId
    (tbl : gmap string (CacheEntry (list Disaster.t))) wtbl :
  disasters_cache_ok tbl ->
  disasters_cache_ok
    (snd (fst (getRealTimeDisasters io wio posts nws now disasterId tbl wtbl))).
Proof.
  intros Hok. unfold getRealTimeDisasters.
  pose proof (disasters_cache_ok_get (get_select io) (get_delete io) (get_now io)
                ("realtime_disasters:" ++ or_else disasterId "all") tbl Hok) as Hok1.
  unfold getCachedData.
  destruct (get _ _ _ _ tbl) as [[l|] tbl1]; simpl in Hok1; [done |].
  destruct (getDisastersFromWeatherAlerts wio nws now wtbl) as [wd wtbl1].
  unfold setCachedData.
  match goal with
  | |- context [set ?r ?t ?k ?v ?ttl tbl1] =>
      destruct (set_cases r t k v ttl tbl1) as [Hs | Hs]; rewrite Hs
  end; simpl; [| done].
  intros d e Hd Hl.
  destruct (decide ("realtime_disasters:" ++ or_else disasterId "all"
                    = "realtime_disasters:" ++ d)) as [Heq | Hne].
  - rewrite Heq, lookup_insert_eq in Hl. injection Hl as <-. simpl.
    apply disasters_key_inj in Heq.
    destruct (or_else_all_inv _ _ Heq Hd) as [-> Ht]. rewrite Ht.
    apply filter_id_correlated.
  - rewrite lookup_insert_ne in Hl by done. by eapply Hok1.
Qed.

(** X1: in such a cache, a fetch for an id other than the empty one and
    [all] returns only disasters with that id, hit or miss. *)
Lemma getRealTimeDisasters_correlated_in_ok_cache d io wio posts nws now
    (tbl : gmap string (CacheEntry (list Disaster.t))) wtbl :
  d <> EmptyString -> d <> "all" -> disasters_cache_ok tbl ->
  Forall (fun x => Disaster.id x = d)
         (fst (fst (getRealTimeDisasters io wio posts nws now (Some d) tbl wtbl))).
Proof.
  intros Hd Hall Hok. unfold getRealTimeDisasters.
  rewrite (or_else_truthy d "all" Hd).
  destruct (getCachedData io _ tbl) as [[l|] tbl1] eqn:Hg; simpl.
  - unfold getCachedData in Hg. apply get_Some_inv in Hg as (_ & e & He & <- & _).
    by eapply Hok.
  - destruct (getDisastersFromWeatherAlerts wio nws now wtbl) as [wd wtbl1].
    rewrite (truthy_nonempty d Hd).
    case_set; simpl.
    + apply filter_id_correlated.
    + constructor.
Qed.

Lemma key_suffix_inj (p a b : string) : p ++ a = p ++ b -> a = b.
Proof.
  induction p as [|c p IH]; [done |].
  change (String c (p ++ a) = String c (p ++ b) -> a = b).
  intros [= Heq]. by apply IH.
Qed.

Lemma social_cache_ok_get sel del now k
    (tbl : gmap string (CacheEntry (list SocialMediaPost.t))) :
  social_cache_ok tbl -> social_cache_ok (snd (get sel del now k tbl)).
Proof.
  intros Hok d e Hd Hl.
  destruct (get_table_lookup sel del now k tbl ("realtime_social:" ++ d))
    as [Heq | Heq]; rewrite Heq in Hl; [by eapply Hok | discriminate].
Qed.

Lemma resources_cache_ok_get sel del now k
    (tbl : gmap string (CacheEntry (list Resource.t))) :
  resources_cache_ok tbl -> resources_cache_ok (snd (get sel del now k tbl)).
Proof.
  intros Hok d e Hd Hl.
  destruct (get_table_lookup sel del now k tbl ("realtime_resources:" ++ d))
    as [Heq | Heq]; rewrite Heq in Hl; [by eapply Hok | discriminate].
Qed.

(** What one fetch of the disasters does in a cache in that state: it
    keeps the state, and for an id other than the empty one and [all] it
    returns disasters of that id only. *)
Lemma disasters_fetch_ok io wio posts nws now o
    (tbl : gmap string (CacheEntry (list Disaster.t))) wtbl :
  disasters_cache_ok tbl ->
  disasters_cache_ok
    (snd (fst (getRealTimeDisasters io wio posts nws now o tbl wtbl)))
  /\ (forall d, o = Some d -> d <> EmptyString -> d <> "all" ->
      Forall (fun x => Disaster.id x = d)
        (fst (fst (getRealTimeDisasters io wio posts nws now o tbl wtbl)))).
Proof.
  intros Hok. unfold getRealTimeDisasters, getCachedData.
  pose proof (disasters_cache_ok_get (get_select io) (get_delete io)
                (get_now io) ("realtime_disasters:" ++ or_else o "all")
                tbl Hok) as Hok1.
  destruct (get _ _ _ _ tbl) as [[l|] tbl1] eqn:Hg; cbn [fst snd] in *.
  - split; [done |]. intros d -> Hd Hall.
    rewrite (or_else_truthy d "all" Hd) in Hg.
    apply get_Some_inv in Hg as (_ & e & He & <- & _). by eapply Hok.
  - destruct (getDisastersFromWeatherAlerts wio nws now wtbl) as [wd wtbl1].
    unfold setCachedData.
    match goal with
    | |- context [set ?r ?t ?k ?v ?ttl tbl1] =>
        destruct (set_cases r t k v ttl tbl1) as [Hs | Hs]; rewrite Hs
    end; cbn [fst snd]; (split; [| intros d -> Hd Hall]).
    + intros d e Hd Hl.
      destruct (decide ("realtime_disasters:" ++ or_else o "all"
                        = "realtime_disasters:" ++ d)) as [Heq | Hne].
      * rewrite Heq, lookup_insert_eq in Hl. injection Hl as <-. simpl.
        apply key_suffix_inj in Heq.
        destruct (or_else_all_inv _ _ Heq Hd) as [-> Ht]. rewrite Ht.
        apply filter_id_correlated.
      * rewrite lookup_insert_ne in Hl by done. by eapply Hok1.
    + rewrite (truthy_nonempty d Hd). apply filter_id_correlated.
    + done.
    + constructor.
Qed.

Lemma social_fetch_ok sio search official o
    (stbl : gmap string (CacheEntry (list SocialMediaPost.t))) :
  social_cache_ok stbl ->
  social_cache_ok (snd (getRealTimeSocialMedia sio search official o stbl))
  /\ (forall d, o = Some d -> d <> EmptyString -> d <> "all" ->
      Forall (fun p => SocialMediaPost.disaster_id p = Some d)
        (fst (getRealTimeSocialMedia sio search official o stbl))).
Proof.
  intros Hok. unfold getRealTimeSocialMedia, getCachedData.
  pose proof (social_cache_ok_get (get_select sio) (get_delete sio)
                (get_now sio) ("realtime_social:" ++ or_else o "all")
                stbl Hok) as Hok1.
  destruct (get _ _ _ _ stbl) as [[l|] tbl1] eqn:Hg; cbn [fst snd] in *.
  - split; [done |]. intros d -> Hd Hall.
    rewrite (or_else_truthy d "all" Hd) in Hg.
    apply get_Some_inv in Hg as (_ & e & He & <- & _). by eapply Hok.
  - unfold setCachedData.
    match goal with
    | |- context [set ?r ?t ?k ?v ?ttl tbl1] =>
        destruct (set_cases r t k v ttl tbl1) as [Hs | Hs]; rewrite Hs
    end; cbn [fst snd]; (split; [| intros d -> Hd Hall]).
    + intros d e Hd Hl.
      destruct (decide ("realtime_social:" ++ or_else o "all"
                        = "realtime_social:" ++ d)) as [Heq | Hne].
      * rewrite Heq, lookup_insert_eq in Hl. injection Hl as <-. simpl.
        apply key_suffix_inj in Heq.
        destruct (or_else_all_inv _ _ Heq Hd) as [-> Ht]. rewrite Ht.
        apply filter_post_correlated.
      * rewrite lookup_insert_ne in Hl by done. by eapply Hok1.
    + rewrite (truthy_nonempty d Hd). apply filter_post_correlated.
    + done.
    + constructor.
Qed.

Lemma shelters_tagged (redcross : result (option (list RedCrossFeature)))
    (rnow : Z) (o : option string) :
  Forall (fun r => Resource.disaster_id r = or_else o "general")
    (match redcross with
     | Ok (Some features) =>
         List.map (fun feature =>
           {| Resource.id := "redcross-" ++ OBJECTID feature;
              Resource.disaster_id := or_else o "general";
              Resource.name := or_else (ShelterName feature) "Red Cross Shelter";
              Resource.location_name :=
                or_else (Address feature) "Unknown Location";
              Resource.location :=
                Some {| Location.lat :=
                          default 0%Q (nonzero (snd <$> geometry feature));
                        Location.lng :=
                          default 0%Q (nonzero (fst <$> geometry feature)) |};
              Resource.type := "shelter";
              Resource.capacity := nonzero (Capacity feature);
              Resource.available := Some true;
              Resource.created_at := rnow |}) features
     | Ok None | Throw => []
     end).
Proof.
  destruct redcross as [[features|]|]; try constructor.
  by apply Forall_map, Forall_true.
Qed.

Lemma resources_fetch_ok rio redcross rnow o
    (rtbl : gmap string (CacheEntry (list Resource.t))) :
  resources_cache_ok rtbl ->
  resources_cache_ok (snd (getRealTimeResources rio redcross rnow o rtbl))
  /\ (forall d, o = Some d -> d <> EmptyString -> d <> "all" ->
      Forall (fun r => Resource.disaster_id r = d)
        (fst (getRealTimeResources rio redcross rnow o rtbl))).
Proof.
  intros Hok. unfold getRealTimeResources, getCachedData.
  pose proof (resources_cache_ok_get (get_select rio) (get_delete rio)
                (get_now rio) ("realtime_resources:" ++ or_else o "all")
                rtbl Hok) as Hok1.
  pose proof (shelters_tagged redcross rnow o) as Htag.
  destruct (get _ _ _ _ rtbl) as [[l|] tbl1] eqn:Hg; cbn [fst snd] in *.
  - split; [done |]. intros d -> Hd Hall.
    rewrite (or_else_truthy d "all" Hd) in Hg.
    apply get_Some_inv in Hg as (_ & e & He & <- & _). by eapply Hok.
  - unfold setCachedData.
    match goal with
    | |- context [set ?r ?t ?k ?v ?ttl tbl1] =>
        destruct (set_cases r t k v ttl tbl1) as [Hs | Hs]; rewrite Hs
    end; cbn [fst snd]; (split; [| intros d -> Hd Hall]).
    + intros d e Hd Hl.
      destruct (decide ("realtime_resources:" ++ or_else o "all"
                        = "realtime_resources:" ++ d)) as [Heq | Hne].
      * rewrite Heq, lookup_insert_eq in Hl. injection Hl as <-. simpl.
        apply key_suffix_inj in Heq.
        destruct (or_else_all_inv _ _ Heq Hd) as [-> Ht].
        replace (or_else (Some d) "general") with d in *
          by (unfold or_else; by rewrite Ht).
        exact Htag.
      * rewrite lookup_insert_ne in Hl by done. by eapply Hok1.
    + rewrite (or_else_truthy d "general" Hd) in Htag |- *. exact Htag.
    + done.
    + constructor.
Qed.

Lemma social_cache_ok_empty : social_cache_ok ∅.
Proof. intros d e _ Hl. by rewrite lookup_empty in Hl. Qed.

Lemma resources_cache_ok_empty : resources_cache_ok ∅.
Proof. intros d e _ Hl. by rewrite lookup_empty in Hl. Qed.

(** C2, as amended: the three caches start empty and every fetch, with
    or without an id, keeps them in the state where a row under the key
    of an id other than [all] holds only entries of that id. In that
    state, for every requested id [d] other than the empty one and
    [all], every disaster returned has id [d], every post returned has
    disaster id [d] and every resource returned has disaster id [d],
    whether the answer is computed or comes from the cache. *)
Theorem realtime_results_correlated (o : option string)
    (io wio : IO) (posts : result (list SocialMediaPost.t))
    (nws : result (option (list NwsFeature))) (now : Z)
    (tbl : gmap string (CacheEntry (list Disaster.t)))
    (wtbl : gmap string (CacheEntry (list WeatherAlert)))
    (sio : IO) (search official : result (list SocialMediaPost.t))
    (stbl : gmap string (CacheEntry (list SocialMediaPost.t)))
    (rio : IO) (redcross : result (option (list RedCrossFeature))) (rnow : Z)
    (rtbl : gmap string (CacheEntry (list Resource.t))) :
  disasters_cache_ok tbl -> social_cache_ok stbl -> resources_cache_ok rtbl ->
  (disasters_cache_ok ∅ /\ social_cache_ok ∅ /\ resources_cache_ok ∅)
  /\ (disasters_cache_ok
        (snd (fst (getRealTimeDisasters io wio posts nws now o tbl wtbl)))
      /\ social_cache_ok
           (snd (getRealTimeSocialMedia sio search official o stbl))
      /\ resources_cache_ok
           (snd (getRealTimeResources rio redcross rnow o rtbl)))
  /\ (forall d, o = Some d -> d <> EmptyString -> d <> "all" ->
      Forall (fun x => Disaster.id x = d)
        (fst (fst (getRealTimeDisasters io wio posts nws now o tbl wtbl)))
      /\ Forall (fun p => SocialMediaPost.disaster_id p = Some d)
           (fst (getRealTimeSocialMedia sio search official o stbl))
      /\ Forall (fun r => Resource.disaster_id r = d)
           (fst (getRealTimeResources rio redcross rnow o rtbl))).
Proof.
  intros HD HS HR.
  destruct (disasters_fetch_ok io wio posts nws now o tbl wtbl HD) as [HD1 HD2].
  destruct (social_fetch_ok sio search official o stbl HS) as [HS1 HS2].
  destruct (resources_fetch_ok rio redcross rnow o rtbl HR) as [HR1 HR2].
  split.
  { split; [apply disasters_cache_ok_empty |].
    split; [apply social_cache_ok_empty | apply resources_cache_ok_empty]. }
  split; [done |]. intros d Ho Hd Hall. auto.
Qed.

End AggregatorProps.

(** The claim C2 as first stated fails in two ways. The empty id is treated
    as no id: nothing is filtered, and a shelter is tagged [general]. And
    the id [all] shares its cache key with the unfiltered fetch: after a
    fetch without an id, a fetch for [all] is answered from the cache with
    the unfiltered list. *)
Lemma realtime_results_not_correlated :
  List.map Disaster.id
    (fst (fst (RealTimeDataService.getRealTimeDisasters Examples.io_up Examples.io_up
                 (Ok [Examples.post1]) Throw 1000 (Some EmptyString) ∅ ∅)))
  = ["bluesky-p1"]
  /\ List.map SocialMediaPost.disaster_id
       (fst (RealTimeDataService.getRealTimeSocialMedia Examples.io_up
               (Ok [Examples.post1]) Throw (Some EmptyString) ∅))
     = [Some "general"]
  /\ List.map Resource.disaster_id
       (fst (RealTimeDataService.getRealTimeResources Examples.io_up
               (Ok (Some [Examples.shelter1])) 1000 (Some EmptyString) ∅))
     = ["general"]
  /\ List.map Disaster.id
       (fst (fst (RealTimeDataService.getRealTimeDisasters Examples.io_up Examples.io_up
                    (Ok []) Throw 1000 (Some "all")
                    (snd (fst (RealTimeDataService.getRealTimeDisasters
                                 Examples.io_up Examples.io_up
                                 (Ok [Examples.post1]) Throw 1000 None ∅ ∅)))
                    ∅)))
     = ["bluesky-p1"].
Proof. repeat split; vm_compute; reflexivity. Qed.

Lemma realtime_results_correlated_witness :
  (Forall (fun x => Disaster.id x = "disaster-1")
     (fst (fst (RealTimeDataService.getRealTimeDisasters Examples.io_up
                  Examples.io_up (Ok [Examples.post1]) Throw 1000
                  (Some "disaster-1") Examples.cached_disaster1 ∅)))
   /\ Forall (fun p => SocialMediaPost.disaster_id p = Some "disaster-1")
        (fst (RealTimeDataService.getRealTimeSocialMedia Examples.io_up
                (Ok [Examples.post1]) Throw (Some "disaster-1")
                Examples.cached_social1))
   /\ Forall (fun r => Resource.disaster_id r = "disaster-1")
        (fst (RealTimeDataService.getRealTimeResources Examples.io_up
                Throw 1000 (Some "disaster-1") Examples.cached_resources1)))
  /\ List.map Disaster.id
       (fst (fst (RealTimeDataService.getRealTimeDisasters Examples.io_up
                    Examples.io_up (Ok [Examples.post1]) Throw 1000
                    (Some "disaster-1") Examples.cached_disaster1 ∅)))
     = ["disaster-1"]
  /\ List.map SocialMediaPost.id
       (fst (RealTimeDataService.getRealTimeSocialMedia Examples.io_up
               (Ok [Examples.post1]) Throw (Some "disaster-1")
               Examples.cached_social1))
     = ["p7"]
  /\ List.map Resource.id
       (fst (RealTimeDataService.getRealTimeResources Examples.io_up
               Throw 1000 (Some "disaster-1") Examples.cached_resources1))
     = ["redcross-12"].
Proof.
  split; [| repeat split; reflexivity].
  destruct (realtime_results_correlated (Some "disaster-1")
              Examples.io_up Examples.io_up (Ok [Examples.post1]) Throw 1000
              Examples.cached_disaster1 ∅
              Examples.io_up (Ok [Examples.post1]) Throw Examples.cached_social1
              Examples.io_up Throw 1000 Examples.cached_resources1)
    as (_ & _ & Hcor).
  - intros d e _ Hl. unfold Examples.cached_disaster1 in Hl.
    apply lookup_singleton_Some in Hl as [Hk <-].
    cbv [String.append] in Hk. injection Hk as <-.
    repeat constructor.
  - intros d e _ Hl. unfold Examples.cached_social1 in Hl.
    apply lookup_singleton_Some in Hl as [Hk <-].
    cbv [String.append] in Hk. injection Hk as <-.
    repeat constructor.
  - intros d e _ Hl. unfold Examples.cached_resources1 in Hl.
    apply lookup_singleton_Some in Hl as [Hk <-].
    cbv [String.append] in Hk. injection Hk as <-.
    repeat constructor.
  - apply (Hcor "disaster-1" eq_refl); discriminate.
Defined.

Lemma getRealTimeDisasters_keeps_cache_ok_witness :
  RealTimeDataService.disasters_cache_ok
    (snd (fst (RealTimeDataService.getRealTimeDisasters Examples.io_up Examples.io_up
                 (Ok [Examples.post1]) Throw 1000 (Some "disaster-1") ∅ ∅))).
Proof.
  apply (getRealTimeDisasters_keeps_cache_ok Examples.io_up Examples.io_up
           (Ok [Examples.post1]) Throw 1000 (Some "disaster-1") ∅ ∅).
  intros d e _ Hl. rewrite lookup_empty in Hl. discriminate.
Defined.

Lemma getRealTimeDisasters_correlated_in_ok_cache_witness :
  Forall (fun x => Disaster.id x = "disaster-1")
    (fst (fst (RealTimeDataService.getRealTimeDisasters Examples.io_up Examples.io_up
                 (Ok [Examples.post1]) Throw 1000 (Some "disaster-1")
                 Examples.cached_disaster1 ∅)))
  /\ length (fst (fst (RealTimeDataService.getRealTimeDisasters
                         Examples.io_up Examples.io_up
                         (Ok [Examples.post1]) Throw 1000 (Some "disaster-1")
                         Examples.cached_disaster1 ∅))) = 1%nat.
Proof.
  split; [| reflexivity].
  apply (getRealTimeDisasters_correlated_in_ok_cache "disaster-1").
  - discriminate.
  - discriminate.
  - intros d e _ Hl. unfold Examples.cached_disaster1 in Hl.
    apply lookup_singleton_Some in Hl as [Hk <-].
    cbv [String.append] in Hk. injection Hk as <-.
    repeat constructor.
Defined.

(** ** The social adapter's keyword classifier *)

Section ClassifierProps.
Import BlueskyService.

(** C10: [classifyPriority] returns one of the four labels on every
    input; an urgent keyword in the lower-cased content decides for
    [urgent] before all others, then a high keyword for [high], then a
    medium keyword for [medium], and without any keyword the label is
    [low]. *)
Theorem classifyPriority_spec (content : string) :
  let lc := toLowerCase content in
  let urgent := includes lc "urgent" || includes lc "sos"
                || includes lc "emergency" in
  let high := includes lc "critical" || includes lc "severe"
              || includes lc "danger" in
  let medium := includes lc "warning" || includes lc "alert"
                || includes lc "caution" in
  In (classifyPriority content) ["low"; "medium"; "high"; "urgent"]
  /\ (urgent = true -> classifyPriority content = "urgent")
  /\ (urgent = false -> high = true -> classifyPriority content = "high")
  /\ (urgent = false -> high = false -> medium = true ->
      classifyPriority content = "medium")
  /\ (urgent = false -> high = false -> medium = false ->
      classifyPriority content = "low").
Proof.
  intros lc urgent high medium. unfold classifyPriority.
  fold lc. fold urgent. fold high. fold medium.
  destruct urgent, high, medium; simpl; intuition congruence.
Qed.

End ClassifierProps.

Lemma classifyPriority_spec_witness :
  BlueskyService.classifyPriority "SOS: severe flood warning" = "urgent"
  /\ BlueskyService.classifyPriority "Severe WARNING issued" = "high"
  /\ BlueskyService.classifyPriority "Weather Alert" = "medium"
  /\ BlueskyService.classifyPriority "all clear" = "low".
Proof.
  split; [| split; [| split]].
  - apply (proj1 (proj2 (classifyPriority_spec "SOS: severe flood warning"))).
    reflexivity.
  - apply (proj1 (proj2 (proj2 (classifyPriority_spec "Severe WARNING issued"))));
      reflexivity.
  - apply (proj1 (proj2 (proj2 (proj2 (classifyPriority_spec "Weather Alert")))));
      reflexivity.
  - apply (proj2 (proj2 (proj2 (proj2 (classifyPriority_spec "all clear")))));
      reflexivity.
Defined.

(** ** The verification and classification adapter *)

Section GeminiProps.
Import CacheService GeminiService.

Lemma verifyImage_miss io image ai JSON_parse url ctx
    (tbl : gmap string (CacheEntry ImageVerificationResult.t)) :
  fst (getCachedData io ("image_verification:" ++ Buffer.toBase64 url) tbl) = None ->
  fst (verifyImage io image ai JSON_parse url ctx tbl)
  = match image, ai with
    | Ok true, Ok analysisText =>
        match fst (setCachedData io
                     ("image_verification:" ++ Buffer.toBase64 url)
                     (parseAnalysis JSON_parse analysisText) 3600
                     (snd (getCachedData io
                             ("image_verification:" ++ Buffer.toBase64 url) tbl))) with
        | Ok _ => parseAnalysis JSON_parse analysisText
        | Throw => fallbackResult
        end
    | _, _ => fallbackResult
    end.
Proof.
  intros Hmiss. unfold verifyImage.
  destruct (getCachedData io _ tbl) as [cached tbl1]. simpl in *. subst cached.
  destruct image as [[|]|]; try done.
  destruct ai as [text|]; try done.
  by case_set.
Qed.

(** C7, as amended: on a cache miss, [verifyImage] never propagates an
    error; it returns the fixed default (authentic, confidence 30) when
    the AI call throws; it returns authentic with confidence 50 and the
    raw text when the reply holds a brace-delimited fragment that
    [JSON.parse] rejects (or the fixed default when storing that result
    throws); when the reply holds no such fragment it returns the keyword
    reading of the text, which is not authentic as soon as the text
    mentions [fake] or [manipulated]. [classifySocialMediaPriority]
    returns [medium] when the AI call throws and when the normalised
    reply is none of the four labels. *)
Theorem gemini_fallbacks (io : IO) (image : result bool)
    (JSON_parse : string -> result ImageVerificationResult.t)
    (url : string) (ctx : option string)
    (tbl : gmap string (CacheEntry ImageVerificationResult.t))
    (text m plain : string)
    (cio : IO) (content reply : string)
    (ctbl : gmap string (CacheEntry string)) :
  fst (getCachedData io ("image_verification:" ++ Buffer.toBase64 url) tbl) = None ->
  jsonMatch text = Some m -> JSON_parse m = Throw ->
  jsonMatch plain = None ->
  truthy_opt (fst (getCachedData cio
                     ("priority_classification:" ++ Buffer.toBase64 content) ctbl))
  = false ->
  arr_includes validPriorities (toLowerCase (trim reply)) = false ->
  fst (verifyImage io image Throw JSON_parse url ctx tbl) = fallbackResult
  /\ fst (verifyImage io image (Ok text) JSON_parse url ctx tbl)
     = (let unparsed :=
          {| ImageVerificationResult.is_authentic := true;
             ImageVerificationResult.confidence := 50;
             ImageVerificationResult.analysis := text;
             ImageVerificationResult.detected_manipulations := [] |} in
        match image,
              fst (setCachedData io
                     ("image_verification:" ++ Buffer.toBase64 url) unparsed 3600
                     (snd (getCachedData io
                             ("image_verification:" ++ Buffer.toBase64 url) tbl))) with
        | Ok true, Ok _ => unparsed
        | _, _ => fallbackResult
        end)
  /\ fst (verifyImage io image (Ok plain) JSON_parse url ctx tbl)
     = (let read :=
          {| ImageVerificationResult.is_authentic :=
               negb (includes (toLowerCase plain) "fake")
               && negb (includes (toLowerCase plain) "manipulated");
             ImageVerificationResult.confidence :=
               if includes plain "high" then 80
               else if includes plain "medium" then 60 else 40;
             ImageVerificationResult.analysis := plain;
             ImageVerificationResult.detected_manipulations :=
               if includes (toLowerCase plain) "manipulation"
               then ["Potential editing detected"] else [] |} in
        match image,
              fst (setCachedData io
                     ("image_verification:" ++ Buffer.toBase64 url) read 3600
                     (snd (getCachedData io
                             ("image_verification:" ++ Buffer.toBase64 url) tbl))) with
        | Ok true, Ok _ => read
        | _, _ => fallbackResult
        end)
  /\ fst (classifySocialMediaPriority cio Throw content ctbl) = "medium"
  /\ fst (classifySocialMediaPriority cio (Ok reply) content ctbl) = "medium".
Proof.
  intros Hmiss Hm Hparse Hplain Hcmiss Hbad.
  split; [| split; [| split; [| split]]].
  - rewrite verifyImage_miss by done. by destruct image as [[|]|].
  - rewrite verifyImage_miss by done. unfold parseAnalysis.
    rewrite Hm, Hparse. by destruct image as [[|]|].
  - rewrite verifyImage_miss by done. unfold parseAnalysis.
    rewrite Hplain. by destruct image as [[|]|].
  - unfold classifySocialMediaPriority.
    destruct (getCachedData cio _ ctbl) as [cached tbl1]. simpl in *.
    by rewrite Hcmiss.
  - unfold classifySocialMediaPriority.
    destruct (getCachedData cio _ ctbl) as [cached tbl1]. simpl in *.
    rewrite Hcmiss, Hbad.
    by case_set.
Qed.

(** A cached classification is returned as it is stored. *)
Lemma classify_cache_hit cio ai content (ctbl : gmap string (CacheEntry string)) p :
  fst (getCachedData cio
         ("priority_classification:" ++ Buffer.toBase64 content) ctbl) = Some p ->
  truthy p = true ->
  fst (classifySocialMediaPriority cio ai content ctbl) = p.
Proof.
  intros Hhit Hp. unfold classifySocialMediaPriority.
  destruct (getCachedData cio _ ctbl) as [cached tbl1]. simpl in *.
  subst cached. simpl. by rewrite Hp.
Qed.

(** X3: on a cache miss, whatever the AI replies or throws,
    [classifySocialMediaPriority] returns one of the four labels. *)
Lemma classify_miss_valid cio ai content (ctbl : gmap string (CacheEntry string)) :
  truthy_opt (fst (getCachedData cio
                     ("priority_classification:" ++ Buffer.toBase64 content) ctbl))
  = false ->
  In (fst (classifySocialMediaPriority cio ai content ctbl)) validPriorities.
Proof.
  intros Hmiss. unfold classifySocialMediaPriority.
  destruct (getCachedData cio _ ctbl) as [cached tbl1]. cbn [fst] in *.
  rewrite Hmiss. destruct ai as [text|]; [| simpl; tauto].
  destruct (arr_includes validPriorities (toLowerCase (trim text))) eqn:Hin;
    case_set; cbn [fst];
    try (simpl; tauto).
  unfold arr_includes in Hin. apply existsb_exists in Hin as (x & Hx & Heq).
  apply String.eqb_eq in Heq. rewrite Heq. exact Hx.
Qed.

End GeminiProps.

Lemma classify_miss_valid_witness :
  In (fst (GeminiService.classifySocialMediaPriority Examples.io_up
             (Ok " URGENT ") "Need help" ∅))
     GeminiService.validPriorities.
Proof.
  apply (classify_miss_valid Examples.io_up (Ok " URGENT ") "Need help" ∅).
  reflexivity.
Defined.

(** The claim C7 as first stated fails for a reply without a JSON object:
    the text is read by keywords, and a reply that mentions [fake] is
    reported as not authentic, with confidence 40. *)
Lemma verifyImage_unparsed_reply_not_authentic :
  GeminiService.jsonMatch "This image looks fake" = None
  /\ fst (GeminiService.verifyImage Examples.io_up (Ok true)
            (Ok "This image looks fake") (fun _ => Throw)
            "https://example.com/flood-image-1.jpg" None ∅)
     = {| ImageVerificationResult.is_authentic := false;
          ImageVerificationResult.confidence := 40;
          ImageVerificationResult.analysis := "This image looks fake";
          ImageVerificationResult.detected_manipulations := [] |}.
Proof. split; vm_compute; reflexivity. Qed.

Lemma gemini_fallbacks_witness :
  fst (GeminiService.verifyImage Examples.io_up (Ok true) Throw (fun _ => Throw)
         "https://example.com/flood-image-1.jpg" None ∅)
  = GeminiService.fallbackResult
  /\ fst (GeminiService.classifySocialMediaPriority Examples.io_up
            (Ok "CRITICAL!") "Need help" ∅)
     = "medium".
Proof.
  destruct (gemini_fallbacks Examples.io_up (Ok true) (fun _ => Throw)
              "https://example.com/flood-image-1.jpg" None ∅
              "{ not json }" "{ not json }" "no json here"
              Examples.io_up "Need help" "CRITICAL!" ∅) as (H1 & _ & _ & _ & H5);
    try reflexivity.
  split; [exact H1 | exact H5].
Defined.

(** ** The disaster routes *)

Section DisasterRouteProps.
Import CacheService Http DisasterRoutes.

Lemma or_else_nonempty (o : option string) (d : string) :
  d <> EmptyString -> or_else o d <> EmptyString.
Proof.
  intros Hd. unfold or_else. destruct o as [s|]; [| done].
  destruct s; simpl; [done | discriminate].
Qed.

(** What POST does with a body that passes the validation. *)
Lemma post_valid env user body w :
  truthy_opt (CreateDisasterRequest.title body) = true ->
  truthy_opt (CreateDisasterRequest.description body) = true ->
  match resolveLocationName env (CreateDisasterRequest.location_name body)
          (default EmptyString (CreateDisasterRequest.description body))
          (extraction_cache w) with
  | (Throw, _) => fst (post env user body w) = failure 500 "Internal server error"
  | (Ok finalLocationName, _) =>
      exists d msg,
        fst (post env user body w) = ok_with 201 d (Some msg)
        /\ Disaster.location_name d = or_else finalLocationName "Unknown Location"
        /\ (db_first env <> DbOk ->
            msg = "Disaster created successfully (mock mode)"
            /\ mock (snd (post env user body w)) = (mock w ++ [d])%list
            /\ db (snd (post env user body w)) = db w)
  end.
Proof.
  intros Ht Hd. unfold post. rewrite Ht, Hd. simpl.
  destruct (resolveLocationName env _ _ _) as [[n|] c1]; [| done].
  unfold insert. destruct (db_first env) eqn:Hc.
  - destruct (existsb _ (db w)); simpl; eexists _, _; (split; [done |]);
      (split; [done |]); congruence.
  - simpl. eexists _, _. split; [done |]. split; [done |]. done.
  - simpl. eexists _, _. split; [done |]. split; [done |]. done.
Qed.

(** C6: a POST whose title or description is missing or empty is answered
    with 400 and the error envelope, and it leaves the database table, the
    fixture store and everything else as they were. *)
Theorem post_rejects_missing_fields env user body w :
  truthy_opt (CreateDisasterRequest.title body) = false
  \/ truthy_opt (CreateDisasterRequest.description body) = false ->
  post env user body w
  = ({| status := 400; success := false; data := None;
        error := Some "Title and description are required";
        message := None; pagination := None |}, w)
  /\ db (snd (post env user body w)) = db w
  /\ mock (snd (post env user body w)) = mock w.
Proof.
  intros H. unfold post.
  assert (Hg : negb (truthy_opt (CreateDisasterRequest.title body))
               || negb (truthy_opt (CreateDisasterRequest.description body)) = true).
  { destruct H as [-> | ->]; [done | by rewrite orb_true_r]. }
  rewrite Hg. done.
Qed.

(** C8: when POST answers 201 to a body with a title and a description but
    no location name, the data carries a non-empty location name: the name
    [extractLocation] returned for the description when that is non-empty,
    and the literal [Unknown Location] when it returned nothing. *)
Theorem post_location_name_nonempty env user body w :
  truthy_opt (CreateDisasterRequest.title body) = true ->
  truthy_opt (CreateDisasterRequest.description body) = true ->
  truthy_opt (CreateDisasterRequest.location_name body) = false ->
  status (fst (post env user body w)) = 201 ->
  exists d,
    data (fst (post env user body w)) = Some d
    /\ Disaster.location_name d <> EmptyString
    /\ match fst (GeminiService.extractLocation (cache_io env) (ai env)
                    (default EmptyString (CreateDisasterRequest.description body))
                    (extraction_cache w)) with
       | Ok (Some extracted) =>
           Disaster.location_name d
           = or_else (Some (GeocodingResult.location_name extracted))
                     "Unknown Location"
       | Ok None => Disaster.location_name d = "Unknown Location"
       | Throw => False
       end.
Proof.
  intros Ht Hd Hl Hst. pose proof (post_valid env user body w Ht Hd) as Hv.
  unfold resolveLocationName in Hv. rewrite Hl in Hv.
  destruct (GeminiService.extractLocation _ _ _ _) as [[[g|]|] c1]; cbn [fst] in *.
  - destruct Hv as (d & msg & Hp & Hn & _). exists d. rewrite Hp. simpl.
    split; [done |]. split; [| done]. rewrite Hn. by apply or_else_nonempty.
  - destruct Hv as (d & msg & Hp & Hn & _). exists d. rewrite Hp. simpl.
    split; [done |]. rewrite Hn.
    assert (Hu : or_else (CreateDisasterRequest.location_name body)
                         "Unknown Location" = "Unknown Location").
    { destruct (CreateDisasterRequest.location_name body) as [n|]; [| done].
      simpl in Hl. simpl. by rewrite Hl. }
    rewrite Hu. done.
  - rewrite Hv in Hst. simpl in Hst. discriminate.
Qed.

(** C5, as amended: when the database client throws, the list is served
    from the fixture store with a success envelope and its pagination; a
    create with a title and a description whose location step does not
    throw is stored in the fixture store and answered 201 with a success
    envelope; an update is not served from the fixture store and is
    answered 500 with the error envelope. *)
Theorem fallback_when_db_throws `{Postgres} env user body q id updates w
    finalLocationName :
  db_first env = DbThrow ->
  truthy_opt (CreateDisasterRequest.title body) = true ->
  truthy_opt (CreateDisasterRequest.description body) = true ->
  fst (resolveLocationName env (CreateDisasterRequest.location_name body)
         (default EmptyString (CreateDisasterRequest.description body))
         (extraction_cache w)) = Ok finalLocationName ->
  getAll env q w
  = {| status := 200; success := true;
       data := Some (fst (MockDataService.getDisasters
                            (parseInt_or (q_page q) 1)
                            (parseInt_or (q_limit q) 10) (mock w)));
       error := None; message := None;
       pagination :=
         Some {| page := parseInt_or (q_page q) 1;
                 limit := parseInt_or (q_limit q) 10;
                 total := Z.of_nat (length (mock w));
                 totalPages := ceil_div (Z.of_nat (length (mock w)))
                                        (parseInt_or (q_limit q) 10) |} |}
  /\ (exists d,
        fst (post env user body w)
        = {| status := 201; success := true; data := Some d; error := None;
             message := Some "Disaster created successfully (mock mode)";
             pagination := None |}
        /\ mock (snd (post env user body w)) = (mock w ++ [d])%list
        /\ db (snd (post env user body w)) = db w)
  /\ put env user id updates w
     = ({| status := 500; success := false; data := None;
           error := Some "Internal server error";
           message := None; pagination := None |}, w).
Proof.
  intros Hdb Ht Hd Hloc. split; [| split].
  - unfold getAll, Db.list_query. by rewrite Hdb.
  - pose proof (post_valid env user body w Ht Hd) as Hv.
    destruct (resolveLocationName env _ _ _) as [[n|] c1]; simpl in Hloc;
      [| discriminate].
    destruct Hv as (d & msg & Hp & _ & Hm).
    destruct Hm as (-> & Hmock & Hdbw); [by rewrite Hdb |].
    exists d. by rewrite Hp.
  - unfold put. by rewrite Hdb.
Qed.

End DisasterRouteProps.

(** The claim C5 as first stated fails for the update, which has no
    fallback, and for a create without a location name when the cache,
    which lives in the same database, cannot store the extracted name. *)
Lemma no_fallback_for_update :
  fst (DisasterRoutes.put Examples.env_db_down None "disaster-1"
         Examples.retitle Examples.world0)
  = Http.failure 500 "Internal server error"
  /\ fst (DisasterRoutes.post Examples.env_db_down None
            Examples.test_flood Examples.world0)
     = Http.failure 500 "Internal server error".
Proof. split; vm_compute; reflexivity. Qed.

Lemma fallback_when_db_throws_witness :
  Http.status (DisasterRoutes.getAll (H := Examples.latitude_band)
                 Examples.env_db_down_no_location Examples.first_page
                 Examples.world0) = 200
  /\ Http.status (fst (DisasterRoutes.post Examples.env_db_down_no_location None
                         Examples.test_flood Examples.world0)) = 201
  /\ Http.status (fst (DisasterRoutes.put Examples.env_db_down_no_location None
                         "disaster-1" Examples.retitle Examples.world0)) = 500.
Proof.
  destruct (fallback_when_db_throws (H := Examples.latitude_band)
              Examples.env_db_down_no_location None Examples.test_flood
              Examples.first_page "disaster-1" Examples.retitle Examples.world0
              None eq_refl eq_refl eq_refl eq_refl)
    as (Hlist & (d & Hpost & _) & Hput).
  rewrite Hlist, Hpost, Hput. repeat split.
Defined.

Lemma post_rejects_missing_fields_witness :
  DisasterRoutes.post Examples.env_up None Examples.untitled Examples.world0
  = (Http.failure 400 "Title and description are required", Examples.world0).
Proof.
  apply (post_rejects_missing_fields Examples.env_up None Examples.untitled
           Examples.world0).
  left. reflexivity.
Defined.

Lemma post_location_name_nonempty_witness :
  exists d,
    Http.data (fst (DisasterRoutes.post Examples.env_up None Examples.test_flood
                      Examples.world0)) = Some d
    /\ Disaster.location_name d = "Main St".
Proof.
  destruct (post_location_name_nonempty Examples.env_up None Examples.test_flood
              Examples.world0 eq_refl eq_refl eq_refl eq_refl)
    as (d & Hd & _ & Hn).
  exists d. split; [exact Hd | exact Hn].
Defined.

(** ** The resource list *)

Section ResourceRouteProps.
Context `{Postgres}.
Import Http ResourceRoutes.

Lemma Forall_insert_desc {A : Type} (P : A -> Prop) (key : A -> Z) x (l : list A) :
  P x -> Forall P l -> Forall P (Db.insert_desc key x l).
Proof.
  intros Hx Hl. induction Hl as [|y l Hy Hl IH]; simpl.
  - by constructor.
  - destruct (key y <? key x); repeat constructor; done.
Qed.

Lemma Forall_order_desc {A : Type} (P : A -> Prop) (key : A -> Z) (l : list A) :
  Forall P l -> Forall P (Db.order_desc key l).
Proof.
  intros Hl. induction Hl as [|x l Hx Hl IH]; simpl; [constructor |].
  by apply Forall_insert_desc.
Qed.

Lemma Forall_range {A : Type} (P : A -> Prop) from to (l rows : list A) :
  Db.range from to l = Ok rows -> Forall P l -> Forall P rows.
Proof.
  unfold Db.range. destruct from as [f| | |], to as [t| | |]; try discriminate.
  destruct (_ || _); [discriminate |]. intros [= <-] Hl.
  by apply Forall_take, Forall_drop.
Qed.

Lemma Forall_list_query {A : Type} (P : A -> Prop) c1 c2 key offset to
    (matching rows : list A) count :
  Db.list_query c1 c2 key offset to matching = Ok (rows, count) ->
  Forall P matching -> Forall P rows.
Proof.
  unfold Db.list_query. intros Hq Hm.
  destruct c1; try discriminate;
    (destruct c2; try discriminate;
     destruct (Db.range _ _ _) as [rs|] eqn:Hr; [| discriminate];
     injection Hq as <- _;
     eapply Forall_range; [exact Hr | by apply Forall_order_desc]).
Qed.

Lemma Forall_filter_matches (q : ListQuery) (tbl : list Resource.t) :
  Forall (fun r => In r tbl /\ matches q r = true) (List.filter (matches q) tbl).
Proof.
  apply List.Forall_forall. intros r Hr. by apply List.filter_In in Hr.
Qed.

Lemma matches_dwithin (q : ListQuery) (r : Resource.t) :
  truthy_opt (q_lat q) = true -> truthy_opt (q_lng q) = true ->
  matches q r = true ->
  st_dwithin (Resource.location r) (dwithin_operand q) = true.
Proof.
  intros Hlat Hlng. unfold matches. rewrite Hlat, Hlng. simpl.
  intros Hm. by apply andb_true_iff in Hm as [_ Hm].
Qed.

(** The fallback answer is the same for every [lat], [lng] and [radius]. *)
Lemma fallback_ignores_position c1 c2 (q q' : ListQuery) (tbl mock : list Resource.t) :
  fromDatabase c1 c2 q tbl = Throw -> fromDatabase c1 c2 q' tbl = Throw ->
  q_disaster_id q = q_disaster_id q' ->
  q_page q = q_page q' -> q_limit q = q_limit q' ->
  getAll c1 c2 q tbl mock = getAll c1 c2 q' tbl mock.
Proof.
  intros Hq Hq' Hd Hp Hl. unfold getAll. by rewrite Hq, Hq', Hd, Hp, Hl.
Qed.

End ResourceRouteProps.

(** ** The resource list: distance in metres *)

Section GeoLaw.
Import Geo.

Lemma sappend_cons (c : ascii) (a b : string) :
  String c a ++ b = String c (a ++ b).
Proof. reflexivity. Qed.

Lemma sappend_assoc (a b c : string) : (a ++ b) ++ c = a ++ (b ++ c).
Proof.
  induction a as [|x a IH]; [done |]. by rewrite !sappend_cons, IH.
Qed.

Lemma skip_app (p t : string) : skip p (p ++ t) = Some t.
Proof.
  induction p as [|c p IH]; [reflexivity |].
  rewrite sappend_cons. simpl. by rewrite Ascii.eqb_refl.
Qed.

Lemma skip_inv (p s t : string) : skip p s = Some t -> s = p ++ t.
Proof.
  revert s. induction p as [|c p IH]; intros s.
  - cbn [skip]. intros [= <-]. reflexivity.
  - destruct s as [|a s]; [discriminate |]. simpl.
    destruct (Ascii.eqb_spec c a) as [-> | Hne]; [| discriminate].
    intros Hs. rewrite sappend_cons. f_equal. by apply IH.
Qed.

Lemma has_app (c : ascii) (a b : string) :
  has c (a ++ b) = has c a || has c b.
Proof.
  induction a as [|x a IH]; [done |].
  rewrite sappend_cons. simpl. by rewrite IH, orb_assoc.
Qed.

Lemma cut_inv (c : ascii) (s h t : string) :
  cut c s = Some (h, t) -> s = h ++ String c t /\ has c h = false.
Proof.
  revert h. induction s as [|a s IH]; intros h; [discriminate |]. simpl.
  destruct (Ascii.eqb_spec a c) as [-> | Hne].
  - by intros [= <- <-].
  - destruct (cut c s) as [[h' t']|]; [| discriminate].
    intros [= <- <-]. destruct (IH h' eq_refl) as [-> Hh].
    split; [done |]. simpl. rewrite Hh.
    by destruct (Ascii.eqb_spec a c).
Qed.

(** The first cut of [x ++ c :: y] is at that [c], or leaves a [c] behind. *)
Lemma cut_app_cases (c : ascii) (x y h t : string) :
  cut c (x ++ String c y) = Some (h, t) ->
  (h = x /\ t = y) \/ has c t = true.
Proof.
  revert h. induction x as [|a x IH]; intros h.
  - simpl. rewrite Ascii.eqb_refl. intros [= <- <-]. by left.
  - rewrite sappend_cons. simpl.
    destruct (Ascii.eqb_spec a c) as [-> | Hne].
    + intros [= <- <-]. right. rewrite has_app. simpl.
      by rewrite Ascii.eqb_refl, orb_true_r.
    + destruct (cut c (x ++ String c y)) as [[h' t']|]; [| discriminate].
      intros [= <- <-]. destruct (IH h' eq_refl) as [[-> ->] | Hh]; auto.
Qed.

Lemma numeral_char_plain (a : ascii) :
  numeral_char a = true ->
  Ascii.eqb a " " = false /\ Ascii.eqb a ")" = false.
Proof.
  destruct a as [[] [] [] [] [] [] [] []]; (discriminate || by split).
Qed.

Lemma clean_plain (s : string) :
  clean s = true -> has " " s = false /\ has ")" s = false.
Proof.
  induction s as [|a s IH]; [done |]. simpl.
  intros [Ha Hs]%andb_true_iff.
  destruct (numeral_char_plain a Ha) as [-> ->].
  by destruct (IH Hs) as [-> ->].
Qed.

Lemma decimal_plain (s : string) (q : Q) :
  decimal s = Some q -> has " " s = false /\ has ")" s = false.
Proof.
  unfold decimal. destruct (clean s) eqn:Hc; [| discriminate].
  intros _. by apply clean_plain.
Qed.

Lemma read_operand_point (x y r x' y' r' : string) px py pr :
  read_operand (("POINT(" ++ x ++ " " ++ y ++ ")") ++ "," ++ r)
  = Some (x', y', r') ->
  decimal x' = Some px -> decimal y' = Some py -> decimal r' = Some pr ->
  x' = x /\ y' = y /\ r' = r.
Proof.
  intros Hread Hx Hy Hr.
  apply decimal_plain in Hy as [Hy1 Hy2].
  apply decimal_plain in Hr as [Hr1 Hr2].
  unfold read_operand in Hread.
  replace (("POINT(" ++ x ++ " " ++ y ++ ")") ++ "," ++ r)
    with ("POINT(" ++ (x ++ String " " (y ++ String ")" ("," ++ r))))
    in Hread
    by (rewrite !sappend_assoc; reflexivity).
  rewrite skip_app in Hread.
  destruct (cut " " _) as [[h rest1]|] eqn:Hc1; [| discriminate].
  destruct (cut ")" rest1) as [[h2 rest2]|] eqn:Hc2; [| discriminate].
  destruct (skip "," rest2) as [r2|] eqn:Hs; [| discriminate].
  injection Hread as -> -> ->.
  apply skip_inv in Hs. subst rest2.
  pose proof (cut_inv _ _ _ _ Hc2) as [Hrest1 _].
  apply cut_app_cases in Hc1 as [[-> Hrest] | Hsp].
  - subst rest1. split; [done |].
    apply cut_app_cases in Hc2 as [[-> Heq] | Hp].
    + split; [done |]. by injection Heq.
    + rewrite has_app in Hp. simpl in Hp. congruence.
  - rewrite Hrest1 in Hsp. rewrite has_app in Hsp. simpl in Hsp.
    rewrite has_app in Hsp. simpl in Hsp. rewrite Hy1, Hr1 in Hsp.
    discriminate.
Qed.

Lemma within_metres loc (x y r : string) :
  within loc (("POINT(" ++ x ++ " " ++ y ++ ")") ++ "," ++ r) = true ->
  exists l px py pr,
    loc = Some l /\ decimal x = Some px /\ decimal y = Some py
    /\ decimal r = Some pr
    /\ (taxicab l {| Location.lat := py; Location.lng := px |} <= pr)%Q.
Proof.
  unfold within. destruct loc as [l|]; [| discriminate].
  destruct (read_operand _) as [[[x' y'] r']|] eqn:Hread; [| discriminate].
  destruct (decimal x') as [px|] eqn:Hx; [| discriminate].
  destruct (decimal y') as [py|] eqn:Hy; [| discriminate].
  destruct (decimal r') as [pr|] eqn:Hr; [| discriminate].
  intros Hle. apply Qle_bool_iff in Hle.
  destruct (read_operand_point _ _ _ _ _ _ _ _ _ Hread Hx Hy Hr)
    as (-> & -> & ->).
  by exists l, px, py, pr.
Qed.

End GeoLaw.

Section ResourceGeoProps.
Context `{Geography}.
Import Http ResourceRoutes.

Lemma matches_within_radius (q : ListQuery) (r : Resource.t) :
  truthy_opt (q_lat q) = true -> truthy_opt (q_lng q) = true ->
  matches q r = true -> within_radius q r.
Proof.
  intros Hlat Hlng Hm. apply (matches_dwithin q r Hlat Hlng) in Hm.
  unfold dwithin_operand in Hm.
  apply st_dwithin_metres in Hm as (l & px & py & pr & Hl & Hx & Hy & Hr & Hle).
  by exists l, px, py, pr.
Qed.

Lemma Forall_matching_within (q : ListQuery) (tbl : list Resource.t) :
  truthy_opt (q_lat q) = true -> truthy_opt (q_lng q) = true ->
  Forall (fun r => In r tbl /\ within_radius q r)
         (List.filter (matches q) tbl).
Proof.
  intros Hlat Hlng. eapply Forall_impl; [apply Forall_filter_matches |].
  intros r [Hin Hm]. split; [done |]. by apply matches_within_radius.
Qed.

Lemma fromDatabase_fails c1 c2 (q : ListQuery) (tbl : list Resource.t) :
  c1 = DbThrow \/ c2 <> DbOk -> fromDatabase c1 c2 q tbl = Throw.
Proof.
  unfold fromDatabase, Db.list_query. intros [-> | Hc2]; [done |].
  destruct c1, c2; done.
Qed.

Lemma fromDatabase_page c1 c2 (q : ListQuery) (tbl : list Resource.t)
    (p : nat) (l : Z) :
  c1 <> DbThrow -> c2 = DbOk ->
  parseInt_or (q_page q) 1 = Int (Z.of_nat p) -> (1 <= p)%nat ->
  parseInt_or (q_limit q) 20 = Int l -> 0 < l ->
  exists count,
    fromDatabase c1 c2 q tbl
    = Ok (take (Z.to_nat l)
            (drop ((p - 1) * Z.to_nat l)
               (Db.order_desc Resource.created_at
                  (List.filter (matches q) tbl))),
          count).
Proof.
  intros Hc1 -> Hp Hp1 Hl Hl0.
  assert (Hoff : Z.to_nat ((Z.of_nat p + -1) * l) = ((p - 1) * Z.to_nat l)%nat).
  { rewrite Z2Nat.inj_mul by lia. f_equal. lia. }
  unfold fromDatabase, Db.list_query. rewrite Hp, Hl.
  unfold offset_of, Db.range. cbn [num_add num_mul].
  destruct (Z.ltb_spec ((Z.of_nat p + -1) * l) 0) as [Hneg|_]; [nia |].
  replace ((Z.of_nat p + -1) * l + l + -1 - (Z.of_nat p + -1) * l + 1)
    with l by lia.
  destruct (Z.ltb_spec l 0) as [Hneg|_]; [lia |]. cbn [orb].
  rewrite Hoff. destruct c1; [by eexists | by eexists | done].
Qed.

(** C9: for a request that carries [lat] and [lng] (and a radius, 10000
    when it is missing). When the database answers, the returned rows are
    the requested page of the rows of the table that pass the filters,
    and each of them has a stored point within the radius, in metres, of
    the requested point. When a database call fails, the returned rows
    are the fixtures of the requested disaster, paginated, whatever
    their distance. In every case the answer is of one of these two
    kinds. *)
Theorem resources_geo_filter c1 c2 (q : ListQuery) (tbl mock : list Resource.t) :
  truthy_opt (q_lat q) = true -> truthy_opt (q_lng q) = true ->
  let fixtures :=
    slice_num
      (match q_disaster_id q with
       | Some d =>
           if truthy d
           then List.filter
                  (fun r => String.eqb (Resource.disaster_id r) d) mock
           else mock
       | None => mock
       end)
      (offset_of (parseInt_or (q_page q) 1) (parseInt_or (q_limit q) 20))
      (num_add (offset_of (parseInt_or (q_page q) 1)
                          (parseInt_or (q_limit q) 20))
               (parseInt_or (q_limit q) 20)) in
  (c1 = DbThrow \/ c2 <> DbOk ->
   data (getAll c1 c2 q tbl mock) = Some fixtures)
  /\ (c1 <> DbThrow -> c2 = DbOk ->
      forall (p : nat) (l : Z),
        parseInt_or (q_page q) 1 = Int (Z.of_nat p) -> (1 <= p)%nat ->
        parseInt_or (q_limit q) 20 = Int l -> 0 < l ->
        data (getAll c1 c2 q tbl mock)
        = Some (take (Z.to_nat l)
                  (drop ((p - 1) * Z.to_nat l)
                     (Db.order_desc Resource.created_at
                        (List.filter (matches q) tbl))))
        /\ Forall (fun r => In r tbl /\ within_radius q r)
             (take (Z.to_nat l)
                (drop ((p - 1) * Z.to_nat l)
                   (Db.order_desc Resource.created_at
                      (List.filter (matches q) tbl)))))
  /\ (exists rows,
        data (getAll c1 c2 q tbl mock) = Some rows
        /\ (Forall (fun r => In r tbl /\ within_radius q r) rows
            \/ rows = fixtures)).
Proof.
  intros Hlat Hlng fixtures. split; [| split].
  - intros Hfail. unfold getAll. by rewrite (fromDatabase_fails c1 c2 q tbl Hfail).
  - intros Hc1 Hc2 p l Hp Hp1 Hl Hl0.
    destruct (fromDatabase_page c1 c2 q tbl p l Hc1 Hc2 Hp Hp1 Hl Hl0)
      as [count Hdb].
    unfold getAll. rewrite Hdb. split; [done |].
    apply Forall_take, Forall_drop, Forall_order_desc.
    by apply Forall_matching_within.
  - unfold getAll.
    destruct (fromDatabase c1 c2 q tbl) as [[rows count]|] eqn:Hdb.
    + exists rows. split; [done |]. left.
      unfold fromDatabase in Hdb.
      eapply Forall_list_query; [exact Hdb |].
      by apply Forall_matching_within.
    + exists fixtures. split; [done |]. by right.
Qed.

End ResourceGeoProps.

Lemma resources_geo_filter_witness :
  let geography :=
    Build_Geography Examples.taxicab Geo.decimal Geo.taxicab within_metres in
  List.map Resource.id
    (default []
       (Http.data (ResourceRoutes.getAll (H := Examples.taxicab) DbOk DbOk
                     Examples.near_nyc (MockDataService.mockResources 0)
                     (MockDataService.mockResources 0))))
  = ["resource-1"]
  /\ Forall (fun r => In r (MockDataService.mockResources 0)
                      /\ ResourceRoutes.within_radius (H0 := geography)
                           Examples.near_nyc r)
       (default []
          (Http.data (ResourceRoutes.getAll (H := Examples.taxicab) DbOk DbOk
                        Examples.near_nyc (MockDataService.mockResources 0)
                        (MockDataService.mockResources 0))))
  /\ List.map Resource.id
       (default []
          (Http.data (ResourceRoutes.getAll (H := Examples.taxicab)
                        DbThrow DbOk Examples.near_nyc
                        (MockDataService.mockResources 0)
                        (MockDataService.mockResources 0))))
     = ["resource-1"; "resource-2"; "resource-3"].
Proof.
  intros geography.
  destruct (resources_geo_filter (H0 := geography) DbOk DbOk Examples.near_nyc
              (MockDataService.mockResources 0)
              (MockDataService.mockResources 0) eq_refl eq_refl)
    as (_ & Hdb & _).
  destruct (Hdb ltac:(discriminate) eq_refl 1%nat 20 eq_refl ltac:(lia)
              eq_refl ltac:(lia)) as [Hrows Hwithin].
  destruct (resources_geo_filter (H0 := geography) DbThrow DbOk
              Examples.near_nyc (MockDataService.mockResources 0)
              (MockDataService.mockResources 0) eq_refl eq_refl)
    as (Hfall & _ & _).
  rewrite Hrows, (Hfall (or_introl eq_refl)).
  split; [vm_compute; reflexivity |]. split; [exact Hwithin |].
  vm_compute; reflexivity.
Defined.

(** The two paths on the sample rows: the database path keeps the two
    New York resources, the fallback returns all three fixtures. *)
Lemma resources_paths_diverge :
  List.map Resource.id
    (default [] (Http.data (ResourceRoutes.getAll (H := Examples.latitude_band)
                              DbOk DbOk Examples.near_nyc
                              (MockDataService.mockResources 0)
                              (MockDataService.mockResources 0))))
  = ["resource-1"; "resource-2"]
  /\ List.map Resource.id
       (default [] (Http.data (ResourceRoutes.getAll (H := Examples.latitude_band)
                                 DbThrow DbOk Examples.near_nyc
                                 (MockDataService.mockResources 0)
                                 (MockDataService.mockResources 0))))
     = ["resource-1"; "resource-2"; "resource-3"].
Proof. split; vm_compute; reflexivity. Qed.

(** ** More on the cache: frames, overwrites, deletes and the sweep *)

Section CacheLaws.
Context {V : Type}.
Implicit Types (tbl : gmap string (CacheService.CacheEntry V)) (k : string) (v : V).

(** What [get] returns depends on the row under its key only. *)
Lemma get_fst_lookup sel del now k tbl tbl' :
  tbl !! k = tbl' !! k ->
  fst (CacheService.get sel del now k tbl) = fst (CacheService.get sel del now k tbl').
Proof.
  intros Hk. unfold CacheService.get. destruct sel; [| done | done].
  rewrite <- Hk. destruct (tbl !! k) as [e|]; [| done].
  by destruct (_ <? _).
Qed.

(** X5: a [set] on one key, stored or thrown, does not change what [get]
    returns for any other key. *)
Theorem set_leaves_other_keys r t0 k v ttl tbl sel del t k' :
  k <> k' ->
  fst (CacheService.get sel del t k' (snd (CacheService.set r t0 k v ttl tbl)))
  = fst (CacheService.get sel del t k' tbl).
Proof.
  intros Hne. apply get_fst_lookup.
  destruct (set_cases r t0 k v ttl tbl) as [-> | ->]; simpl; [| done].
  by apply lookup_insert_ne.
Qed.

(** X6: last writer wins. When a second [set] on a key succeeds, the table
    is the one that [set] alone would have produced: nothing of the first
    value or its expiry remains. *)
Theorem set_last_writer_wins r1 t1 v1 ttl1 r2 t2 v2 ttl2 k tbl :
  fst (CacheService.set r2 t2 k v2 ttl2 tbl) = Ok tt ->
  CacheService.set r2 t2 k v2 ttl2 (snd (CacheService.set r1 t1 k v1 ttl1 tbl))
  = CacheService.set r2 t2 k v2 ttl2 tbl.
Proof.
  intros Hok.
  destruct (set_cases r1 t1 k v1 ttl1 tbl) as [-> | ->]; simpl; [| done].
  unfold CacheService.set in *.
  destruct (valid_time (t2 + ttl2 * 1000)); [| discriminate].
  destruct r2; try discriminate.
  by rewrite insert_insert_eq.
Qed.

(** X7: after a [delete] that succeeds, [get] on that key is a miss at
    every time, and [get] on every other key is as before. *)
Theorem delete_then_get k tbl sel del t k' :
  fst (CacheService.get sel del t k (snd (CacheService.delete DbOk k tbl))) = None
  /\ (k <> k' ->
      fst (CacheService.get sel del t k' (snd (CacheService.delete DbOk k tbl)))
      = fst (CacheService.get sel del t k' tbl)).
Proof.
  split.
  - simpl. rewrite get_absent; [done | apply lookup_delete_eq].
  - intros Hne. apply get_fst_lookup. simpl. by apply lookup_delete_ne.
Qed.

Lemma clearExpired_lookup now tbl k :
  snd (CacheService.clearExpired DbOk now tbl) !! k
  = match tbl !! k with
    | Some e => if CacheService.expires_at e <? now then None else Some e
    | None => None
    end.
Proof.
  simpl. destruct (tbl !! k) as [e|] eqn:Hk.
  - destruct (Z.ltb_spec (CacheService.expires_at e) now) as [Hlt|Hge].
    + apply map_lookup_filter_None. right. intros e' He'. simpl.
      rewrite Hk in He'. injection He' as <-. lia.
    + apply map_lookup_filter_Some. split; [done |]. simpl. lia.
  - apply map_lookup_filter_None. by left.
Qed.

(** X8: the sweep cannot be observed through [get]. At the time of a
    [clearExpired] and at every later time, [get] returns for every key
    what it would have returned without the sweep, whether the sweep
    succeeded or threw. *)
Theorem clearExpired_invisible_to_get r now tbl sel del t k :
  now <= t ->
  fst (CacheService.get sel del t k (snd (CacheService.clearExpired r now tbl)))
  = fst (CacheService.get sel del t k tbl).
Proof.
  intros Hle. destruct r; [| done | done].
  unfold CacheService.get. destruct sel; [| done | done].
  rewrite clearExpired_lookup.
  destruct (tbl !! k) as [e|]; [| done].
  destruct (Z.ltb_spec (CacheService.expires_at e) now) as [Hlt|Hge].
  - destruct (Z.ltb_spec (CacheService.expires_at e) t); [done | lia].
  - by destruct (CacheService.expires_at e <? t).
Qed.

(** X9: [getStats] never reports more expired rows than rows, and right
    after a successful sweep at the same time it reports no expired row
    and a total reduced by exactly the rows that were expired. *)
Theorem getStats_after_clearExpired now tbl :
  (snd (CacheService.getStats DbOk DbOk now tbl)
   <= fst (CacheService.getStats DbOk DbOk now tbl))%nat
  /\ CacheService.getStats DbOk DbOk now
       (snd (CacheService.clearExpired DbOk now tbl))
     = ((fst (CacheService.getStats DbOk DbOk now tbl)
         - snd (CacheService.getStats DbOk DbOk now tbl))%nat, 0%nat).
Proof.
  simpl.
  pose proof (map_size_disj_union
                (filter (fun kv : string * CacheService.CacheEntry V =>
                           CacheService.expires_at (snd kv) < now) tbl)
                (filter (fun kv => ¬ (CacheService.expires_at (snd kv) < now)) tbl)
                (map_disjoint_filter_complement _ tbl)) as Hsplit.
  rewrite map_filter_union_complement in Hsplit.
  split; [lia |]. f_equal; [lia |].
  apply map_size_empty_iff, map_empty. intros i.
  apply map_lookup_filter_None. right. intros e He Hp.
  apply map_lookup_filter_Some in He as [_ Hn]. by apply Hn.
Qed.

End CacheLaws.

Lemma set_leaves_other_keys_witness :
  fst (CacheService.get DbOk DbOk 2000 "b"
         (snd (CacheService.set DbOk 1000 "a" 7 60
                 (<["b" := {| CacheService.value := 5;
                              CacheService.expires_at := 9000 |}]> ∅))))
  = Some 5.
Proof.
  rewrite (set_leaves_other_keys DbOk 1000 "a" 7 60 _ DbOk DbOk 2000 "b");
    [reflexivity | discriminate].
Defined.

Lemma set_last_writer_wins_witness :
  CacheService.get DbOk DbOk 2000 "a"
    (snd (CacheService.set DbOk 1500 "a" 8 60
            (snd (CacheService.set DbOk 1000 "a" 7 3600
                    (∅ : gmap string (CacheService.CacheEntry Z))))))
  = (Some 8, snd (CacheService.set DbOk 1500 "a" 8 60 ∅)).
Proof.
  rewrite (set_last_writer_wins DbOk 1000 7 3600 DbOk 1500 8 60 "a" ∅ eq_refl).
  reflexivity.
Defined.

Lemma delete_then_get_witness :
  fst (CacheService.get DbOk DbOk 2000 "b"
         (snd (CacheService.delete DbOk "a"
                 (<["a" := {| CacheService.value := 7;
                              CacheService.expires_at := 9000 |}]>
                    (<["b" := {| CacheService.value := 5;
                                 CacheService.expires_at := 9000 |}]> ∅)))))
  = Some 5.
Proof.
  rewrite (proj2 (delete_then_get "a" _ DbOk DbOk 2000 "b"));
    [reflexivity | discriminate].
Defined.

Lemma clearExpired_invisible_to_get_witness :
  fst (CacheService.get DbOk DbOk 1500 "b"
         (snd (CacheService.clearExpired DbOk 1000
                 (<["a" := {| CacheService.value := 7;
                              CacheService.expires_at := 900 |}]>
                    (<["b" := {| CacheService.value := 5;
                                 CacheService.expires_at := 9000 |}]> ∅)))))
  = Some 5.
Proof.
  rewrite (clearExpired_invisible_to_get DbOk 1000 _ DbOk DbOk 1500 "b");
    [reflexivity | lia].
Defined.

(** ** Strings: the building blocks of the classifiers *)

Section StringFacts.

Lemma append_cons (c : ascii) (a b : string) :
  String c a ++ b = String c (a ++ b).
Proof. reflexivity. Qed.

Lemma append_nil_l (b : string) : EmptyString ++ b = b.
Proof. reflexivity. Qed.

Lemma toLowerCase_app (a b : string) :
  toLowerCase (a ++ b) = toLowerCase a ++ toLowerCase b.
Proof.
  induction a as [|c a IH]; [done |].
  rewrite append_cons. simpl toLowerCase. by rewrite IH, append_cons.
Qed.

Lemma prefix_app (p s t : string) :
  String.prefix p s = true -> String.prefix p (s ++ t) = true.
Proof.
  revert s. induction p as [|a p IH]; intros s Hp; [by destruct (s ++ t) |].
  destruct s as [|b s]; [discriminate |].
  rewrite append_cons. simpl in *.
  destruct (ascii_dec a b); [by apply IH | discriminate].
Qed.

Lemma includes_app_r (s t sub : string) :
  includes s sub = true -> includes (s ++ t) sub = true.
Proof.
  induction s as [|c s IH]; simpl.
  - rewrite orb_false_r. intros Hp. destruct sub; [| discriminate].
    rewrite append_nil_l. by destruct t.
  - intros [Hp | Hi]%orb_true_iff; rewrite ?append_cons; simpl;
      apply orb_true_iff.
    + left. by apply (prefix_app sub (String c s) t).
    + right. by apply IH.
Qed.

Lemma includes_app_l (s t sub : string) :
  includes s sub = true -> includes (t ++ s) sub = true.
Proof.
  intros Hs. induction t as [|c t IH]; [done |].
  rewrite append_cons. simpl. apply orb_true_iff. by right.
Qed.

Lemma includes_surrounded (pre s post sub : string) :
  includes s sub = true -> includes (pre ++ s ++ post) sub = true.
Proof. intros Hs. by apply includes_app_l, includes_app_r. Qed.

End StringFacts.

(** ** The social adapter: ids, priorities and the search *)

Section BlueskyProps.
Import CacheService BlueskyService.

Lemma classifyPriority_valid (content : string) :
  In (classifyPriority content) ["low"; "medium"; "high"; "urgent"].
Proof.
  unfold classifyPriority.
  repeat match goal with |- context [if ?b then _ else _] => destruct b end;
    simpl; tauto.
Qed.

Lemma or3_mono (a b c a' b' c' : bool) :
  (a = true -> a' = true) -> (b = true -> b' = true) ->
  (c = true -> c' = true) ->
  a || b || c = true -> a' || b' || c' = true.
Proof. destruct a, b, c, a', b', c'; simpl; intuition congruence. Qed.

Lemma rank_label_mono (u h m u' h' m' : bool) :
  (u = true -> u' = true) -> (h = true -> h' = true) ->
  (m = true -> m' = true) ->
  (rank (if u then "urgent" else if h then "high"
         else if m then "medium" else "low")
   <= rank (if u' then "urgent" else if h' then "high"
            else if m' then "medium" else "low"))%nat.
Proof.
  intros Hu Hh Hm.
  destruct u, h, m, u', h', m'; vm_compute; try lia;
    exfalso; intuition congruence.
Qed.

(** X10: text around a post can only raise its priority: the label of
    [pre ++ content ++ post] never ranks below the label of [content]. *)
Theorem classifyPriority_monotone (pre content post : string) :
  (rank (classifyPriority content)
   <= rank (classifyPriority (pre ++ content ++ post)))%nat.
Proof.
  unfold classifyPriority. rewrite !toLowerCase_app.
  apply rank_label_mono; apply or3_mono; apply includes_surrounded.
Qed.

Lemma leading_digits_idem (s : string) :
  leading_digits (leading_digits s) = leading_digits s.
Proof.
  induction s as [|c s IH]; [done |]. simpl.
  destruct (is_digit c) eqn:Hc; [| done]. simpl. by rewrite Hc, IH.
Qed.

Lemma match_here_digits (s ds : string) :
  match_here s = Some ds -> ds <> EmptyString /\ leading_digits ds = ds.
Proof.
  unfold match_here. destruct (strip_prefix "disaster-" s) as [rest|];
    [| discriminate].
  destruct (leading_digits rest) as [|c r] eqn:Hl; [discriminate |].
  intros [= <-]. split; [discriminate |].
  rewrite <- Hl. apply leading_digits_idem.
Qed.

Lemma first_match_digits (s ds : string) :
  first_match s = Some ds -> ds <> EmptyString /\ leading_digits ds = ds.
Proof.
  induction s as [|c s IH].
  - intros Hm. vm_compute in Hm. discriminate.
  - change (first_match (String c s))
      with (match match_here (String c s) with
            | Some ds => Some ds
            | None => first_match s
            end).
    destruct (match_here (String c s)) eqn:Hm.
    + intros [= <-]. by apply (match_here_digits (String c s)).
    + apply IH.
Qed.

Lemma strip_prefix_prefix (p s rest : string) :
  strip_prefix p s = Some rest -> String.prefix p s = true.
Proof.
  revert s. induction p as [|a p IH]; intros s; [by destruct s |].
  destruct s as [|b s]; [discriminate |]. simpl.
  destruct (Ascii.eqb_spec a b) as [-> | Hne].
  - destruct (ascii_dec b b); [apply IH | done].
  - discriminate.
Qed.

Lemma first_match_includes (s : string) :
  includes s "disaster-" = false -> first_match s = None.
Proof.
  induction s as [|c s IH]; [done |].
  intros Hi. simpl in Hi. apply orb_false_iff in Hi as [Hp Hi].
  change (first_match (String c s))
    with (match match_here (String c s) with
          | Some ds => Some ds
          | None => first_match s
          end).
  unfold match_here.
  destruct (strip_prefix "disaster-" (String c s)) as [rest|] eqn:Hs.
  - apply strip_prefix_prefix in Hs. simpl in Hs. congruence.
  - by apply IH.
Qed.

(** X11: [extractDisasterId] returns [general] or a non-empty run of
    digits, so never a string that starts with [disaster-]; and it returns
    [general] for every content without the text [disaster-]. *)
Theorem extractDisasterId_shape (content : string) :
  (extractDisasterId content = "general"
   \/ (extractDisasterId content <> EmptyString
       /\ leading_digits (extractDisasterId content)
          = extractDisasterId content))
  /\ String.prefix "disaster-" (extractDisasterId content) = false
  /\ (includes content "disaster-" = false ->
      extractDisasterId content = "general").
Proof.
  unfold extractDisasterId.
  destruct (first_match content) as [ds|] eqn:Hm; simpl.
  - pose proof (first_match_digits _ _ Hm) as [Hne Hd].
    split; [by right |]. split.
    + destruct ds as [|c ds]; [done |]. simpl in Hd.
      destruct (is_digit c) eqn:Hc; [| discriminate].
      assert (Hcd : "d"%char <> c) by (intros <-; discriminate Hc).
      cbn [String.prefix].
      destruct (ascii_dec "d" c); [congruence | reflexivity].
    + intros Hi. apply first_match_includes in Hi. congruence.
  - split; [by left |]. split; [reflexivity | done].
Qed.

Lemma Forall_slice {A : Type} (P : A -> Prop) (l : list A) (a b : Z) :
  Forall P l -> Forall P (slice l a b).
Proof. intros Hl. unfold slice. by apply Forall_take, Forall_drop. Qed.

Lemma getMockPosts_well_formed keywords limit now :
  Forall well_formed (getMockPosts keywords limit now).
Proof.
  unfold getMockPosts, slice_num. apply Forall_slice.
  repeat (apply List.Forall_cons;
          [split; [reflexivity | split; [simpl; tauto | by eexists]] |]).
  apply List.Forall_nil.
Qed.

Lemma toSocialMediaPost_well_formed (p : FeedPost) :
  well_formed (toSocialMediaPost p).
Proof.
  split; [done |]. split; [apply classifyPriority_valid | by eexists].
Qed.

(** X12: whatever the network does, the posts that [searchDisasterPosts]
    computes on a cache miss all carry the platform [bluesky], one of the
    four priority labels and a disaster id. *)
Theorem searchDisasterPosts_well_formed io identifier password login search
    now keywords limit
    (tbl : gmap string (CacheEntry (list Post))) :
  fst (getCachedData io ("bluesky_search:" ++ String.concat "," keywords) tbl)
  = None ->
  Forall well_formed
    (fst (searchDisasterPosts io identifier password login search now
            keywords limit tbl)).
Proof.
  intros Hmiss. unfold searchDisasterPosts.
  destruct (getCachedData io _ tbl) as [cached tbl1]. simpl in Hmiss.
  subst cached.
  destruct (initialize identifier password login);
    [| apply getMockPosts_well_formed].
  destruct search as [reply|]; [| apply getMockPosts_well_formed].
  case_set; simpl; [| apply getMockPosts_well_formed].
  apply Forall_map, Forall_true, toSocialMediaPost_well_formed.
Qed.

End BlueskyProps.

(** ** Cache keys: the base64 rendering loses nothing *)

Section BufferProps.
Import Buffer.

Local Ltac div_lia := zify; Z.to_euclidean_division_equations; lia.

Lemma undigit_digit_nat (k : nat) :
  (k < 64)%nat ->
  undigit (digit (N.of_nat k)) = N.of_nat k
  /\ Ascii.eqb (digit (N.of_nat k)) "=" = false.
Proof.
  intros Hk.
  do 64 (destruct k as [|k]; [split; reflexivity |]). lia.
Qed.

Lemma undigit_digit (n : N) :
  (n < 64)%N -> undigit (digit n) = n /\ Ascii.eqb (digit n) "=" = false.
Proof.
  intros Hn. rewrite <- (N2Nat.id n). apply undigit_digit_nat. lia.
Qed.

Lemma list_ind3 {A : Type} (P : list A -> Prop) :
  P [] -> (forall a, P [a]) -> (forall a b, P [a; b]) ->
  (forall a b c l, P l -> P (a :: b :: c :: l)) ->
  forall l, P l.
Proof.
  intros H0 H1 H2 H3 l.
  enough (P l /\ (forall a, P (a :: l)) /\ (forall a b, P (a :: b :: l)))
    by tauto.
  induction l as [|x l (IH0 & IH1 & IH2)]; [by auto |].
  split; [apply IH1 |]. split; [intros a; apply IH2 |].
  intros a b. by apply H3.
Qed.

Lemma unbase64_base64 (bs : list N) :
  Forall (fun b => (b < 256)%N) bs -> unbase64 (base64 bs) = bs.
Proof.
  induction bs as [| a | a b | a b c l IH] using list_ind3; intros Hb.
  - reflexivity.
  - apply Forall_cons_1 in Hb as [Ha _].
    cbn [base64 unbase64].
    destruct (undigit_digit (a / 4)) as [-> _]; [div_lia |].
    destruct (undigit_digit (a mod 4 * 16)) as [-> _]; [div_lia |].
    change (Ascii.eqb "=" "=") with true. cbv iota.
    f_equal. div_lia.
  - apply Forall_cons_1 in Hb as [Ha Hb].
    apply Forall_cons_1 in Hb as [Hb _].
    cbn [base64 unbase64].
    destruct (undigit_digit (a / 4)) as [-> _]; [div_lia |].
    destruct (undigit_digit (a mod 4 * 16 + b / 16)) as [-> _]; [div_lia |].
    destruct (undigit_digit (b mod 16 * 4)) as [-> ->]; [div_lia |].
    change (Ascii.eqb "=" "=") with true. cbv iota.
    f_equal; [div_lia |]. f_equal. div_lia.
  - apply Forall_cons_1 in Hb as [Ha Hb].
    apply Forall_cons_1 in Hb as [Hb Hc].
    apply Forall_cons_1 in Hc as [Hc Hl].
    cbn [base64 unbase64].
    destruct (undigit_digit (a / 4)) as [-> _]; [div_lia |].
    destruct (undigit_digit (a mod 4 * 16 + b / 16)) as [-> _]; [div_lia |].
    destruct (undigit_digit (b mod 16 * 4 + c / 64)) as [-> ->]; [div_lia |].
    destruct (undigit_digit (c mod 64)) as [-> ->]; [div_lia |].
    rewrite IH by done.
    f_equal; [div_lia |]. f_equal; [div_lia |]. f_equal. div_lia.
Qed.

Lemma N_of_ascii_bound (c : ascii) : (N_of_ascii c < 256)%N.
Proof. destruct c as [[] [] [] [] [] [] [] []]; reflexivity. Qed.

Lemma from_cons (c : ascii) (s : string) :
  from (String c s)
  = ((if (N_of_ascii c <? 128)%N then [N_of_ascii c]
      else [192 + N_of_ascii c / 64; 128 + N_of_ascii c mod 64]%N)
     ++ from s)%list.
Proof. reflexivity. Qed.

Lemma from_bytes (s : string) : Forall (fun b => (b < 256)%N) (from s).
Proof.
  induction s as [|c s IH]; [constructor |].
  rewrite from_cons. pose proof (N_of_ascii_bound c) as Hc.
  destruct (N.ltb_spec (N_of_ascii c) 128).
  - constructor; [lia | done].
  - repeat constructor; [div_lia | div_lia | done].
Qed.

Lemma unfrom_from (s : string) : unfrom (from s) = s.
Proof.
  induction s as [|c s IH]; [reflexivity |].
  rewrite from_cons. pose proof (N_of_ascii_bound c) as Hc.
  destruct (N.ltb_spec (N_of_ascii c) 128) as [Hlt | Hge].
  - cbn [app unfrom]. apply N.ltb_lt in Hlt. rewrite Hlt.
    by rewrite ascii_N_embedding, IH.
  - cbn [app unfrom].
    assert (Hhi : (192 + N_of_ascii c / 64 <? 128)%N = false)
      by (apply N.ltb_ge; div_lia).
    rewrite Hhi, IH. f_equal.
    rewrite <- (ascii_N_embedding c) at 3. f_equal. div_lia.
Qed.

Lemma toBase64_inj (a b : string) : toBase64 a = toBase64 b -> a = b.
Proof.
  unfold toBase64. intros Heq.
  apply (f_equal unbase64) in Heq.
  rewrite !unbase64_base64 in Heq by apply from_bytes.
  apply (f_equal unfrom) in Heq. by rewrite !unfrom_from in Heq.
Qed.

Lemma append_inj_l (p a b : string) : p ++ a = p ++ b -> a = b.
Proof.
  induction p as [|c p IH]; [done |].
  rewrite !append_cons. intros [= H]. by apply IH.
Qed.

Lemma list_ind2 {A : Type} (P : list A -> Prop) :
  P [] -> (forall a, P [a]) ->
  (forall a b l, P l -> P (b :: l) -> P (a :: b :: l)) ->
  forall l, P l.
Proof.
  intros H0 H1 H2 l.
  enough (P l /\ forall a, P (a :: l)) by tauto.
  induction l as [|x l [IH0 IH1]]; [by auto |].
  split; [apply IH1 |]. intros a. by apply H2.
Qed.

Lemma lead_range (u : N) :
  is_lead u = true <-> (55296 <= u <= 56319)%N.
Proof. unfold is_lead. rewrite andb_true_iff, !N.leb_le. tauto. Qed.

Lemma trail_range (u : N) :
  is_trail u = true <-> (56320 <= u <= 57343)%N.
Proof. unfold is_trail. rewrite andb_true_iff, !N.leb_le. tauto. Qed.

Lemma not_lead_range (u : N) :
  is_lead u = false <-> (u < 55296 \/ 56319 < u)%N.
Proof.
  unfold is_lead. rewrite andb_false_iff, !N.leb_gt. tauto.
Qed.

Lemma not_trail_range (u : N) :
  is_trail u = false <-> (u < 56320 \/ 57343 < u)%N.
Proof.
  unfold is_trail. rewrite andb_false_iff, !N.leb_gt. tauto.
Qed.

(** One unit that is not a surrogate. *)
Lemma toUnits_single (u : N) (us : list N) :
  is_lead u = false -> is_trail u = false -> (u < 65536)%N ->
  toUnits (fromUnits (u :: us)) = u :: toUnits (fromUnits us)
  /\ (Forall (fun b => (b < 256)%N) (fromUnits us) ->
      Forall (fun b => (b < 256)%N) (fromUnits (u :: us))).
Proof.
  intros Hl Ht Hu. cbn [fromUnits]. rewrite Hl, Ht.
  destruct (N.ltb_spec u 128) as [H1 | H1].
  - cbn [toUnits]. apply N.ltb_lt in H1 as H1'. rewrite H1'.
    split; [done |]. intros Hb. constructor; [lia | done].
  - destruct (N.ltb_spec u 2048) as [H2 | H2].
    + cbn [toUnits].
      assert (Ha : (192 + u / 64 <? 128)%N = false) by (apply N.ltb_ge; div_lia).
      assert (Hb : (192 + u / 64 <? 224)%N = true) by (apply N.ltb_lt; div_lia).
      rewrite Ha, Hb. split.
      * f_equal. div_lia.
      * intros Hbs. repeat constructor; [div_lia | div_lia | done].
    + cbn [toUnits].
      assert (Ha : (224 + u / 4096 <? 128)%N = false) by (apply N.ltb_ge; div_lia).
      assert (Hb : (224 + u / 4096 <? 224)%N = false) by (apply N.ltb_ge; div_lia).
      assert (Hc : (224 + u / 4096 <? 240)%N = true) by (apply N.ltb_lt; div_lia).
      rewrite Ha, Hb, Hc. split.
      * f_equal. div_lia.
      * intros Hbs. repeat constructor; [div_lia | div_lia | div_lia | done].
Qed.

(** A surrogate pair. *)
Lemma toUnits_pair (u v : N) (us : list N) :
  is_lead u = true -> is_trail v = true ->
  toUnits (fromUnits (u :: v :: us)) = u :: v :: toUnits (fromUnits us)
  /\ (Forall (fun b => (b < 256)%N) (fromUnits us) ->
      Forall (fun b => (b < 256)%N) (fromUnits (u :: v :: us))).
Proof.
  intros Hl Ht. cbn [fromUnits]. rewrite Hl, Ht.
  apply lead_range in Hl. apply trail_range in Ht.
  assert (H1 : (u <? 128)%N = false) by (apply N.ltb_ge; lia).
  assert (H2 : (u <? 2048)%N = false) by (apply N.ltb_ge; lia).
  rewrite H1, H2. cbv zeta.
  set (cp := (65536 + (u - 55296) * 1024 + (v - 56320))%N).
  assert (Hcp : (65536 <= cp < 1114112)%N) by (subst cp; lia).
  assert (Hu : (55296 + (cp - 65536) / 1024 = u)%N) by (subst cp; div_lia).
  assert (Hv : (56320 + (cp - 65536) mod 1024 = v)%N) by (subst cp; div_lia).
  clearbody cp. cbn [toUnits].
  assert (Ha : (240 + cp / 262144 <? 128)%N = false) by (apply N.ltb_ge; div_lia).
  assert (Hb : (240 + cp / 262144 <? 224)%N = false) by (apply N.ltb_ge; div_lia).
  assert (Hc : (240 + cp / 262144 <? 240)%N = false) by (apply N.ltb_ge; div_lia).
  rewrite Ha, Hb, Hc. cbv zeta.
  replace ((240 + cp / 262144 - 240) * 262144
           + (128 + cp / 4096 mod 64 - 128) * 4096
           + (128 + cp / 64 mod 64 - 128) * 64 + (128 + cp mod 64 - 128))%N
    with cp by div_lia.
  rewrite Hu, Hv. split; [done |].
  intros Hbs. repeat constructor; [div_lia | div_lia | div_lia | div_lia | done].
Qed.

Lemma toUnits_fromUnits (us : list N) :
  paired us = true ->
  toUnits (fromUnits us) = us
  /\ Forall (fun b => (b < 256)%N) (fromUnits us).
Proof.
  induction us as [| u | u v us IH0 IH1] using list_ind2.
  - intros _. split; [reflexivity | constructor].
  - cbn [paired]. destruct (is_lead u) eqn:Hl; [discriminate |].
    intros Hp. apply andb_true_iff in Hp as [Hp _].
    apply andb_true_iff in Hp as [Ht Hu].
    apply negb_true_iff in Ht. apply N.ltb_lt in Hu.
    destruct (toUnits_single u [] Hl Ht Hu) as [-> Hb].
    split; [done |]. apply Hb. constructor.
  - change (paired (u :: v :: us))
      with (if is_lead u then is_trail v && paired us
            else negb (is_trail u) && (u <? 65536)%N && paired (v :: us)).
    destruct (is_lead u) eqn:Hl.
    + intros Hp. apply andb_true_iff in Hp as [Ht Hp].
      destruct (IH0 Hp) as [Hus Hbs].
      destruct (toUnits_pair u v us Hl Ht) as [-> Hb].
      split; [by rewrite Hus | by apply Hb].
    + intros Hp. apply andb_true_iff in Hp as [Hp Hrest].
      apply andb_true_iff in Hp as [Ht Hu].
      apply negb_true_iff in Ht. apply N.ltb_lt in Hu.
      destruct (IH1 Hrest) as [Hus Hbs].
      destruct (toUnits_single u (v :: us) Hl Ht Hu) as [-> Hb].
      split; [by rewrite Hus | by apply Hb].
Qed.

Lemma units_cons (c : ascii) (s : string) :
  units (String c s) = N_of_ascii c :: units s.
Proof. reflexivity. Qed.

(** The strings of this development are well formed, and [from] is the
    restriction of [fromUnits] to them. *)
Lemma from_units (s : string) :
  from s = fromUnits (units s) /\ paired (units s) = true.
Proof.
  induction s as [|c s [IH1 IH2]]; [by split |].
  rewrite units_cons. pose proof (N_of_ascii_bound c) as Hc.
  assert (Hl : is_lead (N_of_ascii c) = false) by (apply not_lead_range; lia).
  assert (Ht : is_trail (N_of_ascii c) = false) by (apply not_trail_range; lia).
  assert (H2 : (N_of_ascii c <? 2048)%N = true) by (apply N.ltb_lt; lia).
  assert (H3 : (N_of_ascii c <? 65536)%N = true) by (apply N.ltb_lt; lia).
  split.
  - change (from (String c s))
      with ((if (N_of_ascii c <? 128)%N then [N_of_ascii c]
             else [192 + N_of_ascii c / 64; 128 + N_of_ascii c mod 64]%N)
            ++ from s)%list.
    cbn [fromUnits]. rewrite H2, IH1.
    by destruct (N_of_ascii c <? 128)%N.
  - cbn [paired]. by rewrite Hl, Ht, H3, IH2.
Qed.

Lemma base64_fromUnits_inj (us vs : list N) :
  paired us = true -> paired vs = true ->
  base64 (fromUnits us) = base64 (fromUnits vs) -> us = vs.
Proof.
  intros Hu Hv Heq.
  destruct (toUnits_fromUnits us Hu) as [Hus Hbu].
  destruct (toUnits_fromUnits vs Hv) as [Hvs Hbv].
  apply (f_equal unbase64) in Heq.
  rewrite !unbase64_base64 in Heq by done.
  apply (f_equal toUnits) in Heq. by rewrite Hus, Hvs in Heq.
Qed.

(** X13: when two strings share a cache key of the AI adapter.
    [Buffer.from(s).toString('base64')] is one-to-one on well-formed
    strings, those in which every surrogate is in a pair, and the strings
    of this development are among them: two of these that differ never
    share a key. It is not one-to-one on all strings: an unpaired
    surrogate is written as U+FFFD, so the one-unit strings U+D800 and
    U+FFFD have the same rendering. *)
Theorem ai_cache_keys_distinct :
  (forall us vs : list N,
     paired us = true -> paired vs = true ->
     base64 (fromUnits us) = base64 (fromUnits vs) -> us = vs)
  /\ (forall s : string,
        toBase64 s = base64 (fromUnits (units s)) /\ paired (units s) = true)
  /\ (paired [55296%N] = false
      /\ base64 (fromUnits [55296%N]) = base64 (fromUnits [65533%N]))
  /\ (forall a b : string,
        a <> b ->
        "location_extraction:" ++ toBase64 a
        <> "location_extraction:" ++ toBase64 b
        /\ "image_verification:" ++ toBase64 a
           <> "image_verification:" ++ toBase64 b
        /\ "priority_classification:" ++ toBase64 a
           <> "priority_classification:" ++ toBase64 b).
Proof.
  split; [exact base64_fromUnits_inj |]. split.
  { intros s. destruct (from_units s) as [Hf Hp]. unfold toBase64.
    by rewrite Hf. }
  split; [by split |].
  intros a b Hne. repeat split; intros Heq; apply Hne, toBase64_inj;
    by apply append_inj_l in Heq.
Qed.

End BufferProps.

Lemma ai_cache_keys_distinct_witness :
  String.eqb ("location_extraction:" ++ Buffer.toBase64 "Main St")
             ("location_extraction:" ++ Buffer.toBase64 "Main St.") = false
  /\ Buffer.toBase64 "Main St" = "TWFpbiBTdA=="
  /\ Buffer.base64 (Buffer.fromUnits [55296%N]) = "77+9"
  /\ Buffer.base64 (Buffer.fromUnits [65533%N]) = "77+9".
Proof.
  destruct ai_cache_keys_distinct as (_ & _ & [_ Hsame] & Hkeys).
  split; [| split; [reflexivity | split; [rewrite Hsame |]; reflexivity]].
  apply String.eqb_neq. apply (Hkeys "Main St" "Main St."). discriminate.
Defined.

(** ** The services over the cache: what a stored answer does later *)

Section ServiceCacheProps.
Import CacheService.

Lemma set_stores {V : Type} (io : IO) k (v : V) ttl tbl :
  set_upsert io = DbOk -> valid_time (set_now io + ttl * 1000) = true ->
  setCachedData io k v ttl tbl
  = (Ok tt, <[k := {| value := v; expires_at := set_now io + ttl * 1000 |}]> tbl).
Proof.
  intros Hr Hv. unfold setCachedData, CacheService.set. by rewrite Hv, Hr.
Qed.

Lemma get_stored {V : Type} (io : IO) k (v : V) t tbl :
  get_select io = DbOk -> get_now io <= t ->
  getCachedData io k (<[k := {| value := v; expires_at := t |}]> tbl)
  = (Some v, <[k := {| value := v; expires_at := t |}]> tbl).
Proof.
  intros Hs Hle. unfold getCachedData. rewrite Hs.
  apply (get_live _ k {| value := v; expires_at := t |});
    [apply lookup_insert_eq | done].
Qed.

Lemma get_frame {V : Type} sel del now k (tbl : gmap string (CacheEntry V)) k' :
  k <> k' -> snd (CacheService.get sel del now k tbl) !! k' = tbl !! k'.
Proof.
  intros Hne. unfold CacheService.get. destruct sel; [| done | done].
  destruct (tbl !! k) as [e|]; [| done].
  destruct (_ <? _); [| done]. destruct del; simpl; [| done | done].
  by apply lookup_delete_ne.
Qed.

Lemma set_frame {V : Type} r now k (v : V) ttl tbl k' :
  k <> k' -> snd (CacheService.set r now k v ttl tbl) !! k' = tbl !! k'.
Proof.
  intros Hne. destruct (set_cases r now k v ttl tbl) as [-> | ->]; simpl;
    [by apply lookup_insert_ne | done].
Qed.

Lemma set_fst_indep {V : Type} r now k (v : V) ttl tbl tbl' :
  fst (CacheService.set r now k v ttl tbl)
  = fst (CacheService.set r now k v ttl tbl').
Proof. unfold CacheService.set. by destruct (valid_time _), r. Qed.

(** X14: [getOfficialUpdates] applies the limit to the answer it computes
    but stores every post. When the first call stores its posts, it
    answers with the first [limit] of them, and every call for the same
    handles in the next five minutes answers with all of them, whatever
    limit it is given and whatever the network does by then. *)
Theorem getOfficialUpdates_limit_not_cached (io1 io2 : IO)
    identifier password login feeds now userHandles limit
    identifier' password' login' feeds' now' limit'
    (tbl : gmap string (CacheEntry (list BlueskyService.Post))) :
  let posts :=
    flat_map (fun handle => BlueskyService.feedPosts (feeds handle))
      (slice (match userHandles with
              | [] => BlueskyService.defaultHandles
              | _ => userHandles
              end) 0 5) in
  let first :=
    BlueskyService.getOfficialUpdates io1 identifier password login feeds now
      userHandles limit tbl in
  fst (getCachedData io1
         ("bluesky_official:" ++ String.concat "," userHandles) tbl) = None ->
  BlueskyService.initialize identifier password login = true ->
  set_upsert io1 = DbOk -> valid_time (set_now io1 + 300 * 1000) = true ->
  get_select io2 = DbOk -> get_now io2 <= set_now io1 + 300 * 1000 ->
  fst first = slice_num posts (Int 0) limit
  /\ fst (BlueskyService.getOfficialUpdates io2 identifier' password' login'
            feeds' now' userHandles limit' (snd first)) = posts.
Proof.
  intros posts first Hmiss Hinit Hr Hv Hs Hle. subst first.
  unfold BlueskyService.getOfficialUpdates at 1 3.
  destruct (getCachedData io1 _ tbl) as [cached tbl1]. simpl in Hmiss.
  subst cached. rewrite Hinit.
  fold posts. rewrite (set_stores io1 _ posts 300 tbl1 Hr Hv). simpl.
  split; [done |].
  unfold BlueskyService.getOfficialUpdates.
  by rewrite (get_stored io2 _ posts _ tbl1 Hs Hle).
Qed.

(** X15: an outage of the shelter feed is remembered. When
    [getRealTimeResources] misses the cache and stores what it computed,
    every call for the same id in the next fifteen minutes answers with
    the same list, whatever the feed replies by then; after a failed feed
    that list is empty. *)
Theorem getRealTimeResources_answer_kept (io1 io2 : IO) redcross now
    redcross' now' disasterId
    (tbl : gmap string (CacheEntry (list Resource.t))) :
  let first :=
    RealTimeDataService.getRealTimeResources io1 redcross now disasterId tbl in
  fst (getCachedData io1
         ("realtime_resources:" ++ or_else disasterId "all") tbl) = None ->
  set_upsert io1 = DbOk -> valid_time (set_now io1 + 900 * 1000) = true ->
  get_select io2 = DbOk -> get_now io2 <= set_now io1 + 900 * 1000 ->
  fst (RealTimeDataService.getRealTimeResources io2 redcross' now' disasterId
         (snd first)) = fst first
  /\ (match redcross with Ok (Some _) => False | _ => True end ->
      fst first = []).
Proof.
  intros first Hmiss Hr Hv Hs Hle. subst first.
  unfold RealTimeDataService.getRealTimeResources at 2 3 4.
  destruct (getCachedData io1 _ tbl) as [cached tbl1]. simpl in Hmiss.
  subst cached.
  match goal with
  | |- context [setCachedData io1 ?k ?v 900 tbl1] =>
      rewrite (set_stores io1 k v 900 tbl1 Hr Hv);
      set (resources := v)
  end.
  simpl. split.
  - unfold RealTimeDataService.getRealTimeResources.
    by rewrite (get_stored io2 _ resources _ tbl1 Hs Hle).
  - subst resources. by destruct redcross as [[features|]|].
Qed.

Lemma extractLocation_fst_lookup io ai description
    (tbl tbl' : gmap string (CacheEntry GeocodingResult.t)) :
  tbl !! ("location_extraction:" ++ Buffer.toBase64 description)
  = tbl' !! ("location_extraction:" ++ Buffer.toBase64 description) ->
  fst (GeminiService.extractLocation io ai description tbl)
  = fst (GeminiService.extractLocation io ai description tbl').
Proof.
  intros Hk. unfold GeminiService.extractLocation, getCachedData.
  pose proof (get_fst_lookup (get_select io) (get_delete io) (get_now io)
                _ tbl tbl' Hk) as Hg.
  destruct (CacheService.get _ _ _ _ tbl) as [c t1].
  destruct (CacheService.get _ _ _ _ tbl') as [c' t1'].
  simpl in Hg. subst c'. destruct c as [g|]; [done |].
  destruct ai as [text|]; [| done].
  destruct (_ || _); [done |].
  unfold setCachedData.
  match goal with
  | |- context [CacheService.set ?r ?n ?k ?v ?ttl t1] =>
      pose proof (set_fst_indep r n k v ttl t1 t1') as Hset;
      destruct (CacheService.set r n k v ttl t1) as [[[]|] ?];
      destruct (CacheService.set r n k v ttl t1') as [[[]|] ?]
  end; simpl in *; congruence.
Qed.

Lemma extractLocation_frame io ai description
    (tbl : gmap string (CacheEntry GeocodingResult.t)) k' :
  "location_extraction:" ++ Buffer.toBase64 description <> k' ->
  snd (GeminiService.extractLocation io ai description tbl) !! k' = tbl !! k'.
Proof.
  intros Hne. unfold GeminiService.extractLocation, getCachedData.
  pose proof (get_frame (get_select io) (get_delete io) (get_now io)
                _ tbl k' Hne) as Hg.
  destruct (CacheService.get _ _ _ _ tbl) as [c t1]. simpl in Hg.
  destruct c as [g|]; [done |].
  destruct ai as [text|]; [| done].
  destruct (_ || _); [done |].
  unfold setCachedData.
  match goal with
  | |- context [CacheService.set ?r ?n ?k ?v ?ttl t1] =>
      pose proof (set_frame r n k v ttl t1 k' Hne) as Hset;
      destruct (CacheService.set r n k v ttl t1) as [[[]|] ?]
  end; simpl in *; congruence.
Qed.

(** X16: extracting the location of one description never changes what
    [extractLocation] answers for a description with a different cache
    key, at any later time and whatever either call meets. *)
Theorem extractLocation_independent io ai description io' ai' description'
    (tbl : gmap string (CacheEntry GeocodingResult.t)) :
  Buffer.toBase64 description <> Buffer.toBase64 description' ->
  fst (GeminiService.extractLocation io' ai' description'
         (snd (GeminiService.extractLocation io ai description tbl)))
  = fst (GeminiService.extractLocation io' ai' description' tbl).
Proof.
  intros Hne. apply extractLocation_fst_lookup, extractLocation_frame.
  intros Heq. apply Hne. by apply append_inj_l in Heq.
Qed.

End ServiceCacheProps.

Lemma searchDisasterPosts_well_formed_witness :
  Forall BlueskyService.well_formed
    (fst (BlueskyService.searchDisasterPosts Examples.io_up "id" "pw" (Ok tt)
            (Ok (Some [Examples.feed1; Examples.feed2])) 1000 ["flood"]
            (Int 10) ∅)).
Proof. apply searchDisasterPosts_well_formed. reflexivity. Defined.

Lemma getOfficialUpdates_limit_not_cached_witness :
  List.map (fun p => SocialMediaPost.id (BlueskyService.post p))
    (fst (BlueskyService.getOfficialUpdates Examples.io_up "id" "pw" (Ok tt)
            Examples.fema_feed 1000 [] (Int 1) ∅))
  = ["at://fema.bsky.social/post/1"]
  /\ List.map (fun p => SocialMediaPost.id (BlueskyService.post p))
       (fst (BlueskyService.getOfficialUpdates Examples.io_later
               EmptyString EmptyString Throw (fun _ => Throw) 2000 [] (Int 1)
               (snd (BlueskyService.getOfficialUpdates Examples.io_up "id" "pw"
                       (Ok tt) Examples.fema_feed 1000 [] (Int 1) ∅))))
     = ["at://fema.bsky.social/post/1"; "at://fema.bsky.social/post/2"].
Proof.
  destruct (getOfficialUpdates_limit_not_cached Examples.io_up Examples.io_later
              "id" "pw" (Ok tt) Examples.fema_feed 1000 [] (Int 1)
              EmptyString EmptyString Throw (fun _ => Throw) 2000 (Int 1) ∅)
    as [H1 H2]; [reflexivity .. | simpl; lia |].
  rewrite H1, H2. split; reflexivity.
Defined.

Lemma getRealTimeResources_answer_kept_witness :
  fst (RealTimeDataService.getRealTimeResources Examples.io_later
         (Ok (Some [Examples.shelter1])) 2000 None
         (snd (RealTimeDataService.getRealTimeResources Examples.io_up
                 Throw 1000 None ∅))) = [].
Proof.
  destruct (getRealTimeResources_answer_kept Examples.io_up Examples.io_later
              Throw 1000 (Ok (Some [Examples.shelter1])) 2000 None ∅)
    as [H1 H2]; [reflexivity .. | simpl; lia |].
  rewrite H1. apply H2. exact I.
Defined.

Lemma extractLocation_independent_witness :
  fst (GeminiService.extractLocation Examples.io_later Throw "Fire on Elm St"
         (snd (GeminiService.extractLocation Examples.io_up (Ok "Main St")
                 "River overflow near Main St" ∅))) = Throw.
Proof.
  rewrite (extractLocation_independent Examples.io_up (Ok "Main St")
             "River overflow near Main St" Examples.io_later Throw
             "Fire on Elm St" ∅); [reflexivity |].
  vm_compute. discriminate.
Defined.

(** ** The aggregator: titles, ids and the poller *)

Section AggregatorMore.
Import CacheService RealTimeDataService.

Lemma find_head_filter {A : Type} (f : A -> bool) (l : list A) :
  List.find f l = head (List.filter f l).
Proof.
  induction l as [|x l IH]; [done |]. simpl. by destruct (f x).
Qed.

(** X17: the title and the tags of a post agree. The title is built from
    the first tag, it is [Emergency Situation] exactly when there is no
    tag, and every tag is one of the seven keywords and occurs in the
    lower-cased content. *)
Theorem extractDisasterTitle_first_tag (content : string) :
  extractDisasterTitle content
  = match extractTags content with
    | keyword :: _ => capitalize keyword ++ " Emergency"
    | [] => "Emergency Situation"
    end
  /\ Forall (fun tag => In tag disasterKeywords
                        /\ includes (toLowerCase content) tag = true)
            (extractTags content).
Proof.
  split.
  - unfold extractDisasterTitle, extractTags. rewrite find_head_filter.
    by destruct (List.filter _ _).
  - apply List.Forall_forall. intros tag Hin.
    by apply List.filter_In in Hin.
Qed.

Lemma prefix_append (p s : string) : String.prefix p (p ++ s) = true.
Proof.
  induction p as [|c p IH]; [by destruct s |].
  rewrite append_cons. simpl. by destruct (ascii_dec c c).
Qed.

Lemma filter_nil {A : Type} (f : A -> bool) (l : list A) :
  Forall (fun x => f x = false) l -> List.filter f l = [].
Proof.
  induction 1 as [|x l Hx Hl IH]; [done |]. simpl. by rewrite Hx.
Qed.

Lemma bluesky_ids (posts : result (list SocialMediaPost.t)) :
  Forall (fun x => String.prefix "bluesky-" (Disaster.id x) = true)
         (getDisastersFromBluesky posts).
Proof.
  destruct posts as [posts|]; [| constructor]. unfold getDisastersFromBluesky.
  apply Forall_map, Forall_true. intros post. apply prefix_append.
Qed.

Lemma disastersOfAlerts_ids now alerts ds :
  disastersOfAlerts now alerts = Ok ds ->
  Forall (fun x => String.prefix "weather-" (Disaster.id x) = true) ds.
Proof.
  revert ds. induction alerts as [|alert rest IH]; intros ds.
  - intros [= <-]. constructor.
  - simpl. destruct (wa_type alert) as [type|]; [| discriminate].
    destruct (disastersOfAlerts now rest) as [ds'|]; [| discriminate].
    intros [= <-]. constructor; [apply prefix_append | by apply IH].
Qed.

Lemma weather_ids wio nws now wtbl :
  Forall (fun x => String.prefix "weather-" (Disaster.id x) = true)
         (fst (getDisastersFromWeatherAlerts wio nws now wtbl)).
Proof.
  unfold getDisastersFromWeatherAlerts.
  destruct (getRealTimeWeather wio nws None wtbl) as [alerts wtbl1].
  destruct (disastersOfAlerts now alerts) as [ds|] eqn:Hds; simpl;
    [by eapply disastersOfAlerts_ids | constructor].
Qed.

(** X18: the ids of the disasters that [getRealTimeDisasters] computes
    start with [bluesky-] or [weather-]. So for an id that starts with
    neither, such as the id of a row of the database or of a fixture, a
    call that misses the cache answers with the empty list, whatever the
    feeds return. *)
Theorem getRealTimeDisasters_foreign_id_empty (io wio : IO) posts nws now d
    (tbl : gmap string (CacheEntry (list Disaster.t)))
    (wtbl : gmap string (CacheEntry (list WeatherAlert))) :
  truthy d = true ->
  String.prefix "bluesky-" d = false -> String.prefix "weather-" d = false ->
  fst (getCachedData io ("realtime_disasters:" ++ d) tbl) = None ->
  fst (fst (getRealTimeDisasters io wio posts nws now (Some d) tbl wtbl)) = [].
Proof.
  intros Ht Hb Hw Hmiss. unfold getRealTimeDisasters.
  replace (or_else (Some d) "all") with d by (unfold or_else; by rewrite Ht).
  destruct (getCachedData io _ tbl) as [cached tbl1]. simpl in Hmiss.
  subst cached. rewrite Ht.
  pose proof (weather_ids wio nws now wtbl) as Hwi.
  destruct (getDisastersFromWeatherAlerts wio nws now wtbl) as [wd wtbl1].
  simpl in Hwi.
  rewrite filter_nil.
  - by case_set.
  - unfold getDisastersFromEmergencyServices. simpl.
    apply Forall_app. split.
    + eapply Forall_impl; [apply bluesky_ids |]. intros x Hx. cbv beta in *.
      apply String.eqb_neq. intros Heq. rewrite Heq in Hx. congruence.
    + eapply Forall_impl; [exact Hwi |]. intros x Hx. cbv beta in *.
      apply String.eqb_neq. intros Heq. rewrite Heq in Hx. congruence.
Qed.

Lemma pollEmits_room now (data : RealTimeData) room event update :
  In (ToRoom room event update) (pollEmits now data) ->
  room = "disaster-" ++ du_disasterId update.
Proof.
  unfold pollEmits. intros [Hall | Hin]; [discriminate |].
  by apply List.in_map_iff in Hin as (disaster & [= <- <- <-] & Hd).
Qed.

(** X19: what a tick of the poller sends to the room of a disaster. The
    room is named after a disaster of the data, the posts and the
    resources of the update are those of that disaster only, while the
    weather alerts and the emergency alerts are all of them, for every
    room alike. *)
Theorem pollEmits_scoped now (data : RealTimeData) room event update :
  In (ToRoom room event update) (pollEmits now data) ->
  room = "disaster-" ++ du_disasterId update
  /\ event = "disaster_realtime_update"
  /\ (exists disaster, In disaster (disasters data)
                       /\ Disaster.id disaster = du_disasterId update)
  /\ Forall (fun s => In s (socialMedia data)
                      /\ SocialMediaPost.disaster_id s
                         = Some (du_disasterId update))
            (du_socialMedia update)
  /\ Forall (fun r => In r (resources data)
                      /\ Resource.disaster_id r = du_disasterId update)
            (du_resources update)
  /\ du_weather update = weather data
  /\ du_emergencyAlerts update = emergencyAlerts data.
Proof.
  unfold pollEmits. intros [Hall | Hin]; [discriminate |].
  apply List.in_map_iff in Hin as (disaster & [= <- <- <-] & Hd). simpl.
  repeat split; [by exists disaster | |].
  - apply List.Forall_forall. intros s Hs.
    apply List.filter_In in Hs as [Hs Hc]. split; [done |].
    unfold correlated in Hc.
    destruct (SocialMediaPost.disaster_id s) as [x|]; [| discriminate].
    by apply String.eqb_eq in Hc as ->.
  - apply List.Forall_forall. intros r Hr.
    apply List.filter_In in Hr as [Hr Hc]. split; [done |].
    by apply String.eqb_eq in Hc.
Qed.

Lemma room_in_own (socket d : string) :
  String.prefix "disaster-" socket = false ->
  "disaster-" ++ d <> socket.
Proof. intros Hp <-. by rewrite prefix_append in Hp. Qed.

(** X20: a client that connects and joins the room of disaster [d] is
    handed, of a tick of the poller, the update for everyone and the
    updates of [d] only; once it leaves the room, only the update for
    everyone. The id of a socket is taken not to start with [disaster-]. *)
Theorem joined_socket_receives now (data : RealTimeData) socket d st e :
  st !! socket = None ->
  String.prefix "disaster-" socket = false ->
  In e (pollEmits now data) ->
  let joined := Sockets.join_disaster socket d (Sockets.connect socket st) in
  Sockets.receives joined socket e
  = match e with
    | ToAll _ _ _ => true
    | ToRoom _ _ update => String.eqb (du_disasterId update) d
    end
  /\ Sockets.receives (Sockets.leave_disaster socket d joined) socket e
     = match e with ToAll _ _ _ => true | ToRoom _ _ _ => false end.
Proof.
  intros Hnew Hp He joined. subst joined.
  unfold Sockets.connect. rewrite Hnew.
  unfold Sockets.join_disaster. rewrite lookup_insert_eq.
  unfold Sockets.leave_disaster. rewrite lookup_insert_eq.
  unfold Sockets.receives. rewrite !lookup_insert_eq.
  destruct e as [event t data' | room event update]; [done |].
  apply pollEmits_room in He as ->.
  pose proof (room_in_own socket (du_disasterId update) Hp) as Hown.
  split.
  - destruct (String.eqb_spec (du_disasterId update) d) as [-> | Hne].
    + apply bool_decide_eq_true. set_solver.
    + apply bool_decide_eq_false. intros Hin.
      apply elem_of_union in Hin as [Hin | Hin].
      * apply elem_of_singleton in Hin. by apply append_inj_l in Hin.
      * by apply elem_of_singleton in Hin.
  - apply bool_decide_eq_false. intros Hin.
    apply elem_of_difference in Hin as [Hin Hout].
    apply elem_of_union in Hin as [Hin | Hin]; [done |].
    by apply elem_of_singleton in Hin.
Qed.

End AggregatorMore.

Lemma getRealTimeDisasters_foreign_id_empty_witness :
  fst (fst (RealTimeDataService.getRealTimeDisasters Examples.io_up
              Examples.io_up (Ok [Examples.post1]) Throw 1000
              (Some "disaster-1") ∅ ∅)) = [].
Proof.
  apply getRealTimeDisasters_foreign_id_empty; reflexivity.
Defined.

Lemma pollEmits_scoped_witness :
  Forall (fun s => In s [Examples.post1; Examples.post2]
                   /\ SocialMediaPost.disaster_id s = Some "weather-7")
         [Examples.post2].
Proof.
  destruct (pollEmits_scoped 1000 Examples.tick_data "disaster-weather-7"
              "disaster_realtime_update" Examples.tick_update)
    as (_ & _ & _ & Hposts & _); [right; left; reflexivity |].
  exact Hposts.
Defined.

Lemma joined_socket_receives_witness :
  Sockets.receives
    (Sockets.join_disaster "s1" "weather-7" (Sockets.connect "s1" ∅)) "s1"
    (RealTimeDataService.ToRoom "disaster-weather-7" "disaster_realtime_update"
       Examples.tick_update) = true
  /\ Sockets.receives
       (Sockets.leave_disaster "s1" "weather-7"
          (Sockets.join_disaster "s1" "weather-7" (Sockets.connect "s1" ∅)))
       "s1"
       (RealTimeDataService.ToRoom "disaster-weather-7"
          "disaster_realtime_update" Examples.tick_update) = false.
Proof.
  destruct (joined_socket_receives 1000 Examples.tick_data "s1" "weather-7" ∅
              (RealTimeDataService.ToRoom "disaster-weather-7"
                 "disaster_realtime_update" Examples.tick_update))
    as [H1 H2]; [reflexivity | reflexivity | right; left; reflexivity |].
  split; [exact H1 | exact H2].
Defined.

(** ** The fixture store: pages and ids *)

Section MockStoreProps.
Import MockDataService.

Lemma slice_nonneg {A : Type} (l : list A) (a b : Z) :
  0 <= a -> a <= b ->
  slice l a b = take (Z.to_nat (b - a)) (drop (Z.to_nat a) l).
Proof.
  intros Ha Hb. unfold slice.
  destruct (Z.ltb_spec a 0); [lia |]. destruct (Z.ltb_spec b 0); [lia |].
  destruct (Z.le_gt_cases (Z.of_nat (length l)) a).
  - rewrite (Z.min_r a), (Z.min_r b) by lia.
    rewrite !drop_ge by lia. by rewrite !take_nil.
  - rewrite (Z.min_l a) by lia.
    destruct (Z.le_gt_cases b (Z.of_nat (length l))).
    + by rewrite (Z.min_l b) by lia.
    + rewrite (Z.min_r b) by lia.
      rewrite !take_ge; [done | rewrite length_drop; lia ..].
Qed.

(** The rows of page [p] for a limit [l]. *)
Lemma page_take_drop {A : Type} (xs : list A) (l : Z) (p : nat) :
  0 < l -> (1 <= p)%nat ->
  slice_num xs (offset_of (Int (Z.of_nat p)) (Int l))
            (num_add (offset_of (Int (Z.of_nat p)) (Int l)) (Int l))
  = take (Z.to_nat l) (drop ((p - 1) * Z.to_nat l) xs).
Proof.
  intros Hl Hp. unfold slice_num, offset_of. cbn [num_add num_mul to_index].
  rewrite slice_nonneg by nia.
  f_equal; [f_equal; lia |]. f_equal.
  rewrite Z2Nat.inj_mul by lia. f_equal. lia.
Qed.

Lemma pages_take {A : Type} (xs : list A) (l : Z) (n : nat) :
  0 < l ->
  concat (List.map (fun p =>
            slice_num xs (offset_of (Int (Z.of_nat p)) (Int l))
                      (num_add (offset_of (Int (Z.of_nat p)) (Int l)) (Int l)))
          (seq 1 n))
  = take (n * Z.to_nat l) xs.
Proof.
  intros Hl. induction n as [|n IH]; [done |].
  rewrite seq_S, List.map_app, concat_app, IH. cbn [List.map concat].
  rewrite page_take_drop by lia. rewrite app_nil_r.
  replace (1 + n - 1)%nat with n by lia.
  rewrite take_take_drop. f_equal. lia.
Qed.

Lemma pages_cover {A : Type} (xs : list A) (l : Z) :
  0 < l ->
  exists m : nat,
    ceil_div (Z.of_nat (length xs)) (Int l) = Int (Z.of_nat m)
    /\ concat (List.map (fun p =>
                 slice_num xs (offset_of (Int (Z.of_nat p)) (Int l))
                   (num_add (offset_of (Int (Z.of_nat p)) (Int l)) (Int l)))
               (seq 1 m))
       = xs.
Proof.
  intros Hl.
  exists (Z.to_nat (- (- Z.of_nat (length xs) / l))).
  assert (Hm : 0 <= - (- Z.of_nat (length xs) / l)
               /\ Z.of_nat (length xs) <= - (- Z.of_nat (length xs) / l) * l).
  { pose proof (Z.div_mod (- Z.of_nat (length xs)) l ltac:(lia)) as Hdm.
    pose proof (Z.mod_pos_bound (- Z.of_nat (length xs)) l Hl) as Hb.
    nia. }
  split.
  - unfold ceil_div. destruct l; try lia. f_equal. lia.
  - rewrite pages_take by done. apply take_ge. nia.
Qed.

(** X21: the pages of the fixture store lose nothing. For a limit of at
    least one, [totalPages] as the routes compute it from the total is a
    natural number, and the pages 1 to [totalPages] of [getDisasters], of
    [getResources] and of [getReports], one after the other, are the
    whole list that the total counts, in its order. *)
Theorem mock_pages_cover (l : Z) (disaster_id : option string)
    (disasters : list Disaster.t) (resources : list Resource.t)
    (reports : list RealTimeDataService.Report) :
  0 < l ->
  (exists m : nat,
     ceil_div (snd (getDisasters (Int 1) (Int l) disasters)) (Int l)
     = Int (Z.of_nat m)
     /\ concat (List.map (fun p =>
                  fst (getDisasters (Int (Z.of_nat p)) (Int l) disasters))
                (seq 1 m))
        = disasters)
  /\ (exists m : nat,
        ceil_div (snd (getResources (Int 1) (Int l) disaster_id resources))
                 (Int l)
        = Int (Z.of_nat m)
        /\ concat (List.map (fun p =>
                     fst (getResources (Int (Z.of_nat p)) (Int l)
                            disaster_id resources))
                   (seq 1 m))
           = if truthy_opt disaster_id
             then List.filter
                    (fun r => String.eqb (Resource.disaster_id r)
                                (default EmptyString disaster_id)) resources
             else resources)
  /\ (exists m : nat,
        ceil_div (snd (getReports (Int 1) (Int l) disaster_id reports)) (Int l)
        = Int (Z.of_nat m)
        /\ concat (List.map (fun p =>
                     fst (getReports (Int (Z.of_nat p)) (Int l)
                            disaster_id reports))
                   (seq 1 m))
           = if truthy_opt disaster_id
             then List.filter
                    (fun r => String.eqb (RealTimeDataService.rp_disaster_id r)
                                (default EmptyString disaster_id)) reports
             else reports).
Proof.
  intros Hl. split; [| split].
  - apply (pages_cover disasters l Hl).
  - unfold getResources. cbn [fst snd].
    destruct disaster_id as [d|]; simpl truthy_opt; simpl default;
      [destruct (truthy d) |]; apply pages_cover, Hl.
  - unfold getReports. cbn [fst snd].
    destruct disaster_id as [d|]; simpl truthy_opt; simpl default;
      [destruct (truthy d) |]; apply pages_cover, Hl.
Qed.

End MockStoreProps.

Lemma mock_pages_cover_witness :
  exists m : nat,
    ceil_div (snd (MockDataService.getDisasters (Int 1) (Int 2)
                     (MockDataService.mockDisasters 0))) (Int 2)
    = Int (Z.of_nat m)
    /\ concat (List.map (fun p =>
                 fst (MockDataService.getDisasters (Int (Z.of_nat p)) (Int 2)
                        (MockDataService.mockDisasters 0)))
               (seq 1 m))
       = MockDataService.mockDisasters 0.
Proof.
  apply (mock_pages_cover 2 None (MockDataService.mockDisasters 0) [] []).
  lia.
Defined.

(** ** The disaster routes: reading back what was written *)

Section DisasterRouteMore.
Import CacheService Http DisasterRoutes.

Lemma find_app_first {A : Type} (f : A -> bool) (l1 l2 : list A) :
  List.find f (l1 ++ l2)
  = match List.find f l1 with
    | Some x => Some x
    | None => List.find f l2
    end.
Proof. induction l1 as [|a l1 IH]; simpl; [done |]. by destruct (f a). Qed.

Lemma find_existsb_false {A : Type} (f : A -> bool) (l : list A) :
  existsb f l = false -> List.find f l = None.
Proof.
  induction l as [|a l IH]; simpl; [done |].
  destruct (f a); [discriminate | done].
Qed.

Lemma find_map_replace {A : Type} (f : A -> bool) (u : A) (l : list A) x :
  List.find f l = Some x -> f u = true ->
  List.find f (List.map (fun d => if f d then u else d) l) = Some u.
Proof.
  intros Hx Hu. induction l as [|a l IH]; simpl in *; [discriminate |].
  destruct (f a) eqn:Ha; [by rewrite Hu | rewrite Ha; auto].
Qed.

Lemma find_map_other (id id' : string) (u : Disaster.t) (l : list Disaster.t) :
  id' <> id ->
  Disaster.id u = id ->
  List.find (fun d => String.eqb (Disaster.id d) id')
    (List.map (fun d => if String.eqb (Disaster.id d) id then u else d) l)
  = List.find (fun d => String.eqb (Disaster.id d) id') l.
Proof.
  intros Hne Hu. induction l as [|a l IH]; simpl; [done |].
  destruct (String.eqb_spec (Disaster.id a) id) as [Ha | Ha].
  - rewrite Hu, Ha. destruct (String.eqb_spec id id'); [congruence | done].
  - by rewrite IH.
Qed.

Lemma find_filter_same (id : string) (l : list Disaster.t) :
  List.find (fun d => String.eqb (Disaster.id d) id)
    (List.filter (fun d => negb (String.eqb (Disaster.id d) id)) l) = None.
Proof.
  induction l as [|a l IH]; simpl; [done |].
  destruct (String.eqb (Disaster.id a) id) eqn:Ha; simpl; [done |].
  by rewrite Ha.
Qed.

Lemma find_filter_other (id id' : string) (l : list Disaster.t) :
  id' <> id ->
  List.find (fun d => String.eqb (Disaster.id d) id')
    (List.filter (fun d => negb (String.eqb (Disaster.id d) id)) l)
  = List.find (fun d => String.eqb (Disaster.id d) id') l.
Proof.
  intros Hne. induction l as [|a l IH]; simpl; [done |].
  destruct (String.eqb_spec (Disaster.id a) id) as [Ha | Ha]; simpl.
  - rewrite Ha. destruct (String.eqb_spec id id'); [congruence | done].
  - by rewrite IH.
Qed.

Lemma insert_ok_inv c id now row tbl stored tbl' :
  insert c id now row tbl = (Ok stored, tbl') ->
  tbl' = (tbl ++ [stored])%list /\ Disaster.id stored = id
  /\ List.find (fun d => String.eqb (Disaster.id d) id) tbl = None.
Proof.
  unfold insert. destruct c; try discriminate.
  destruct (existsb _ tbl) eqn:He; [discriminate |].
  intros [= <- <-]. repeat split. by apply find_existsb_false.
Qed.

Lemma insert_throw_inv c id now row tbl tbl' :
  insert c id now row tbl = (Throw, tbl') -> tbl' = tbl.
Proof.
  unfold insert. destruct c; [destruct (existsb _ tbl) |..]; by intros [= <-].
Qed.

(** X22: GET /api/disasters/:id answers 200 with a disaster that carries
    the requested id, from the table when the row is read and else from
    the fixtures, or 404 when neither has it: never 500, and a row of the
    table hides a fixture with the same id. *)
Theorem getById_answer c id w :
  match data (getById c id w) with
  | Some d =>
      status (getById c id w) = 200 /\ Disaster.id d = id
      /\ (In d (db w) \/ In d (mock w))
  | None =>
      status (getById c id w) = 404
      /\ selectById c id (db w) = None
      /\ MockDataService.getDisasterById id (mock w) = None
  end
  /\ (forall d, selectById c id (db w) = Some d ->
                getById c id w = ok_with 200 d None).
Proof.
  unfold getById.
  destruct (selectById c id (db w)) as [d|] eqn:Hs.
  - simpl. split; [| by intros ? [= <-]].
    unfold selectById in Hs. destruct c; try discriminate.
    apply List.find_some in Hs as [Hin Heq]. apply String.eqb_eq in Heq. auto.
  - split; [| discriminate].
    destruct (MockDataService.getDisasterById id (mock w)) as [d|] eqn:Hm;
      simpl; [| done].
    apply List.find_some in Hm as [Hin Heq]. apply String.eqb_eq in Heq. auto.
Qed.

(** X23: reading back a created disaster. After a POST that stored the
    row in the table, GET by the id of the answer returns that disaster.
    After a POST that fell back to the fixtures, GET by the id of the
    answer returns that disaster too, unless a fixture created in the same
    millisecond already carries the id: then GET returns the older one. *)
Theorem post_then_getById env user body w c d :
  data (fst (post env user body w)) = Some d ->
  (message (fst (post env user body w)) = Some "Disaster created successfully" ->
   getById DbOk (Disaster.id d) (snd (post env user body w))
   = ok_with 200 d None)
  /\ (message (fst (post env user body w))
      = Some "Disaster created successfully (mock mode)" ->
      selectById c (Disaster.id d) (db w) = None ->
      Disaster.id d = "disaster-" ++ pretty (now env)
      /\ getById c (Disaster.id d) (snd (post env user body w))
         = ok_with 200
             (default d (MockDataService.getDisasterById (Disaster.id d) (mock w)))
             None).
Proof.
  unfold post.
  destruct (negb _ || negb _); [discriminate |].
  destruct (resolveLocationName env _ _ _) as [[n|] c1]; [| discriminate].
  destruct (insert _ _ _ _ _) as [[stored|] db1] eqn:Hins.
  - cbn [fst snd data message ok_with]. intros [= <-].
    apply insert_ok_inv in Hins as (-> & Hid & Hnone).
    split; [intros _ | discriminate].
    unfold getById, selectById. cbn [db]. rewrite Hid, find_app_first, Hnone.
    simpl. by rewrite Hid, String.eqb_refl.
  - apply insert_throw_inv in Hins as ->.
    unfold MockDataService.createDisaster.
    cbn [fst snd data message ok_with]. intros [= <-].
    split; [discriminate | intros _ Hsel]. split; [done |].
    unfold getById. cbn [db mock Disaster.id] in *. rewrite Hsel.
    unfold MockDataService.getDisasterById. rewrite find_app_first.
    destruct (List.find _ (mock w)) as [old|]; [done |].
    simpl. by rewrite String.eqb_refl.
Qed.

(** X24: after a DELETE that answers 200, the id is announced, the table
    has no row with that id while every other id reads as before, and GET
    by the deleted id answers with the fixture of that id when there is
    one, else 404. *)
Theorem remove_then_getById env user id w c :
  status (fst (fst (remove env user id w))) = 200 ->
  snd (remove env user id w) = Some id
  /\ selectById c id (db (snd (fst (remove env user id w)))) = None
  /\ (forall id', id' <> id ->
        getById c id' (snd (fst (remove env user id w))) = getById c id' w)
  /\ getById c id (snd (fst (remove env user id w)))
     = match MockDataService.getDisasterById id (mock w) with
       | Some d => ok_with 200 d None
       | None => failure 404 "Disaster not found"
       end.
Proof.
  unfold remove.
  destruct (db_first env); [| discriminate | discriminate].
  destruct (List.find _ (db w)) as [existing|]; [| discriminate].
  destruct (db_second env); [| discriminate | discriminate].
  intros _. cbn [fst snd db]. split; [done |].
  assert (Hgone : selectById c id
                    (List.filter (fun d => negb (String.eqb (Disaster.id d) id))
                                 (db w)) = None).
  { unfold selectById. destruct c; [apply find_filter_same | done | done]. }
  split; [done |]. split.
  - intros id' Hne. unfold getById, selectById. cbn [db mock].
    destruct c; [| done | done]. by rewrite find_filter_other.
  - unfold getById. cbn [db mock]. by rewrite Hgone.
Qed.

Lemma locationUpdate_geocoded env updates existing cache loc cache1 :
  locationUpdate env updates existing cache = (Ok loc, cache1) ->
  match loc with
  | Some (n, p) =>
      exists g, geocode env n = Some g
                /\ p = {| Location.lat := GeocodingResult.lat g;
                          Location.lng := GeocodingResult.lng g |}
  | None => True
  end.
Proof.
  unfold locationUpdate.
  destruct (truthy_opt _ || truthy_opt _); [| by intros [= <- <-]].
  destruct (if negb _ && _ then _ else _) as [[final|] c1];
    [| discriminate].
  destruct (String.eqb final _); [by intros [= <- <-] |].
  destruct (geocode env final) as [g|] eqn:Hg; intros [= <- <-]; [| done].
  by exists g.
Qed.

(** X25: what a PUT that succeeds does, and what one that fails leaves.
    On success the row keeps its id, owner and creation time, its audit
    trail is the old one with one [update] entry appended, its location
    name and point change together and only to a name that geocodes, GET
    by the id then returns the answer, no other id reads differently and
    the fixtures are untouched. On failure the table, the fixtures and
    the emitted events are as before. *)
Theorem put_outcome env user id updates w :
  (success (fst (put env user id updates w)) = true ->
   exists existing u,
     selectById DbOk id (db w) = Some existing
     /\ data (fst (put env user id updates w)) = Some u
     /\ Disaster.id u = id
     /\ Disaster.owner_id u = Disaster.owner_id existing
     /\ Disaster.created_at u = Disaster.created_at existing
     /\ Disaster.audit_trail u
        = (Disaster.audit_trail existing
           ++ [ {| AuditTrail.action := "update";
                   AuditTrail.user_id := or_else user "anonymous";
                   AuditTrail.timestamp := now env;
                   AuditTrail.details := Some (details_of updates) |} ])%list
     /\ ((Disaster.location_name u = Disaster.location_name existing
          /\ Disaster.location u = Disaster.location existing)
         \/ exists g, geocode env (Disaster.location_name u) = Some g
                      /\ Disaster.location u
                         = Some {| Location.lat := GeocodingResult.lat g;
                                   Location.lng := GeocodingResult.lng g |})
     /\ getById DbOk id (snd (put env user id updates w)) = ok_with 200 u None
     /\ (forall id', id' <> id ->
           selectById DbOk id' (db (snd (put env user id updates w)))
           = selectById DbOk id' (db w))
     /\ mock (snd (put env user id updates w)) = mock w
     /\ emitted (snd (put env user id updates w)) = (emitted w ++ [u])%list)
  /\ (success (fst (put env user id updates w)) = false ->
      db (snd (put env user id updates w)) = db w
      /\ mock (snd (put env user id updates w)) = mock w
      /\ emitted (snd (put env user id updates w)) = emitted w).
Proof.
  unfold put.
  destruct (db_first env); [| split; [discriminate | done] ..].
  destruct (List.find _ (db w)) as [existing|] eqn:Hf;
    [| split; [discriminate | done]].
  destruct (locationUpdate env updates existing (extraction_cache w))
    as [[loc|] cache1] eqn:Hloc; [| split; [discriminate | done]].
  destruct (db_second env); [| split; [discriminate | done] ..].
  split; [intros _ | discriminate].
  pose proof (List.find_some _ _ Hf) as [Hin Hid].
  apply String.eqb_eq in Hid.
  apply locationUpdate_geocoded in Hloc.
  eexists existing, _. cbn [fst snd data ok_with db mock emitted].
  split; [done |]. split; [reflexivity |]. cbn [Disaster.id Disaster.owner_id
    Disaster.created_at Disaster.audit_trail Disaster.location_name
    Disaster.location].
  split; [done |]. split; [done |]. split; [done |]. split; [done |].
  split.
  { destruct loc as [[n p]|]; [| by left].
    destruct Hloc as (g & Hg & ->). right. by exists g. }
  split.
  { unfold getById, selectById. cbn [db].
    erewrite find_map_replace; [done | exact Hf |].
    cbn [Disaster.id]. by rewrite Hid, String.eqb_refl. }
  split; [| done].
  intros id' Hne. unfold selectById. by apply find_map_other.
Qed.

End DisasterRouteMore.

Lemma post_then_getById_witness :
  exists d,
    Http.data (fst (DisasterRoutes.post Examples.env_db_down_no_location None
                      Examples.test_flood Examples.world0)) = Some d
    /\ DisasterRoutes.getById DbThrow (Disaster.id d)
         (snd (DisasterRoutes.post Examples.env_db_down_no_location None
                 Examples.test_flood Examples.world0))
       = Http.ok_with 200 d None.
Proof.
  eexists. split; [reflexivity |].
  destruct (post_then_getById Examples.env_db_down_no_location None
              Examples.test_flood Examples.world0 DbThrow _ eq_refl)
    as [_ H].
  destruct H as [_ H]; [reflexivity | reflexivity |].
  rewrite H. reflexivity.
Defined.

Lemma remove_then_getById_witness :
  Http.status (DisasterRoutes.getById DbOk "disaster-1"
                 (snd (fst (DisasterRoutes.remove Examples.env_up None
                              "disaster-1" Examples.world0)))) = 200
  /\ DisasterRoutes.selectById DbOk "disaster-1"
       (DisasterRoutes.db
          (snd (fst (DisasterRoutes.remove Examples.env_up None "disaster-1"
                       Examples.world0)))) = None.
Proof.
  destruct (remove_then_getById Examples.env_up None "disaster-1"
              Examples.world0 DbOk eq_refl) as (_ & H1 & _ & H2).
  rewrite H2. split; [reflexivity | exact H1].
Defined.

Lemma put_outcome_witness :
  exists u,
    Http.data (fst (DisasterRoutes.put Examples.env_up None "disaster-1"
                      Examples.retitle Examples.world0)) = Some u
    /\ Disaster.id u = "disaster-1"
    /\ List.map AuditTrail.action (Disaster.audit_trail u) = ["update"].
Proof.
  destruct (proj1 (put_outcome Examples.env_up None "disaster-1"
                     Examples.retitle Examples.world0) eq_refl)
    as (existing & u & Hsel & Hdata & Hid & _ & _ & Haudit & _).
  exists u. split; [exact Hdata |]. split; [exact Hid |].
  rewrite Haudit. vm_compute in Hsel. injection Hsel as <-. reflexivity.
Defined.

(** ** The report route: the status a report starts with *)

Section ReportRouteProps.
Import CacheService Http RealTimeDataService ReportRoutes.

Lemma initialStatus_cases env image_url content
    (cache : gmap string (CacheEntry ImageVerificationResult.t)) :
  (truthy_opt image_url = false ->
   fst (initialStatus env image_url content cache) = "pending")
  /\ (truthy_opt image_url = true ->
      (fst (initialStatus env image_url content cache) = "verified"
       \/ fst (initialStatus env image_url content cache) = "rejected")
      /\ (fst (initialStatus env image_url content cache) = "rejected" ->
          fst (getCachedData (cache_io env)
                 ("image_verification:"
                  ++ Buffer.toBase64 (default EmptyString image_url)) cache)
          = None ->
          image env = Ok true
          /\ exists text,
               ai env = Ok text
               /\ ImageVerificationResult.is_authentic
                    (GeminiService.parseAnalysis (JSON_parse env) text)
                  = false)).
Proof.
  unfold initialStatus. split; intros Hi; rewrite Hi; [done |].
  pose proof (verifyImage_miss (cache_io env) (image env) (ai env)
                (JSON_parse env) (default EmptyString image_url)
                (Some content) cache) as Hmiss.
  destruct (GeminiService.verifyImage _ _ _ _ _ _ cache) as [r cache1].
  cbn [fst] in *. split.
  - destruct (ImageVerificationResult.is_authentic r); auto.
  - destruct (ImageVerificationResult.is_authentic r) eqn:Hr;
      [discriminate |].
    intros _ Hm. specialize (Hmiss Hm). subst r.
    destruct (image env) as [[|]|]; try discriminate Hr.
    destruct (ai env) as [text|]; try discriminate Hr.
    split; [done |]. exists text. split; [done |].
    by destruct (fst (setCachedData _ _ _ _ _)).
Qed.

(** X26: the status a report starts with. A POST that passes the
    validation answers 201 with a report for the requested disaster, sent
    to the room of that disaster, whether or not the database stores it.
    Without an image the report is [pending]; with one it is [verified]
    or [rejected], and when no verdict is cached it is [rejected] only if
    the image was downloaded and the AI replied with an analysis that
    reads as not authentic: every failure to verify yields [verified]. *)
Theorem report_initial_status env user body w :
  truthy_opt (disaster_id body) = true ->
  truthy_opt (content body) = true ->
  exists r msg,
    fst (post env user body w) = ok_with 201 r (Some msg)
    /\ Some (rp_disaster_id r) = disaster_id body
    /\ Some (rp_content r) = content body
    /\ rp_user_id r = or_else user "anonymous"
    /\ emitted (snd (post env user body w))
       = (emitted w ++ [(("disaster-" ++ rp_disaster_id r)%string, r)])%list
    /\ (truthy_opt (image_url body) = false ->
        rp_verification_status r = "pending")
    /\ (truthy_opt (image_url body) = true ->
        (rp_verification_status r = "verified"
         \/ rp_verification_status r = "rejected")
        /\ (rp_verification_status r = "rejected" ->
            fst (getCachedData (cache_io env)
                   ("image_verification:"
                    ++ Buffer.toBase64 (default EmptyString (image_url body)))
                   (verification_cache w)) = None ->
            image env = Ok true
            /\ exists text,
                 ai env = Ok text
                 /\ ImageVerificationResult.is_authentic
                      (GeminiService.parseAnalysis (JSON_parse env) text)
                    = false)).
Proof.
  intros Hd Hc. unfold post. rewrite Hd, Hc. cbn [negb orb].
  pose proof (initialStatus_cases env (image_url body)
                (default EmptyString (content body)) (verification_cache w))
    as Hst.
  destruct (initialStatus env _ _ _) as [vs cache1]. cbn [fst] in Hst.
  destruct (disaster_id body) as [d|]; [| discriminate].
  destruct (content body) as [c|]; [| discriminate].
  cbn [default].
  unfold insert, MockDataService.createReport.
  destruct (db_insert env); [destruct (existsb _ (db w)) |..];
    cbn [fst snd emitted]; eexists _, _;
    (split; [reflexivity |]); cbn [rp_disaster_id rp_content rp_user_id
                                    rp_verification_status];
    (split; [done |]); (split; [done |]); (split; [done |]);
    (split; [done |]); exact Hst.
Qed.

End ReportRouteProps.

(** ** The social route: whose posts a request gets *)

Section SocialRouteProps.
Import CacheService Http SocialMediaRoutes.

Lemma Forall_filter_In {A : Type} (f : A -> bool) (l : list A) :
  Forall (fun x => In x l /\ f x = true) (List.filter f l).
Proof.
  apply List.Forall_forall. intros x Hx. by apply List.filter_In in Hx.
Qed.

(** X27: on the fixture path, that is for a platform other than
    [twitter] or without the API key, a request that misses the cache is
    answered with fixtures of the requested disaster only, labelled
    [mock], and the same posts go to the room of that disaster. *)
Theorem getPosts_mock_scope rio twitter_key bio identifier password login
    search now q mock
    (rtbl btbl : gmap string (CacheEntry (list BlueskyService.Post))) :
  truthy_opt (q_disaster_id q) = true ->
  fst (getCachedData rio (cacheKey q) rtbl) = None ->
  String.eqb (default "twitter" (q_platform q)) "twitter" && twitter_key
  = false ->
  let '(resp, source, _, btbl', sent) :=
    getPosts rio twitter_key bio identifier password login search now q mock
             rtbl btbl in
  exists posts,
    resp = ok_with 200 posts None
    /\ source = Some "mock"
    /\ btbl' = btbl
    /\ sent = Some ("disaster-" ++ default EmptyString (q_disaster_id q), posts)
    /\ Forall (fun p =>
                 In (BlueskyService.post p) mock
                 /\ SocialMediaPost.disaster_id (BlueskyService.post p)
                    = q_disaster_id q
                 /\ BlueskyService.engagement p = None) posts.
Proof.
  intros Hd Hmiss Hlive. unfold getPosts. rewrite Hd. cbn [negb].
  destruct (getCachedData rio (cacheKey q) rtbl) as [cached rtbl1].
  cbn [fst] in Hmiss. subst cached. rewrite Hlive.
  eexists. repeat (split; [reflexivity |]).
  apply Forall_map. unfold MockDataService.getSocialMediaPosts, slice_num.
  apply Forall_slice.
  eapply Forall_impl; [apply Forall_filter_In |].
  intros p [Hin Hc]. cbn [BlueskyService.post BlueskyService.engagement].
  split; [done |]. split; [| done].
  unfold RealTimeDataService.correlated in Hc.
  destruct (q_disaster_id q) as [d|]; [| discriminate]. cbn [default] in Hc.
  destruct (SocialMediaPost.disaster_id p) as [x|]; [| discriminate].
  by apply String.eqb_eq in Hc as ->.
Qed.

(** X28: on the live path the disaster id is not used to choose the
    posts. Two requests for different disasters with the same platform,
    limit and keywords, both missing the route's cache, are answered with
    the same posts, and each sends them to the room of its own disaster. *)
Theorem getPosts_live_ignores_disaster_id rio bio identifier password login
    search now q q' mock
    (rtbl btbl : gmap string (CacheEntry (list BlueskyService.Post))) :
  truthy_opt (q_disaster_id q) = true ->
  truthy_opt (q_disaster_id q') = true ->
  q_platform q = q_platform q' -> q_limit q = q_limit q' ->
  q_keywords q = q_keywords q' ->
  String.eqb (default "twitter" (q_platform q)) "twitter" = true ->
  fst (getCachedData rio (cacheKey q) rtbl) = None ->
  fst (getCachedData rio (cacheKey q') rtbl) = None ->
  let '(resp, source, _, _, sent) :=
    getPosts rio true bio identifier password login search now q mock
             rtbl btbl in
  let '(resp', source', _, _, sent') :=
    getPosts rio true bio identifier password login search now q' mock
             rtbl btbl in
  resp = resp' /\ source = Some "twitter" /\ source' = Some "twitter"
  /\ exists posts,
       data resp = Some posts
       /\ sent = Some ("disaster-" ++ default EmptyString (q_disaster_id q),
                       posts)
       /\ sent' = Some ("disaster-" ++ default EmptyString (q_disaster_id q'),
                        posts).
Proof.
  intros Hd Hd' Hp Hl Hk Hlive Hmiss Hmiss'. unfold getPosts.
  rewrite Hd, Hd'. cbn [negb].
  destruct (getCachedData rio (cacheKey q) rtbl) as [cached rtbl1].
  destruct (getCachedData rio (cacheKey q') rtbl) as [cached' rtbl1'].
  cbn [fst] in Hmiss, Hmiss'. subst cached cached'.
  rewrite <- Hp, <- Hl, <- Hk, Hlive. cbn [andb].
  destruct (BlueskyService.searchDisasterPosts _ _ _ _ _ _ _ _ _)
    as [posts btbl1].
  repeat (split; [reflexivity |]). by exists posts.
Qed.

End SocialRouteProps.

Lemma report_initial_status_witness :
  exists r,
    Http.data (fst (ReportRoutes.post Examples.report_env_ai_down None
                      Examples.photo_report Examples.report_world0)) = Some r
    /\ RealTimeDataService.rp_verification_status r = "verified".
Proof.
  destruct (report_initial_status Examples.report_env_ai_down None
              Examples.photo_report Examples.report_world0 eq_refl eq_refl)
    as (r & msg & Hpost & _ & _ & _ & _ & _ & Himg).
  exists r. rewrite Hpost. split; [reflexivity |].
  destruct (Himg eq_refl) as [[Hv | Hr] Hrej]; [exact Hv |].
  destruct (Hrej Hr) as [Himage _]; [reflexivity | discriminate Himage].
Defined.

Lemma getPosts_mock_scope_witness :
  let '(resp, source, _, btbl', sent) :=
    SocialMediaRoutes.getPosts Examples.io_up true Examples.io_up
      EmptyString EmptyString Throw Throw 1000
      (Examples.posts_of "disaster-1" "mastodon")
      (MockDataService.mockSocialMediaPosts 0) ∅ ∅ in
  exists posts,
    resp = Http.ok_with 200 posts None
    /\ source = Some "mock"
    /\ btbl' = ∅
    /\ sent = Some ("disaster-disaster-1", posts)
    /\ Forall (fun p =>
                 In (BlueskyService.post p) (MockDataService.mockSocialMediaPosts 0)
                 /\ SocialMediaPost.disaster_id (BlueskyService.post p)
                    = Some "disaster-1"
                 /\ BlueskyService.engagement p = None) posts.
Proof.
  apply (getPosts_mock_scope Examples.io_up true Examples.io_up
           EmptyString EmptyString Throw Throw 1000
           (Examples.posts_of "disaster-1" "mastodon")
           (MockDataService.mockSocialMediaPosts 0) ∅ ∅); reflexivity.
Defined.

Lemma getPosts_live_ignores_disaster_id_witness :
  let '(resp, _, _, _, sent) :=
    SocialMediaRoutes.getPosts Examples.io_up true Examples.io_up
      "id" "pw" (Ok tt) (Ok (Some [Examples.feed1])) 1000
      (Examples.posts_of "disaster-1" "twitter")
      (MockDataService.mockSocialMediaPosts 0) ∅ ∅ in
  let '(resp', _, _, _, sent') :=
    SocialMediaRoutes.getPosts Examples.io_up true Examples.io_up
      "id" "pw" (Ok tt) (Ok (Some [Examples.feed1])) 1000
      (Examples.posts_of "disaster-2" "twitter")
      (MockDataService.mockSocialMediaPosts 0) ∅ ∅ in
  resp = resp'
  /\ fst <$> sent = Some "disaster-disaster-1"
  /\ fst <$> sent' = Some "disaster-disaster-2".
Proof.
  pose proof (getPosts_live_ignores_disaster_id Examples.io_up Examples.io_up
                "id" "pw" (Ok tt) (Ok (Some [Examples.feed1])) 1000
                (Examples.posts_of "disaster-1" "twitter")
                (Examples.posts_of "disaster-2" "twitter")
                (MockDataService.mockSocialMediaPosts 0) ∅ ∅
                eq_refl eq_refl eq_refl eq_refl eq_refl eq_refl) as H.
  destruct (SocialMediaRoutes.getPosts _ _ _ _ _ _ _ _
              (Examples.posts_of "disaster-1" "twitter") _ _ _)
    as [[[[resp source] rt] bt] sent].
  destruct (SocialMediaRoutes.getPosts _ _ _ _ _ _ _ _
              (Examples.posts_of "disaster-2" "twitter") _ _ _)
    as [[[[resp' source'] rt'] bt'] sent'].
  destruct H as (Hresp & _ & _ & posts & _ & -> & ->);
    [reflexivity | reflexivity |].
  split; [exact Hresp | split; reflexivity].
Defined.

(** ** The weather feed as a source of disasters *)

Section WeatherProps.
Import CacheService RealTimeDataService.

Lemma disastersOfAlerts_untyped now alerts :
  Exists (fun alert => wa_type alert = None) alerts ->
  disastersOfAlerts now alerts = Throw.
Proof.
  induction 1 as [alert rest Hn | alert rest Hex IH]; simpl.
  - by rewrite Hn.
  - rewrite IH. by destruct (wa_type alert).
Qed.

Lemma disastersOfAlerts_typed now alerts :
  Forall (fun alert => is_Some (wa_type alert)) alerts ->
  exists ds, disastersOfAlerts now alerts = Ok ds
             /\ List.map Disaster.id ds
                = List.map (fun alert => "weather-" ++ wa_id alert) alerts.
Proof.
  induction 1 as [|alert rest [type Ht] Hall (ds & Hds & Hids)]; simpl.
  - by exists [].
  - rewrite Ht, Hds. eexists. split; [reflexivity |]. simpl. by rewrite Hids.
Qed.

(** X29: one alert without an event hides every weather disaster. The
    disasters derived from the weather alerts are one per alert, with the
    id [weather-] followed by the id of the alert, when every alert
    names its event; when some alert does not, there is none at all. *)
Theorem weather_disasters_all_or_nothing (wio : IO) nws now
    (wtbl : gmap string (CacheEntry (list WeatherAlert))) :
  (Forall (fun alert => is_Some (wa_type alert))
          (fst (getRealTimeWeather wio nws None wtbl)) ->
   List.map Disaster.id (fst (getDisastersFromWeatherAlerts wio nws now wtbl))
   = List.map (fun alert => "weather-" ++ wa_id alert)
              (fst (getRealTimeWeather wio nws None wtbl)))
  /\ (Exists (fun alert => wa_type alert = None)
             (fst (getRealTimeWeather wio nws None wtbl)) ->
      fst (getDisastersFromWeatherAlerts wio nws now wtbl) = []).
Proof.
  unfold getDisastersFromWeatherAlerts.
  destruct (getRealTimeWeather wio nws None wtbl) as [alerts wtbl1].
  cbn [fst]. split.
  - intros Hall.
    destruct (disastersOfAlerts_typed now alerts Hall) as (ds & -> & Hids).
    exact Hids.
  - intros Hex. by rewrite (disastersOfAlerts_untyped now alerts Hex).
Qed.

End WeatherProps.

Lemma weather_disasters_all_or_nothing_witness :
  fst (RealTimeDataService.getDisastersFromWeatherAlerts Examples.io_up
         (Ok (Some Examples.nws_two)) 1000 ∅) = []
  /\ List.map Disaster.id
       (fst (RealTimeDataService.getDisastersFromWeatherAlerts Examples.io_up
               (Ok (Some (take 1 Examples.nws_two))) 1000 ∅))
     = ["weather-a1"].
Proof.
  split.
  - apply (proj2 (weather_disasters_all_or_nothing Examples.io_up
                    (Ok (Some Examples.nws_two)) 1000 ∅)).
    right. left. reflexivity.
  - rewrite (proj1 (weather_disasters_all_or_nothing Examples.io_up
                      (Ok (Some (take 1 Examples.nws_two))) 1000 ∅));
      [reflexivity |].
    repeat constructor. by eexists.
Defined.

(** ** GET /api/resources: the two paths page alike *)

Section ResourcePages.
Context `{Postgres}.
Import Http ResourceRoutes.

(** X4: for a page [p] of at least one and a limit [l] of at least one,
    both paths of GET /api/resources answer with rows [(p-1)*l] up to
    [p*l] of a list: the rows of the table that pass every filter, newest
    first, when the database answers; the fixtures of the requested
    disaster, in their order and whatever the other filters are, when it
    does not. *)
Theorem resources_pages_alike c1 c2 (q : ListQuery) (tbl mock : list Resource.t)
    (p : nat) (l : Z) :
  parseInt_or (q_page q) 1 = Int (Z.of_nat p) -> (1 <= p)%nat ->
  parseInt_or (q_limit q) 20 = Int l -> 0 < l ->
  data (getAll c1 c2 q tbl mock)
  = Some (take (Z.to_nat l)
            (drop ((p - 1) * Z.to_nat l)
               (match fromDatabase c1 c2 q tbl with
                | Ok _ =>
                    Db.order_desc Resource.created_at
                      (List.filter (matches q) tbl)
                | Throw =>
                    if truthy_opt (q_disaster_id q)
                    then List.filter
                           (fun r => String.eqb (Resource.disaster_id r)
                                       (default EmptyString (q_disaster_id q)))
                           mock
                    else mock
                end))).
Proof.
  intros Hp Hp1 Hl Hl0.
  assert (Hoff : Z.to_nat ((Z.of_nat p + -1) * l) = ((p - 1) * Z.to_nat l)%nat).
  { rewrite Z2Nat.inj_mul by lia. f_equal. lia. }
  assert (Hdb : fromDatabase c1 c2 q tbl
                = match c1, c2 with
                  | DbThrow, _ | _, DbError | _, DbThrow => Throw
                  | _, DbOk =>
                      Ok (take (Z.to_nat l)
                            (drop ((p - 1) * Z.to_nat l)
                               (Db.order_desc Resource.created_at
                                  (List.filter (matches q) tbl))),
                          match c1 with
                          | DbOk => Z.of_nat (length (List.filter (matches q) tbl))
                          | _ => 0
                          end)
                  end).
  { unfold fromDatabase, Db.list_query. rewrite Hp, Hl.
    unfold offset_of, Db.range. cbn [num_add num_mul].
    destruct (Z.ltb_spec ((Z.of_nat p + -1) * l) 0) as [Hneg|_]; [nia |].
    replace ((Z.of_nat p + -1) * l + l + -1 - (Z.of_nat p + -1) * l + 1)
      with l by lia.
    destruct (Z.ltb_spec l 0) as [Hneg|_]; [lia |]. cbn [orb].
    rewrite Hoff. by destruct c1, c2. }
  unfold getAll. rewrite Hdb, Hp, Hl.
  destruct c1, c2; cbn [data ok_page]; try done;
    unfold MockDataService.getResources;
    rewrite page_take_drop by done;
    (destruct (q_disaster_id q) as [d|]; [destruct (truthy d) eqn:Hd |]);
    cbn [truthy_opt default data ok_page]; rewrite ?Hd; done.
Qed.

End ResourcePages.

Lemma resources_pages_alike_witness :
  List.map Resource.id
    (default []
       (Http.data (ResourceRoutes.getAll (H := Examples.latitude_band)
                     DbOk DbOk Examples.near_nyc
                     (MockDataService.mockResources 0)
                     (MockDataService.mockResources 0))))
  = ["resource-1"; "resource-2"]
  /\ List.map Resource.id
       (default []
          (Http.data (ResourceRoutes.getAll (H := Examples.latitude_band)
                        DbThrow DbOk Examples.near_nyc
                        (MockDataService.mockResources 0)
                        (MockDataService.mockResources 0))))
     = ["resource-1"; "resource-2"; "resource-3"].
Proof.
  rewrite (resources_pages_alike (H := Examples.latitude_band) DbOk DbOk
             Examples.near_nyc (MockDataService.mockResources 0)
             (MockDataService.mockResources 0) 1 20 eq_refl ltac:(lia)
             eq_refl ltac:(lia)).
  rewrite (resources_pages_alike (H := Examples.latitude_band) DbThrow DbOk
             Examples.near_nyc (MockDataService.mockResources 0)
             (MockDataService.mockResources 0) 1 20 eq_refl ltac:(lia)
             eq_refl ltac:(lia)).
  split; reflexivity.
Defined.
